(* ===== verification/_CoqProject ===== *)
-Q . S2P
Prelude.v
Attack.v
Schedule.v
Config.v
Driver.v
Data.v
Script.v
