(* ===== verification/Prelude.v ===== *)
(** * Adversarial training on YALE: a verification development

    This library models [src/distributional adversarial training/Yale/
    train_robust.py], the script that trains a classifier on the YALE face
    data set against an L-infinity projected-gradient adversary, and proves
    the properties that make its attack and its training loop correct.

    ** The program and its parts

    The script is a sequential loop over TensorFlow and numpy calls:
    - configuration (lines 26-36, 48-49, 62-71, 75, 95): a JSON file read
      once, whose settings are read one by one, in the script's order;
    - the learning-rate schedule (lines 48-56): [tf.train.piecewise_constant]
      applied to the global step cast to [int32];
    - the adversary (lines 66-71, 110): [attack_utils.LinfWRMAttack], whose
      code is not under [src/]: it is modelled from the specification
      (random start, [k] steps of signed-gradient ascent, projection on the
      epsilon-ball of the clean input, clipping to [0, 1]);
    - the setup of the model directory (lines 75-99): its name, its
      creation, the copy of the configuration into it, [eps_step], the
      summary writer;
    - the training driver (lines 97-152): for each iteration [ii], fetch a
      batch, perturb it, print statistics every [num_output_steps], write a
      summary every [num_summary_steps], save a checkpoint every
      [num_checkpoint_steps], then run one Adam step on the adversarial batch.
    The classifier (its forward pass, loss, gradient and accuracy), the Adam
    update, the data set and the clock are external: they enter the model as
    operations of interfaces (type classes) with the laws the code relies on.
    The data set [data_loader.DataSubset] (lines 41, 106) is also given an
    implementation, modelled from the specification, that discharges the
    driver's hypothesis on the batches it yields.

    ** Files, and how they correspond to the code

    - [Prelude] (this file): the exceptions of the script ([py_error]),
      [result] and its [let*] notation (in [robust_scope]), numpy's
      element-wise [clip] and [sign] on rationals, tensors as nested lists
      ([tmap], [tzip]) with the point-wise relation [T2] and its lifting
      lemmas, the tactics [qcases]/[qsolve] (case analysis on [qmax], [qmin],
      [sign] closed by [lra]) and [inv_bind], the hint database [robust],
      [mapM] for comprehensions that may raise, and the facts on floor
      division by a positive cadence and on slices [l[i:i+b]].
    - [Attack], module [LinfWRMAttack]: the attack object of lines 66-71
      ([attack]), one iteration of [perturb] ([ascent_step]), the random
      start ([perturb_init]), [perturb] itself, the interface [Classifier]
      (input gradient with its shape law) it needs of the model, and the
      interface [Adversary] it offers the driver (line 110), with the
      instance [linf_adversary] that discharges it.
      Claims C1-C6: feasibility (epsilon-ball and [[0, 1]]), range, the
      direction and size of one ascent step, [epsilon = 0], the total
      displacement [k * a], determinism without random start.
      Claim C28: the end-to-end scenario of the specification computed
      by hand.
    - [Schedule], module [LearningRate]: lines 48-56 with TensorFlow 1's
      [piecewise_constant] ([piecewise_constant] for graph construction,
      [piecewise_eval] for [sess.run]) and the [int32] cast of line 54.
      Claims C7-C9, C16: equivalence with the reference [lr_reference]
      for sorted schedules (which differs from the specification's table
      at the boundaries), construction errors, the wrap-around after
      [2^31] steps, the run-time error of a schedule whose first boundary
      is above its last one.
    - [Driver], module [Training]: lines 97-152 as explicit state passing
      over [train_state] ([train_iteration] per iteration, [train_loop] for
      [range], [train] from line 53 on); the model, Adam, the data set and
      the clock are the interfaces [Model], [Optimizer], [Dataset], [Clock].
      The section variable [save_dir_ok] says whether [saver.save] finds
      [model_dir] as a directory (TF1 raises [ValueError] otherwise).
      Claims C10-C15: refinement of the side-effect-free loop [core_loop],
      the global step, checkpoint contents, the final parameters never
      saved, zero cadences, the bound on the logged perturbation sizes.
      Claim C18: a second run into the same model directory restarts at
      step 0, overwrites the earlier run's checkpoints at its own
      checkpoint steps and keeps the others.
      Claims C19-C21: the invariant of [training_time] against the
      reference [timer_window], the throughput printed at line 132, and
      that [train] returns (no exception, all steps taken) with a
      directory for the saver, non-zero cadences, a sorted schedule and
      positive timer readings.
      Claims C26-C27: the steps at which outputs, summaries and
      checkpoints are emitted are exactly the multiples of their cadences
      ([tags] against [multiples]), and a run of [n] steps saves
      [ceil(n / num_checkpoint_steps)] checkpoints.
    - [Data], module [DataSubset]: [DataSubset.get_next_batch] as
      [next_batch] on the cursor [batch_start], the batches of successive
      calls ([batches]), and the [Dataset] instance [data_subset].
      Claims C31-C33: the size of a batch, one epoch's batches are the
      data in order, the sequence repeats with the period of an epoch.
    - [Config], module [JsonConfig]: the value of [json.load] ([json]),
      Python's subscription, iteration, [int()] and [str()] of integers on
      it, and lines 48-56 from the JSON value of the schedule: the
      comprehensions of lines 50-52 ([schedule_steps], [schedule_rates])
      and the argument conversions of [piecewise_constant]
      ([tf_piecewise_constant]) before the op of [Schedule].
      Claim C17: the discarded first step is converted too, and the first
      failing entry decides the exception.
    - [Script], module [Script]: the whole script ([main]) in a state and
      error monad of its own ([script], notation [let!]) over a file system
      of directories and files ([fs]): [read_file], [path_exists],
      [makedirs], [copy_file], [file_writer] for lines 26, 76-77, 93, 99,
      and [is_dir] for the directory check of [saver.save] (line 144);
      [read_config] for lines 30-71, [model_dir_of] for line 75,
      [eps_step_of] and [np_linspace] for line 95, [loop_setup] and
      [run_loop] for what the loop reads and runs; [json.load] and
      [repr] of floats are the interfaces [JsonLoad] and [PyRepr].
      Claims C22-C25: after a successful run the configuration copy is in
      the model directory, or a file was there, was overwritten and no
      step ran; a missing [num_schedule_steps] fails after the directory
      and the copy were written; a file at [model_dir] is overwritten and
      the run stops with [ValueError] at the first [saver.save]; the
      script runs to its end on a well-formed configuration into a fresh
      directory (C25, the totality of [main]).
      Claims C29-C30: a successful run ends at global step
      [max(0, max_num_training_steps)], and, with the Yale data set of
      [Data] (section [Yale]), every printed perturbation size is at most
      [config['epsilon']] when the training images are valid: the bound of
      [Attack] composed through [Driver] and the whole script.
      Claim C34: an exception while reading the settings (lines 30-71)
      ends the script before it writes anything.

    The claims are numbered as in the manifest; each theorem with a
    hypothesis has a [_witness] lemma running it on a concrete input (the
    binary linear classifier of [Attack], the constant environment at the
    end of [Driver], five one-pixel images at the end of [Data], and a
    configuration and file system at the end of [Script]).

    ** Numbers, bounds and fuel

    Pixel values, noise, step sizes and learning rates are rationals [Q]
    (float arithmetic is idealised: the bounds hold up to rounding, as the
    specification allows); equality of values is [Qeq], and the operations
    are [Proper] for it. The global step is a [Z] kept at the width of the
    [int32] cast of line 54. Loops are structural: the attack iterates
    [Z.to_nat k] times ([range(k)] is empty for [k <= 0]) and the training
    loop [Z.to_nat max_num_training_steps] times, so no fuel is needed.

    The timer is the reference [timer_window N ii]: the durations since
    the last reset [r = N * ((ii - 1) // N)], which needs [N > 0] (a zero
    cadence is the [ZeroDivisionError] of C14). [eps_step] is exact
    rational arithmetic: numpy's rounding is not modelled.

    ** Not modelled, or modelled with a simplification

    - [json.load] (the parse of the text) and CPython's [repr] of floats
      and containers: library code, the interfaces [JsonLoad], [PyRepr];
      NaN and infinite floats are not values of [json].
    - A rate that is a string, a list or a dict: TensorFlow builds the op
      for some of these and fails later; the model refuses them when the
      op is built, with [TypeError].
    - A cadence given as a float: Python's [ii % 2.0] works, the model
      refuses it ([loop_setup] takes the cadences and the batch size as
      integers, as the repository's configuration files write them).
    - The classifier, Adam and the clock are interfaces; their layers,
      update rule and readings are outside [src/] or library code.
      [YALE_split] (loading the [.mat] file) is I/O and not modelled; the
      batches of [DataSubset] follow the specification's sequential order
      (the reshuffle between epochs is not modelled), and a batch size
      below 1 gives an empty batch. Console and TensorBoard formatting, the event file of
      the summary writer, and the files [saver.save] writes (only their
      names, [ckpt_prefix], see below) are not modelled; the checkpoints are the map
      [checkpoints] of [Driver].
    - [os.environ] settings and [sys.path] (lines 16-23): no effect on the
      modelled behaviour.

    ** What remains outside the development, and why

    - The checkpoint files themselves: their format is TensorFlow's (the
      specification leaves it out of scope), so a checkpoint is the entry
      of [checkpoints] under its step and only the names ([ckpt_prefix])
      are computed; the file system of [Script] holds the configuration
      copy and the directories.
    - The [CW] loss: its formula is in [attack_utils.py] and the
      specification leaves it open; it is the [loss_kind] argument of
      [Classifier.loss_grad], selected from [config['loss_func']].
    - The reshuffle of [DataSubset] between epochs: the specification
      gives the order as sequential, which is what [Data] models.
    - Adam's update (square roots of float moments) and the classifier's
      layers: library code and code outside [src/], kept as the
      interfaces [Optimizer] and [Model]/[Classifier]. *)

From Stdlib Require Import QArith Lqa ZArith Lia List SetoidList Morphisms.
Import ListNotations.

Declare Scope robust_scope.
Delimit Scope robust_scope with robust.

(** ** Errors of the script *)

(** The exceptions that stop the script: Python's and TensorFlow's. Nothing
    in [train_robust.py] catches an exception. *)
Inductive py_error :=
| ValueError
| IndexError
| KeyError
| ZeroDivisionError
| TypeError
| OSError
| InvalidArgumentError.

Inductive result (A : Type) : Type :=
| Ok (a : A)
| Err (e : py_error).
Arguments Ok {A} a.
Arguments Err {A} e.

Definition bind {A B} (r : result A) (f : A -> result B) : result B :=
  match r with
  | Ok a => f a
  | Err e => Err e
  end.

Notation "'let*' p ':=' c 'in' k" := (bind c (fun p => k))
  (at level 10, p pattern, c at level 100, k at level 200) : robust_scope.

(** A list comprehension whose body may raise: the first exception, in
    the order of the list, stops it. *)
Fixpoint mapM {A B} (f : A -> result B) (l : list A) : result (list B) :=
  match l with
  | [] => Ok []
  | a :: l' => bind (f a) (fun b => bind (mapM f l') (fun bs => Ok (b :: bs)))
  end.

(** ** numpy's element-wise operations on rationals *)

Open Scope Q_scope.

Definition qmax (x y : Q) : Q := if Qle_bool x y then y else x.
Definition qmin (x y : Q) : Q := if Qle_bool x y then x else y.

(** [np.clip(x, lo, hi)] is [np.minimum(np.maximum(x, lo), hi)]. *)
Definition clip (x lo hi : Q) : Q := qmin (qmax x lo) hi.

(** [np.sign]. *)
Definition sign (g : Q) : Q :=
  match Qcompare g 0 with
  | Gt => 1
  | Lt => -1
  | Eq => 0
  end.

(** ** Tensors *)

(** An image is its pixels in row-major order; a batch is a list of images
    (the first axis of the numpy arrays). *)
Definition image := list Q.
Definition batch := list image.
Definition labels := list Z.

Fixpoint zip_with {A B C} (f : A -> B -> C) (xs : list A) (ys : list B) : list C :=
  match xs, ys with
  | x :: xs', y :: ys' => f x y :: zip_with f xs' ys'
  | _, _ => []
  end.

(** Element-wise operations on tensors of rank two (a batch of flattened
    images), as numpy broadcasts them on arrays of equal shape. *)
Definition tensor (A : Type) := list (list A).
Definition tmap {A B} (f : A -> B) (x : tensor A) : tensor B := map (map f) x.
Definition tzip {A B C} (f : A -> B -> C) (x : tensor A) (y : tensor B) : tensor C :=
  zip_with (zip_with f) x y.

(** [T2 R x y]: [x] and [y] have the same shape and [R] holds of the
    elements at every position. *)
Definition T2 {A B} (R : A -> B -> Prop) : tensor A -> tensor B -> Prop := Forall2 (Forall2 R).

Definition same_shape {A B} : tensor A -> tensor B -> Prop := T2 (fun _ _ => True).

(** Every element of a tensor satisfies [P]. *)
Definition Tall {A} (P : A -> Prop) : tensor A -> Prop := Forall (Forall P).

Definition in_unit (x : batch) : Prop := Tall (fun v => 0 <= v <= 1) x.

Create HintDb robust.

(** ** Lemmas on the error monad *)

Lemma bind_Ok {A B} (r : result A) (f : A -> result B) b :
  bind r f = Ok b -> exists a, r = Ok a /\ f a = Ok b.
Proof. destruct r as [a|e]; simpl; [eauto | discriminate]. Qed.

Lemma bind_Err {A B} (r : result A) (f : A -> result B) e :
  r = Err e -> bind r f = Err e.
Proof. intros ->. reflexivity. Qed.

Lemma mapM_Ok {A B} (f : A -> result B) l bs :
  mapM f l = Ok bs -> Forall2 (fun a b => f a = Ok b) l bs.
Proof.
  revert bs. induction l as [|a l IH]; intros bs Hok; simpl in Hok.
  - injection Hok as <-. constructor.
  - destruct (f a) as [b|e] eqn:Ef; [|discriminate]. simpl in Hok.
    destruct (mapM f l) as [bs'|e] eqn:El; [|discriminate]. injection Hok as <-.
    constructor; [exact Ef | apply IH; reflexivity].
Qed.

Lemma mapM_ext_Ok {A B} (f : A -> result B) (h : A -> B) l :
  (forall a, In a l -> f a = Ok (h a)) -> mapM f l = Ok (map h l).
Proof.
  induction l as [|a l IH]; intros Hf; simpl; [reflexivity|].
  rewrite (Hf a (or_introl eq_refl)), IH by (intros; apply Hf; right; assumption).
  reflexivity.
Qed.

Lemma mapM_map_Ok {A B C} (f : B -> result C) (g : A -> B) (h : A -> C) l :
  (forall a, In a l -> f (g a) = Ok (h a)) -> mapM f (map g l) = Ok (map h l).
Proof.
  intros Hf. rewrite <- (map_map h (fun c => c)), map_id.
  induction l as [|a l IH]; simpl; [reflexivity|].
  rewrite (Hf a (or_introl eq_refl)), IH by (intros; apply Hf; right; assumption).
  reflexivity.
Qed.

(** The first failing element decides the error. *)
Lemma mapM_app_Err {A B} (f : A -> result B) l1 a l2 bs e :
  mapM f l1 = Ok bs -> f a = Err e -> mapM f (l1 ++ a :: l2) = Err e.
Proof.
  revert bs. induction l1 as [|a1 l1 IH]; intros bs H1 Ha; simpl.
  - rewrite Ha. reflexivity.
  - simpl in H1. destruct (f a1); [|discriminate]. simpl in H1 |- *.
    destruct (mapM f l1) as [bs1|] eqn:E1; [|discriminate].
    rewrite (IH bs1 eq_refl Ha). reflexivity.
Qed.

(** Destructs every successful [bind] of the hypotheses, and the pairs
    their continuations take apart. *)
Ltac inv_bind :=
  repeat match goal with
  | H : bind _ _ = Ok _ |- _ =>
      let a := fresh "a" in let Ha := fresh "Ha" in
      apply bind_Ok in H; destruct H as [a [Ha H]]
  | H : (match ?p with pair _ _ => _ end) = Ok _ |- _ => destruct p
  end.

(** ** Lemmas on the comparisons of [Q] *)

Lemma Qle_bool_false x y : Qle_bool x y = false -> y < x.
Proof.
  intros H. apply Qnot_le_lt. intros Hle.
  apply Qle_bool_iff in Hle. congruence.
Qed.

Lemma qmax_cases x y : (x <= y /\ qmax x y = y) \/ (y < x /\ qmax x y = x).
Proof.
  unfold qmax. destruct (Qle_bool x y) eqn:H;
    [left; split; [apply Qle_bool_iff|]; auto | right; split; [apply Qle_bool_false|]; auto].
Qed.

Lemma qmin_cases x y : (x <= y /\ qmin x y = x) \/ (y < x /\ qmin x y = y).
Proof.
  unfold qmin. destruct (Qle_bool x y) eqn:H;
    [left; split; [apply Qle_bool_iff|]; auto | right; split; [apply Qle_bool_false|]; auto].
Qed.

Lemma sign_cases g :
  (0 < g /\ sign g = 1) \/ (g < 0 /\ sign g = -1) \/ (g == 0 /\ sign g = 0).
Proof. unfold sign. destruct (Qcompare_spec g 0); auto. Qed.

Lemma sign_pos g : 0 < g -> sign g = 1.
Proof. intros Hg. destruct (sign_cases g) as [[_ H]|[[? _]|[? _]]]; [exact H | lra | lra]. Qed.

Lemma sign_neg g : g < 0 -> sign g = -1.
Proof. intros Hg. destruct (sign_cases g) as [[? _]|[[_ H]|[? _]]]; [lra | exact H | lra]. Qed.

(** Case analysis on every [qmax], [qmin] and [sign] of the goal and the
    hypotheses, each outcome becoming an (in)equation for [lra]. *)
Ltac qcase_on t :=
  lazymatch t with
  | qmax ?a ?b =>
      let E := fresh "E" in destruct (qmax_cases a b) as [[? E]|[? E]]; rewrite E in *; clear E
  | qmin ?a ?b =>
      let E := fresh "E" in destruct (qmin_cases a b) as [[? E]|[? E]]; rewrite E in *; clear E
  | sign ?g =>
      let E := fresh "E" in
      destruct (sign_cases g) as [[? E]|[[? E]|[? E]]]; rewrite E in *; clear E
  end.

Ltac qcases :=
  repeat match goal with
  | |- context [?t] => qcase_on t
  | H : context [?t] |- _ => qcase_on t
  end.

Ltac qsolve := unfold clip in *; qcases; lra.

(** ** Lemmas on [clip] and [sign] *)

Lemma clip_le_hi x lo hi : clip x lo hi <= hi.
Proof. qsolve. Qed.

Lemma clip_ge_lo x lo hi : lo <= hi -> lo <= clip x lo hi.
Proof. intros. qsolve. Qed.

Lemma clip_id x lo hi : lo <= x <= hi -> clip x lo hi == x.
Proof. intros. qsolve. Qed.

(** Clipping to [[lo, hi]] keeps a value inside any interval [[l, h]] that
    it was in, as long as the two intervals meet. *)
Lemma clip_in_interval x lo hi l h :
  l <= x <= h -> l <= hi -> lo <= h -> l <= clip x lo hi <= h.
Proof. intros. qsolve. Qed.

Lemma clip_in_unit x : 0 <= clip x 0 1 <= 1.
Proof. qsolve. Qed.

Lemma sign_bound g : -1 <= sign g <= 1.
Proof. qsolve. Qed.

Lemma fold_qmax_le (l : list Q) acc b :
  Forall (fun m => m <= b) l -> acc <= b -> fold_left qmax l acc <= b.
Proof.
  intros Hl. revert acc. induction Hl as [|m l Hm _ IH]; intros acc Ha; simpl; [exact Ha|].
  apply IH. qsolve.
Qed.

#[export] Hint Resolve clip_le_hi clip_ge_lo clip_in_unit : robust.

#[export] Instance qmax_Proper : Proper (Qeq ==> Qeq ==> Qeq) qmax.
Proof. intros x x' Hx y y' Hy. qcases; lra. Qed.

#[export] Instance qmin_Proper : Proper (Qeq ==> Qeq ==> Qeq) qmin.
Proof. intros x x' Hx y y' Hy. qcases; lra. Qed.

#[export] Instance clip_Proper : Proper (Qeq ==> Qeq ==> Qeq ==> Qeq) clip.
Proof. intros x x' Hx l l' Hl h h' Hh. unfold clip. rewrite Hx, Hl, Hh. reflexivity. Qed.

#[export] Instance sign_Proper : Proper (Qeq ==> Qeq) sign.
Proof. intros x x' Hx. unfold sign. rewrite Hx. reflexivity. Qed.

(** ** Lifting point-wise facts to tensors *)

Section Lifting.
Context {A B C D : Type}.

Lemma Forall2_zip_with (R1 : A -> D -> Prop) (R2 : B -> D -> Prop) (R3 : C -> D -> Prop)
      (f : A -> B -> C) xs ys zs :
  Forall2 R1 xs zs -> Forall2 R2 ys zs ->
  (forall x y z, R1 x z -> R2 y z -> R3 (f x y) z) ->
  Forall2 R3 (zip_with f xs ys) zs.
Proof.
  intros H1. revert ys. induction H1; intros ys H2 Hf; inversion H2; subst; simpl; auto.
Qed.

Lemma Forall2_map_l (R1 : A -> D -> Prop) (R2 : B -> D -> Prop) (f : A -> B) xs zs :
  Forall2 R1 xs zs -> (forall x z, R1 x z -> R2 (f x) z) -> Forall2 R2 (map f xs) zs.
Proof. induction 1; simpl; auto. Qed.

Lemma Forall2_compose (R1 : A -> B -> Prop) (R2 : B -> D -> Prop) (R3 : A -> D -> Prop)
      xs ys zs :
  Forall2 R1 xs ys -> Forall2 R2 ys zs ->
  (forall x y z, R1 x y -> R2 y z -> R3 x z) -> Forall2 R3 xs zs.
Proof.
  intros H1. revert zs. induction H1; intros zs H2 Hf; inversion H2; subst; eauto.
Qed.

Lemma Forall2_diag (P : A -> Prop) (R : A -> A -> Prop) xs :
  Forall P xs -> (forall x, P x -> R x x) -> Forall2 R xs xs.
Proof. induction 1; auto. Qed.

Lemma Forall2_zip_with_l (R : A -> B -> Prop) (f : A -> B -> C) xs ys :
  Forall2 R xs ys -> Forall2 (fun x c => exists y, R x y /\ c = f x y) xs (zip_with f xs ys).
Proof. induction 1; simpl; eauto. Qed.

Lemma Forall2_zip_with_r (R : A -> B -> Prop) (f : A -> B -> C) xs ys :
  Forall2 R xs ys -> Forall2 (fun y c => exists x, R x y /\ c = f x y) ys (zip_with f xs ys).
Proof. induction 1; simpl; eauto. Qed.

Lemma Forall2_True_length (xs : list A) (ys : list B) :
  length xs = length ys -> Forall2 (fun _ _ => True) xs ys.
Proof. revert ys. induction xs; intros [|? ?] H; simpl in *; try discriminate; auto. Qed.

Lemma Forall_zip_with (R : A -> B -> Prop) (P : C -> Prop) (f : A -> B -> C) xs ys :
  Forall2 R xs ys -> (forall x y, R x y -> P (f x y)) -> Forall P (zip_with f xs ys).
Proof. induction 1; simpl; auto. Qed.

Lemma Forall2_Forall_r_join (R : A -> B -> Prop) (P : B -> Prop) xs ys :
  Forall2 R xs ys -> Forall P ys -> Forall2 (fun x y => R x y /\ P y) xs ys.
Proof. induction 1; intros HP; inversion HP; subst; auto. Qed.

Lemma Forall2_Forall_l (R : A -> B -> Prop) (P : A -> Prop) xs ys :
  Forall2 R xs ys -> (forall x y, R x y -> P x) -> Forall P xs.
Proof. induction 1; eauto. Qed.
End Lifting.

Section Tensors.
Context {A B C D : Type}.

Lemma T2_zip (R1 : A -> D -> Prop) (R2 : B -> D -> Prop) (R3 : C -> D -> Prop) f x y z :
  T2 R1 x z -> T2 R2 y z ->
  (forall a b c, R1 a c -> R2 b c -> R3 (f a b) c) -> T2 R3 (tzip f x y) z.
Proof.
  intros H1 H2 Hf. eapply Forall2_zip_with; [exact H1 | exact H2 |].
  intros. eapply Forall2_zip_with; eauto.
Qed.

Lemma T2_map (R1 : A -> D -> Prop) (R2 : B -> D -> Prop) f x z :
  T2 R1 x z -> (forall a c, R1 a c -> R2 (f a) c) -> T2 R2 (tmap f x) z.
Proof. intros H Hf. eapply Forall2_map_l; [exact H|]. intros. eapply Forall2_map_l; eauto. Qed.

Lemma T2_compose (R1 : A -> B -> Prop) (R2 : B -> D -> Prop) (R3 : A -> D -> Prop) x y z :
  T2 R1 x y -> T2 R2 y z -> (forall a b c, R1 a b -> R2 b c -> R3 a c) -> T2 R3 x z.
Proof.
  intros H1 H2 Hf. eapply Forall2_compose; [exact H1 | exact H2 |].
  intros. eapply Forall2_compose; eauto.
Qed.

Lemma T2_diag (P : A -> Prop) (R : A -> A -> Prop) x :
  Tall P x -> (forall a, P a -> R a a) -> T2 R x x.
Proof. intros H Hf. eapply Forall2_diag; [exact H|]. intros. eapply Forall2_diag; eauto. Qed.

Lemma T2_Tall (R : A -> B -> Prop) (P : A -> Prop) x z :
  T2 R x z -> (forall a c, R a c -> P a) -> Tall P x.
Proof.
  intros H Hf. eapply Forall2_Forall_l; [exact H|]. intros. eapply Forall2_Forall_l; eauto.
Qed.

Lemma T2_impl (R1 R2 : A -> B -> Prop) x z :
  T2 R1 x z -> (forall a c, R1 a c -> R2 a c) -> T2 R2 x z.
Proof. intros H Hf. eapply Forall2_impl; [|exact H]. intros. eapply Forall2_impl; eauto. Qed.

Lemma T2_flip (R : A -> B -> Prop) x z : T2 R x z -> T2 (fun b a => R a b) z x.
Proof. intros H. apply Forall2_flip. eapply Forall2_impl; [|exact H]. intros. now apply Forall2_flip. Qed.

(** A fact on every element of the second tensor joins the relation. *)
Lemma T2_Tall_r (R : A -> B -> Prop) (P : B -> Prop) x z :
  T2 R x z -> Tall P z -> T2 (fun a c => R a c /\ P c) x z.
Proof.
  intros H HP. eapply Forall2_Forall_r_join in H; [|exact HP].
  eapply Forall2_impl; [|exact H]. intros ? ? [H1 H2]. now apply Forall2_Forall_r_join.
Qed.

Lemma T2_map_r (R1 : A -> B -> Prop) (R2 : A -> C -> Prop) (f : B -> C) x z :
  T2 R1 x z -> (forall a c, R1 a c -> R2 a (f c)) -> T2 R2 x (tmap f z).
Proof.
  intros H Hf. unfold T2, tmap. induction H as [|r r' x z Hr _ IH]; constructor; auto.
  clear IH. induction Hr; constructor; auto.
Qed.

(** Each element of [x] (of [y]) against the element [tzip f x y] has at
    its position. *)
Lemma T2_tzip_l (R : A -> B -> Prop) (f : A -> B -> C) x y :
  T2 R x y -> T2 (fun a c => exists b, R a b /\ c = f a b) x (tzip f x y).
Proof.
  intros H. eapply Forall2_impl; [|exact (Forall2_zip_with_l _ _ _ _ H)].
  intros r c [r' [Hr ->]]. apply Forall2_zip_with_l. exact Hr.
Qed.

Lemma T2_tzip_r (R : A -> B -> Prop) (f : A -> B -> C) x y :
  T2 R x y -> T2 (fun b c => exists a, R a b /\ c = f a b) y (tzip f x y).
Proof.
  intros H. eapply Forall2_impl; [|exact (Forall2_zip_with_r _ _ _ _ H)].
  intros r c [r' [Hr ->]]. apply Forall2_zip_with_r. exact Hr.
Qed.

Lemma T2_eq_refl (x : tensor A) : T2 eq x x.
Proof. induction x as [|r x IH]; constructor; auto. induction r; constructor; auto. Qed.

Lemma Tall_tmap (P : B -> Prop) (f : A -> B) x : (forall a, P (f a)) -> Tall P (tmap f x).
Proof.
  intros Hf. induction x as [|r x IH]; constructor; auto.
  induction r; constructor; auto.
Qed.
End Tensors.

(** ** Floor division by a positive cadence

    Python's [ii % N] and [ii // N] are [Z.modulo] and [Z.div]. *)

Section FloorDiv.
Local Open Scope Z_scope.
Variable N : Z.
Hypothesis HN : 0 < N.

Lemma div_neg_one : (-1) / N = -1.
Proof. Z.div_mod_to_equations. nia. Qed.

Lemma mul_div_exact ii : ii mod N = 0 -> N * (ii / N) = ii.
Proof. intros. Z.div_mod_to_equations. nia. Qed.

Lemma div_pred_nonmultiple ii : ii mod N <> 0 -> ii / N = (ii - 1) / N.
Proof. intros. Z.div_mod_to_equations. nia. Qed.

Lemma mul_div_pred_le ii : N * ((ii - 1) / N) <= ii - 1.
Proof. Z.div_mod_to_equations. nia. Qed.

(** [ceil(n / N)], the number of multiples of [N] in [range(n)], grows by
    one exactly at the multiples. *)
Lemma ceil_div_step n :
  (n + 1 + N - 1) / N = (n + N - 1) / N + (if n mod N =? 0 then 1 else 0).
Proof.
  pose proof (Z.div_mod n N ltac:(lia)) as Hd. pose proof (Z.mod_pos_bound n N HN) as Hb.
  set (q := n / N) in *. set (r := n mod N) in *.
  destruct (Z.eqb_spec r 0) as [E|E].
  - rewrite <- (Z.div_unique (n + N - 1) N q (N - 1)) by lia.
    rewrite <- (Z.div_unique (n + 1 + N - 1) N (q + 1) 0) by lia. reflexivity.
  - rewrite <- (Z.div_unique (n + N - 1) N (q + 1) (r - 1)) by lia.
    rewrite <- (Z.div_unique (n + 1 + N - 1) N (q + 1) r) by lia. lia.
Qed.
End FloorDiv.

(** ** Slices

    Python's [l[i:i+b]] is [firstn b (skipn i l)]. *)

Section Slices.
Local Open Scope nat_scope.
Context {A : Type}.

Lemma Forall_slice (P : A -> Prop) (l : list A) b i :
  Forall P l -> Forall P (firstn b (skipn i l)).
Proof.
  intros H. rewrite <- (firstn_skipn i l) in H. apply Forall_app in H as [_ H].
  rewrite <- (firstn_skipn b (skipn i l)) in H. apply Forall_app in H as [H _]. exact H.
Qed.

Lemma firstn_add (l : list A) a b : firstn (a + b) l = firstn a l ++ firstn b (skipn a l).
Proof.
  revert l. induction a as [|a IH]; intros [|x l]; cbn; try reflexivity.
  - rewrite firstn_nil. reflexivity.
  - f_equal. apply IH.
Qed.

Lemma slice_length (l : list A) b i : i + b <= List.length l -> List.length (firstn b (skipn i l)) = b.
Proof. intros. rewrite length_firstn, length_skipn. lia. Qed.
End Slices.
