(* ===== verification/Attack.v ===== *)
(** * The perturbation generator

    [train_robust.py] builds [attack = LinfWRMAttack(model, epsilon, k, a,
    random_start, loss_func)] (lines 66-71) and calls
    [attack.perturb(x_batch, y_batch, sess)] once per training iteration
    (line 110). The class lives in [attack_utils.py], outside [src/]; it is
    modelled here from the specification (section 4.1): an optional uniform
    random start, clipped to [[0, 1]], then [k] steps of
    [x += a * sign(grad)], [x = clip(x, x_nat - epsilon, x_nat + epsilon)],
    [x = clip(x, 0, 1)].

    The model is reached through the interface [Classifier]: the gradient
    of the selected loss with respect to the input, at the current
    parameters, which the attack reads and never changes. The random start
    is the draw [noise] of numpy's uniform generator, passed in.

    Theorems: every output is in the epsilon-ball of the clean batch and in
    [[0, 1]] ([perturb_feasible], [perturb_in_unit]); an ascent step moves
    each pixel in the direction of its gradient's sign and by at most [a]
    ([ascent_step_direction], [perturb_moves_at_most]); the output does not
    depend on the noise without random start; with [epsilon = 0] it is the
    clipped clean batch; the end-to-end scenario of the specification
    (section 8) gives the batch computed by hand ([perturb_end_to_end]). *)

From Stdlib Require Import QArith Lqa ZArith Lia List String Morphisms SetoidList.
From S2P Require Import Prelude.
Import ListNotations.

Module LinfWRMAttack.

Open Scope Q_scope.

(** The loss the attack ascends ([loss_func] of the configuration). *)
Inductive loss_kind := Xent | CW.

(** Reading [config['loss_func']]: an unknown name is a configuration
    error. *)
Definition loss_kind_of_string (s : string) : result loss_kind :=
  if String.eqb s "xent" then Ok Xent
  else if String.eqb s "cw" then Ok CW
  else Err ValueError.

(** What the attack needs of the model: the gradient of a loss with respect
    to the input batch, at given parameters. TensorFlow's gradient has the
    shape of the input for inputs of the model's input shape. *)
Class Classifier (Params : Type) := {
  input_dim : nat;
  loss_grad : loss_kind -> Params -> batch -> labels -> batch;
  loss_grad_shape : forall l p x y,
    Forall (fun img => length img = input_dim) x -> same_shape (loss_grad l p x y) x
}.

(** The attributes of a [LinfWRMAttack] object. *)
Record attack := mk_attack {
  epsilon : Q;
  k : Z;
  a : Q;
  rand : bool;
  loss_func : loss_kind
}.

Definition well_shaped {P : Type} `{Classifier P} (x : batch) : Prop :=
  Forall (fun img => length img = input_dim) x.

(** The feasible set: within [eps] of the clean batch, pixel by pixel, and
    inside [[0, 1]]. *)
Definition feasible (eps : Q) (x x_nat : batch) : Prop :=
  T2 (fun u w => w - eps <= u <= w + eps /\ 0 <= u <= 1) x x_nat.

(** A draw of [np.random.uniform(-eps, eps, x_nat.shape)]. *)
Definition noise_ok (eps : Q) (noise x_nat : batch) : Prop :=
  T2 (fun d _ => - eps <= d <= eps) noise x_nat.

(** The change from [u] to [u'] follows the sign of the gradient [g] and
    is at most [step]. *)
Definition moved_along (step u' u g : Q) : Prop :=
  (0 < g -> u <= u') /\ (g < 0 -> u' <= u) /\ (g == 0 -> u' == u) /\
  u - step <= u' <= u + step.

Section Perturb.
Context {Params : Type} `{Classifier Params}.

(** One iteration of the loop of [perturb]: the gradient at the current
    iterate, a step of [a] along its sign, the projection on the
    epsilon-ball of the clean batch, the clipping to [[0, 1]]. *)
Definition ascent_step (atk : attack) (p : Params) (x_nat : batch) (y : labels)
           (x : batch) : batch :=
  let grad := loss_grad (loss_func atk) p x y in
  let x1 := tzip (fun xi gi => xi + a atk * sign gi) x grad in
  let x2 := tzip (fun xi ni => clip xi (ni - epsilon atk) (ni + epsilon atk)) x1 x_nat in
  tmap (fun xi => clip xi 0 1) x2.

(** The starting point: the clean batch plus the random draw when
    [random_start] is set, clipped to [[0, 1]]. *)
Definition perturb_init (atk : attack) (noise x_nat : batch) : batch :=
  if rand atk then tmap (fun v => clip v 0 1) (tzip Qplus x_nat noise)
  else tmap (fun v => clip v 0 1) x_nat.

(** [perturb]: [for i in range(k)] repeats the ascent step. *)
Definition perturb (atk : attack) (p : Params) (noise x_nat : batch) (y : labels) : batch :=
  Nat.iter (Z.to_nat (k atk)) (ascent_step atk p x_nat y) (perturb_init atk noise x_nat).
End Perturb.

(** ** A binary linear classifier

    The model of the end-to-end scenario of the specification (section 8):
    two classes whose logits differ by [dw . x]. The gradient of the loss
    with respect to the input is a multiple of [dw]; the multiple
    [coef l dw img lbl] is [sigmoid(dw . img) - lbl] for the cross-entropy. *)
Section Linear.
Variable coef : loss_kind -> image -> image -> Z -> Q.

Definition linear_grad_row (l : loss_kind) (dw img : image) (lbl : Z) : image :=
  map (fun j => coef l dw img lbl * nth j dw 0) (seq 0 (length img)).

Fixpoint linear_grad (l : loss_kind) (dw : image) (x : batch) (y : labels) : batch :=
  match x with
  | [] => []
  | img :: x' => linear_grad_row l dw img (hd 0%Z y) :: linear_grad l dw x' (tl y)
  end.

Definition linear_classifier (d : nat) : Classifier image.
Proof.
  refine {| input_dim := d; loss_grad := linear_grad |}.
  intros l dw x y _. revert y.
  induction x as [|img x IH]; intros y; constructor; [|apply IH].
  apply Forall2_True_length. unfold linear_grad_row. now rewrite length_map, length_seq.
Defined.
End Linear.

(** ** Pixel-level facts *)

Lemma pixel_project eps c u :
  0 <= eps -> c - eps <= clip u (c - eps) (c + eps) <= c + eps.
Proof. intros. split; [apply clip_ge_lo; lra | apply clip_le_hi]. Qed.

Lemma pixel_final_feasible eps c v :
  0 <= c <= 1 -> c - eps <= v <= c + eps ->
  c - eps <= clip v 0 1 <= c + eps /\ 0 <= clip v 0 1 <= 1.
Proof. intros. split; [apply clip_in_interval; lra | apply clip_in_unit]. Qed.

Lemma pixel_moved_along eps step w u g :
  0 <= eps -> 0 <= step -> w - eps <= u <= w + eps -> 0 <= u <= 1 ->
  moved_along step (clip (clip (u + step * sign g) (w - eps) (w + eps)) 0 1) u g.
Proof. intros. unfold moved_along, clip. qcases; repeat split; intros; lra. Qed.

Lemma clip_point u lo hi : lo == hi -> clip u lo hi == hi.
Proof. intros. qsolve. Qed.

Lemma well_shaped_T2 {P} `{Classifier P} (R : Q -> Q -> Prop) x z :
  T2 R x z -> well_shaped z -> well_shaped x.
Proof.
  unfold well_shaped. induction 1 as [|r r' x z Hr _ IH]; intros Hz; inversion Hz; subst;
    constructor; auto.
  rewrite (Forall2_length Hr). assumption.
Qed.

Section PerturbProofs.
Context {Params : Type} `{Classifier Params}.

Lemma perturb_init_feasible atk noise x_nat :
  0 <= epsilon atk -> in_unit x_nat ->
  (rand atk = true -> noise_ok (epsilon atk) noise x_nat) ->
  feasible (epsilon atk) (perturb_init atk noise x_nat) x_nat.
Proof.
  intros He Hu Hn. unfold perturb_init, feasible.
  assert (Hd : T2 (fun v c => v = c /\ 0 <= c <= 1) x_nat x_nat)
    by (eapply T2_diag; [exact Hu | auto]).
  set (eps := epsilon atk) in *.
  destruct (rand atk);
    eapply T2_map with (R1 := fun v c => c - eps <= v <= c + eps /\ 0 <= c <= 1);
    try (intros; apply pixel_final_feasible; tauto).
  - eapply T2_zip; [exact Hd | exact (Hn eq_refl) |].
    intros v d c [-> Hc] Hdc. split; [lra | exact Hc].
  - eapply T2_impl; [exact Hd |]. intros v c [-> Hc]. split; [lra | exact Hc].
Qed.

Lemma ascent_step_feasible atk p x_nat y x :
  0 <= epsilon atk -> in_unit x_nat -> well_shaped x_nat ->
  feasible (epsilon atk) x x_nat ->
  feasible (epsilon atk) (ascent_step atk p x_nat y x) x_nat.
Proof.
  intros He Hu Hw Hf. unfold ascent_step, feasible in *.
  set (eps := epsilon atk) in *.
  assert (Hx : T2 (fun _ c => 0 <= c <= 1) x x_nat)
    by (eapply T2_impl; [exact (T2_Tall_r _ _ _ _ Hf Hu) | intros ? ? [_ Hc]; exact Hc]).
  assert (Hg : T2 (fun _ c => 0 <= c <= 1) (loss_grad (loss_func atk) p x y) x_nat).
  { eapply T2_compose; [apply loss_grad_shape; eapply well_shaped_T2; eauto | exact Hx |].
    auto. }
  assert (Hd : T2 (fun v c => v = c) x_nat x_nat) by apply T2_eq_refl.
  eapply T2_map with (R1 := fun v c => c - eps <= v <= c + eps /\ 0 <= c <= 1);
    [| intros; apply pixel_final_feasible; tauto].
  eapply T2_zip; [eapply T2_zip with (R3 := fun _ c => 0 <= c <= 1); [exact Hx | exact Hg |] | exact Hd |].
  - intros v g c Hc _. exact Hc.
  - intros v n c Hc ->. split; [apply pixel_project |]; assumption.
Qed.
(** [C1] Every adversarial batch is within [epsilon] of the clean batch,
    pixel by pixel, and inside [[0, 1]]: the attack stays in its threat
    model, whatever the gradients, for a clean batch of valid pixels. *)
Theorem perturb_feasible atk p noise x_nat y :
  0 <= epsilon atk -> in_unit x_nat -> well_shaped x_nat ->
  (rand atk = true -> noise_ok (epsilon atk) noise x_nat) ->
  feasible (epsilon atk) (perturb atk p noise x_nat y) x_nat.
Proof.
  intros. unfold perturb. apply Nat.iter_invariant.
  - intros. now apply ascent_step_feasible.
  - now apply perturb_init_feasible.
Qed.

(** [C2] Every pixel of every adversarial batch is in [[0, 1]], for any
    clean batch, noise and gradients. *)
Theorem perturb_in_unit atk p noise x_nat y : in_unit (perturb atk p noise x_nat y).
Proof.
  unfold perturb. destruct (Z.to_nat (k atk)) as [|n]; simpl.
  - unfold perturb_init. destruct (rand atk); apply Tall_tmap; intros; apply clip_in_unit.
  - unfold ascent_step. apply Tall_tmap. intros. apply clip_in_unit.
Qed.

(** [C3] One ascent step moves each pixel of a feasible iterate in the
    direction of the sign of its gradient (not at all where the gradient
    is zero) and by at most the step size [a]. *)
Theorem ascent_step_direction atk p x_nat y x :
  0 <= epsilon atk -> 0 <= a atk -> in_unit x_nat -> well_shaped x_nat ->
  feasible (epsilon atk) x x_nat ->
  T2 (fun u' ug => moved_along (a atk) u' (fst ug) (snd ug))
     (ascent_step atk p x_nat y x) (tzip pair x (loss_grad (loss_func atk) p x y)).
Proof.
  intros He Ha Hu Hw Hf. unfold ascent_step, feasible in *.
  set (g := loss_grad (loss_func atk) p x y).
  set (eps := epsilon atk) in *.
  assert (Hs : same_shape x g).
  { apply T2_flip. apply loss_grad_shape. eapply well_shaped_T2; eauto. }
  pose proof (T2_tzip_l _ pair _ _ Hs) as H1.
  pose proof (T2_tzip_r _ pair _ _ Hs) as H2.
  assert (H3 : T2 (fun w ug => w - eps <= fst ug <= w + eps /\ 0 <= fst ug <= 1)
                  x_nat (tzip pair x g)).
  { eapply T2_compose; [apply T2_flip; exact Hf | exact H1 |].
    intros w u ug Hwu [b [_ ->]]. exact Hwu. }
  eapply T2_map with (R1 := fun v ug => exists w, w - eps <= fst ug <= w + eps /\
                                0 <= fst ug <= 1 /\
                                v = clip (fst ug + a atk * sign (snd ug)) (w - eps) (w + eps)).
  - eapply T2_zip; [eapply T2_zip with (R3 := fun v ug => v = fst ug + a atk * sign (snd ug));
                    [exact H1 | exact H2 |] | exact H3 |].
    + intros u gi ug [b [_ ->]] [c [_ E]]. inversion E; subst. reflexivity.
    + intros v w ug -> [Hb Hc]. eauto.
  - intros v ug [w [Hb [Hc ->]]]. apply pixel_moved_along; assumption.
Qed.

(** [C4] With [epsilon = 0] the attack can do nothing: its output is the
    clean batch clipped to [[0, 1]], whatever [k], the gradients and the
    random start. *)
Theorem perturb_eps_zero atk p noise x_nat y :
  epsilon atk == 0 -> well_shaped x_nat ->
  (rand atk = true -> noise_ok (epsilon atk) noise x_nat) ->
  T2 Qeq (perturb atk p noise x_nat y) (tmap (fun v => clip v 0 1) x_nat).
Proof.
  intros He Hw Hn. eapply T2_map_r with (R1 := fun u w => u == clip w 0 1);
    [| intros ? ? E; exact E].
  unfold perturb. apply Nat.iter_invariant.
  - intros x Hx. unfold ascent_step.
    set (g := loss_grad (loss_func atk) p x y).
    assert (Hs : T2 (fun _ _ => True) g x_nat).
    { eapply T2_compose; [apply loss_grad_shape; eapply well_shaped_T2; eauto | exact Hx |].
      auto. }
    assert (Hd : T2 (fun v c => v = c) x_nat x_nat)
      by apply T2_eq_refl.
    eapply T2_map with (R1 := fun v w => v == w); [| intros ? ? E; rewrite E; reflexivity].
    eapply T2_zip; [eapply T2_zip with (R3 := fun _ _ => True); [exact Hx | exact Hs |]
                   | exact Hd |]; [auto|].
    intros v n w _ ->. rewrite clip_point; lra.
  - unfold perturb_init. destruct (rand atk) eqn:Hr.
    + eapply T2_map with (R1 := fun v w => v == w); [| intros ? ? E; rewrite E; reflexivity].
      assert (Hd : T2 (fun v c => v = c) x_nat x_nat)
        by apply T2_eq_refl.
      eapply T2_zip; [exact Hd | exact (Hn eq_refl) |]. intros v d w -> Hdw. lra.
    + eapply T2_map with (R1 := fun v w => v = w); [| intros ? ? ->; reflexivity].
      apply T2_eq_refl.
Qed.
(** [C5] After the random start, the attack moves each pixel by at most
    [k * a] in total: the step size bounds the strength of each
    iteration. *)
Theorem perturb_moves_at_most atk p noise x_nat y :
  0 <= epsilon atk -> 0 <= a atk -> in_unit x_nat -> well_shaped x_nat ->
  (rand atk = true -> noise_ok (epsilon atk) noise x_nat) ->
  T2 (fun u' u => u - inject_Z (Z.of_nat (Z.to_nat (k atk))) * a atk <= u' <=
                  u + inject_Z (Z.of_nat (Z.to_nat (k atk))) * a atk)
     (perturb atk p noise x_nat y) (perturb_init atk noise x_nat).
Proof.
  intros He Ha Hu Hw Hn. unfold perturb.
  set (x0 := perturb_init atk noise x_nat).
  assert (H0 : feasible (epsilon atk) x0 x_nat) by (now apply perturb_init_feasible).
  induction (Z.to_nat (k atk)) as [|n IH]; simpl.
  - eapply T2_diag with (P := fun _ => True); [eapply T2_Tall; [exact H0 | auto] |].
    intros. unfold inject_Z. lra.
  - set (x := Nat.iter n (ascent_step atk p x_nat y) x0) in *.
    assert (Hf : feasible (epsilon atk) x x_nat)
      by (apply Nat.iter_invariant; [intros; now apply ascent_step_feasible | exact H0]).
    pose proof (ascent_step_direction atk p x_nat y x He Ha Hu Hw Hf) as Hd.
    assert (Hs : same_shape x (loss_grad (loss_func atk) p x y)).
    { apply T2_flip. apply loss_grad_shape. eapply well_shaped_T2; eauto. }
    pose proof (T2_flip _ _ _ (T2_tzip_l _ pair _ _ Hs)) as Hp.
    eapply T2_compose; [eapply T2_compose with (R3 := fun v u => u - a atk <= v <= u + a atk);
                        [exact Hd | exact Hp |] | exact IH |].
    + intros v ug u Hm [b [_ ->]]. exact (proj2 (proj2 (proj2 Hm))).
    + intros v u u0 Hv Hu0. rewrite Zpos_P_of_succ_nat, <- Z.add_1_r, inject_Z_plus.
      change (inject_Z 1) with 1. simpl in Hv, Hu0.
      rewrite Qmult_plus_distr_l, Qmult_1_l. lra.
Qed.

(** [C6] Without random start the attack ignores the noise: two runs on
    the same batch and parameters give the same adversarial batch. *)
Theorem perturb_no_random_start atk p noise1 noise2 x_nat y :
  rand atk = false -> perturb atk p noise1 x_nat y = perturb atk p noise2 x_nat y.
Proof. intros Hr. unfold perturb, perturb_init. now rewrite Hr. Qed.
End PerturbProofs.

(** ** The attack as the driver sees it

    [attack.perturb(x_batch, y_batch, sess)] at line 110: the driver
    passes the current parameters (through the session) and numpy's global
    random state, and relies on one promise: when [adv_epsilon] is not
    negative, for a clean batch of valid pixels of the model's input
    shape, the adversarial batch is in the feasible set of radius
    [adv_epsilon]. *)
Class Adversary (Params Rng : Type) `{Classifier Params} := {
  adv_epsilon : Q;
  adv_perturb : Params -> Rng -> batch -> labels -> Rng * batch;
  adv_feasible : forall p r x y, 0 <= adv_epsilon -> in_unit x -> well_shaped x ->
    feasible adv_epsilon (snd (adv_perturb p r x y)) x
}.

Section AsAdversary.
Context {Params Rng : Type} `{Classifier Params}.
(** [np.random.uniform(-epsilon, epsilon, x.shape)] on numpy's global
    state, drawn only when [random_start] is set. *)
Variable uniform : Q -> Rng -> batch -> Rng * batch.
Hypothesis uniform_ok : forall eps r x, 0 <= eps -> noise_ok eps (snd (uniform eps r x)) x.

Definition linf_perturb (atk : attack) (p : Params) (r : Rng) (x : batch) (y : labels)
  : Rng * batch :=
  let '(r', noise) := if rand atk then uniform (epsilon atk) r x else (r, []) in
  (r', perturb atk p noise x y).

Lemma linf_perturb_feasible atk p r x y :
  0 <= epsilon atk -> in_unit x -> well_shaped x ->
  feasible (epsilon atk) (snd (linf_perturb atk p r x y)) x.
Proof.
  intros He Hu Hw. unfold linf_perturb.
  destruct (rand atk) eqn:Hr.
  - pose proof (uniform_ok (epsilon atk) r x He) as Hn.
    destruct (uniform (epsilon atk) r x) as [r' noise]. apply perturb_feasible; auto.
  - apply perturb_feasible; auto. congruence.
Qed.

(** [LinfWRMAttack] keeps the promise. *)
Definition linf_adversary (atk : attack) : Adversary Params Rng :=
  {| adv_epsilon := epsilon atk;
     adv_perturb := linf_perturb atk;
     adv_feasible := linf_perturb_feasible atk |}.
End AsAdversary.

(** ** Concrete runs *)

Definition coef_half (l : loss_kind) (dw img : image) (lbl : Z) : Q :=
  if Z.eqb lbl 1 then -(1#2) else 1#2.

Definition lin := linear_classifier coef_half 2.
Definition x_ex : batch := [[0; 1#2]; [1; 1#4]].
Definition y_ex : labels := [1%Z; 0%Z].
Definition dw_ex : image := [1; -1].
Definition noise_ex : batch := [[1#20; -(1#10)]; [0; 1#10]].
Definition atk_ex : attack := mk_attack (1#10) 2 (1#20) true Xent.

Ltac concrete :=
  cbv [in_unit well_shaped noise_ok feasible T2 Tall x_ex y_ex dw_ex noise_ex atk_ex
       epsilon input_dim lin linear_classifier];
  repeat constructor; lra.

(** [C28] The end-to-end scenario of the specification (section 8): a
    two-example batch, the binary linear classifier, [epsilon = 0.1],
    [k = 1], [a = 0.1], no random start, the cross-entropy loss. Whatever
    the magnitudes of the gradient, its coefficient [sigmoid(dw . x) - y]
    is negative for label 1 and positive for label 0, and [perturb]
    returns the batch computed by hand: each pixel moves by [0.1] against
    the label's direction along [dw], then is clipped to [[0, 1]]:
    [[[0, 0.6], [1, 0.15]]]. *)
Theorem perturb_end_to_end (coef : loss_kind -> image -> image -> Z -> Q) :
  (forall dw img, coef Xent dw img 1%Z < 0) -> (forall dw img, 0 < coef Xent dw img 0%Z) ->
  T2 Qeq (@perturb image (linear_classifier coef 2) (mk_attack (1#10) 1 (1#10) false Xent)
                   dw_ex [] x_ex y_ex)
         [[0; 3#5]; [1; 3#20]].
Proof.
  intros Hneg Hpos.
  cbv [perturb Nat.iter Z.to_nat Pos.to_nat Pos.iter_op Nat.add ascent_step perturb_init
       rand k a epsilon loss_func loss_grad linear_classifier linear_grad linear_grad_row
       tmap tzip zip_with map seq length nth hd tl x_ex y_ex dw_ex].
  repeat constructor;
    match goal with
    | |- context [sign (coef Xent ?d ?i ?l * ?w)] =>
        pose proof (Hneg d i); pose proof (Hpos d i);
        first [rewrite (sign_neg (coef Xent d i l * w)) by lra
              | rewrite (sign_pos (coef Xent d i l * w)) by lra]
    end; vm_compute; reflexivity.
Qed.

Lemma perturb_end_to_end_witness :
  T2 Qeq (@perturb image lin (mk_attack (1#10) 1 (1#10) false Xent) dw_ex [] x_ex y_ex)
         [[0; 3#5]; [1; 3#20]].
Proof. apply (perturb_end_to_end coef_half); intros; reflexivity. Defined.

Lemma perturb_feasible_witness :
  feasible (1#10) (@perturb image lin atk_ex dw_ex noise_ex x_ex y_ex) x_ex.
Proof.
  apply (@perturb_feasible image lin atk_ex); [simpl; lra | concrete | concrete | intros _; concrete].
Defined.

Lemma ascent_step_direction_witness :
  T2 (fun u' ug => moved_along (1#20) u' (fst ug) (snd ug))
     (@ascent_step image lin atk_ex dw_ex x_ex y_ex x_ex)
     (tzip pair x_ex (@loss_grad image lin Xent dw_ex x_ex y_ex)).
Proof.
  apply (@ascent_step_direction image lin atk_ex); [simpl; lra | simpl; lra | concrete | concrete |].
  concrete.
Defined.

Lemma perturb_eps_zero_witness :
  T2 Qeq (@perturb image lin (mk_attack 0 3 (1#10) true CW) dw_ex [[0; 0]; [0; 0]] x_ex y_ex)
         (tmap (fun v => clip v 0 1) x_ex).
Proof.
  apply (@perturb_eps_zero image lin); [reflexivity | concrete | intros _; simpl; concrete].
Defined.

Lemma perturb_moves_at_most_witness :
  T2 (fun u' u => u - 2 * (1#20) <= u' <= u + 2 * (1#20))
     (@perturb image lin atk_ex dw_ex noise_ex x_ex y_ex) (perturb_init atk_ex noise_ex x_ex).
Proof.
  apply (@perturb_moves_at_most image lin atk_ex);
    [simpl; lra | simpl; lra | concrete | concrete | intros _; concrete].
Defined.

Lemma perturb_no_random_start_witness :
  @perturb image lin (mk_attack (1#10) 1 (1#10) false Xent) dw_ex noise_ex x_ex y_ex =
  @perturb image lin (mk_attack (1#10) 1 (1#10) false Xent) dw_ex [] x_ex y_ex.
Proof. apply (@perturb_no_random_start image lin). reflexivity. Defined.

End LinfWRMAttack.
