(* ===== verification/Schedule.v ===== *)
(** * The learning-rate schedule

    Lines 48-56 of [train_robust.py]:
<<
    step_size_schedule = config['step_size_schedule']
    boundaries = [int(sss[0]) for sss in step_size_schedule]
    boundaries = boundaries[1:]
    values = [sss[1] for sss in step_size_schedule]
    learning_rate = tf.train.piecewise_constant(
        tf.cast(global_step, tf.int32), boundaries, values)
>>
    The schedule is a list of [(step, rate)] pairs; the first step is
    dropped, so the first rate holds until the second step. TensorFlow 1's
    [piecewise_constant] checks its arguments when the graph is built
    ([ValueError] when [len(boundaries) != len(values) - 1] or a boundary is
    not an [int32]; [IndexError] on [boundaries[0]] when there is none) and,
    at each [sess.run], evaluates the predicates
    [x <= b[0]], [x > b[-1]] and [b[i] < x <= b[i+1]] under an exclusive
    [tf.case] ([InvalidArgumentError] when two hold, the first value when
    none does). [x] is the global step cast to [int32], which wraps around.

    Theorems: for sorted boundaries the rate is the value of the last
    schedule entry whose step is strictly below the global step
    ([learning_rate_reference]), which at a boundary is the rate of the
    previous entry, not the new one as the specification states; the
    construction errors; the wrap-around of the cast after [2^31] steps;
    the run-time error of a schedule whose first boundary is above its
    last one. *)

From Stdlib Require Import QArith Lqa ZArith Lia List Bool.
From S2P Require Import Prelude.
Import ListNotations.

Module LearningRate.

Open Scope Z_scope.

(** [config['step_size_schedule']]: [(step, rate)] pairs. *)
Definition schedule := list (Z * Q).

(** [boundaries = [int(sss[0]) for sss in step_size_schedule][1:]] *)
Definition schedule_boundaries (s : schedule) : list Z := skipn 1 (map fst s).

(** [values = [sss[1] for sss in step_size_schedule]] *)
Definition schedule_values (s : schedule) : list Q := map snd s.

Definition int32_min : Z := - 2 ^ 31.
Definition int32_max : Z := 2 ^ 31 - 1.

Definition is_int32 (z : Z) : bool := (int32_min <=? z) && (z <=? int32_max).

(** [tf.cast(global_step, tf.int32)]: two's complement truncation of the
    [int64] variable to 32 bits. *)
Definition cast_int32 (z : Z) : Z := (z + 2 ^ 31) mod 2 ^ 32 - 2 ^ 31.

(** Python's [zip] of three lists: as long as the shortest. *)
Fixpoint zip3 {A B C} (xs : list A) (ys : list B) (zs : list C) : list (A * B * C) :=
  match xs, ys, zs with
  | x :: xs', y :: ys', z :: zs' => (x, y, z) :: zip3 xs' ys' zs'
  | _, _, _ => []
  end.

(** The op [piecewise_constant] builds: its boundaries and values. *)
Record piecewise := mk_piecewise {
  pw_boundaries : list Z;
  pw_values : list Q
}.

(** Graph construction: the checks of [piecewise_constant], in its order. *)
Definition piecewise_constant (boundaries : list Z) (values : list Q) : result piecewise :=
  if negb (Z.of_nat (length boundaries) =? Z.of_nat (length values) - 1) then Err ValueError
  else if negb (forallb is_int32 boundaries) then Err ValueError
  else match boundaries with
       | [] => Err IndexError
       | _ => Ok (mk_piecewise boundaries values)
       end.

(** [tf.case(pred_fn_pairs, default, exclusive=True)]. *)
Definition case_exclusive (pairs : list (bool * Q)) (default : Q) : result Q :=
  match filter fst pairs with
  | [] => Ok default
  | [(_, v)] => Ok v
  | _ :: _ :: _ => Err InvalidArgumentError
  end.

(** The predicates of [piecewise_constant] for the value [x]. *)
Definition piecewise_pairs (bs : list Z) (vs : list Q) (x : Z) : list (bool * Q) :=
  (x <=? hd 0 bs, hd 0%Q vs)
  :: (last bs 0 <? x, last vs 0%Q)
  :: map (fun '(low, high, v) => ((low <? x) && (x <=? high), v))
         (zip3 (removelast bs) (tl bs) (removelast (tl vs))).

(** Running the op on [x]. *)
Definition piecewise_eval (pw : piecewise) (x : Z) : result Q :=
  case_exclusive (piecewise_pairs (pw_boundaries pw) (pw_values pw) x) (hd 0%Q (pw_values pw)).

(** Lines 50-56: the schedule's op. *)
Definition learning_rate_op (s : schedule) : result piecewise :=
  piecewise_constant (schedule_boundaries s) (schedule_values s).

(** The rate of the training step run at global step [step]. *)
Definition learning_rate (pw : piecewise) (step : Z) : result Q :=
  piecewise_eval pw (cast_int32 step).

(** The reference: the rate of the last entry, after the first, whose step
    is strictly below the global step; the first rate if there is none. *)
Definition lr_reference (s : schedule) (step : Z) : Q :=
  fold_left (fun acc e => if fst e <? step then snd e else acc) (tl s) (hd 0%Q (map snd s)).

Fixpoint sortedb (l : list Z) : bool :=
  match l with
  | x :: (y :: _) as l' => (x <=? y) && sortedb l'
  | _ => true
  end.

(** Reading the schedule of lines 50-52 as rates after boundaries: the
    value [scan x cur entries] is reached by taking each entry's rate
    while its step is below [x]. *)
Fixpoint scan (x : Z) (cur : Q) (entries : list (Z * Q)) : Q :=
  match entries with
  | [] => cur
  | (b, v) :: rest => if b <? x then scan x v rest else cur
  end.

(** The schedule of the specification's example (section 8). *)
Definition spec_schedule : schedule := [(0, 1#10); (100, 1#100); (200, 1#1000)].

(** ** Lemmas *)

Definition mid_pairs (x : Z) (entries : list (Z * Q)) : list (bool * Q) :=
  map (fun '(low, high, v) => ((low <? x) && (x <=? high), v))
      (zip3 (removelast (map fst entries)) (tl (map fst entries)) (removelast (map snd entries))).

Lemma mid_pairs_cons x b v b' v' rest :
  mid_pairs x ((b, v) :: (b', v') :: rest) =
  ((b <? x) && (x <=? b'), v) :: mid_pairs x ((b', v') :: rest).
Proof. reflexivity. Qed.

Lemma sortedb_cons b l : sortedb (b :: l) = true -> Forall (Z.le b) l /\ sortedb l = true.
Proof.
  revert b. induction l as [|c l IH]; intros b H; [auto|].
  simpl in H. apply andb_true_iff in H as [Hbc Hs]. apply Z.leb_le in Hbc.
  destruct (IH c Hs) as [Hf _]. split; [constructor; [exact Hbc|] | exact Hs].
  eapply Forall_impl; [|exact Hf]. intros; lia.
Qed.

Lemma last_In {A} (a d : A) l : In (last (a :: l) d) (a :: l).
Proof.
  revert a. induction l as [|c l IH]; intros a; [left; reflexivity|].
  change (last (a :: c :: l) d) with (last (c :: l) d). right. apply IH.
Qed.

Lemma sortedb_last b l : sortedb (b :: l) = true -> b <= last (b :: l) 0.
Proof.
  intros H. destruct (sortedb_cons b l H) as [Hf _].
  destruct (last_In b 0 l) as [E|Hin]; [lia|].
  rewrite Forall_forall in Hf. now apply Hf.
Qed.

Ltac zcases :=
  repeat match goal with
  | |- context [?a <? ?b] => destruct (Z.ltb_spec a b)
  | |- context [?a <=? ?b] => destruct (Z.leb_spec a b)
  end; simpl; try lia; try reflexivity.

(** The middle predicates of an exclusive case over sorted boundaries: one
    holds, the one of the interval containing [x], when [x] is inside the
    boundaries, none otherwise. *)
Lemma mid_pairs_filter x b v entries :
  sortedb (map fst ((b, v) :: entries)) = true ->
  filter fst (mid_pairs x ((b, v) :: entries)) =
  if (b <? x) && (x <=? last (map fst ((b, v) :: entries)) 0)
  then [(true, scan x v entries)] else [].
Proof.
  revert b v. induction entries as [|[b' v'] entries IH]; intros b v Hs.
  - simpl. zcases.
  - rewrite mid_pairs_cons. simpl in Hs |- *. apply andb_true_iff in Hs as [Hbb' Hs].
    apply Z.leb_le in Hbb'. pose proof (sortedb_last b' (map fst entries) Hs) as Hl.
    rewrite (IH b' v' Hs). simpl in Hl |- *.
    destruct (map fst entries) eqn:E; simpl in *; zcases.
Qed.

Lemma scan_stop x cur b v rest : x <= b -> scan x cur ((b, v) :: rest) = cur.
Proof. intros H. simpl. zcases. Qed.

Lemma scan_all_below x cur entries :
  sortedb (map fst entries) = true -> entries <> [] ->
  last (map fst entries) 0 < x -> scan x cur entries = last (map snd entries) 0%Q.
Proof.
  revert cur. induction entries as [|[b v] entries IH]; intros cur Hs Hne Hl; [congruence|].
  destruct (sortedb_cons _ _ Hs) as [_ Hs'].
  destruct entries as [|[b' v'] entries]; [simpl in *; zcases|].
  pose proof (sortedb_last b (map fst ((b', v') :: entries)) Hs) as Hb.
  change (map fst ((b, v) :: ?l)) with (b :: map fst l) in Hl.
  change (scan x cur ((b, v) :: ?l)) with (if b <? x then scan x v l else cur).
  change (last (map snd ((b, v) :: ?l)) 0%Q) with (last (map snd l) 0%Q).
  destruct (Z.ltb_spec b x); [|lia].
  apply IH; [exact Hs' | discriminate | exact Hl].
Qed.

Lemma fold_below_all x (cur : Q) (entries : list (Z * Q)) :
  Forall (fun e => x <= fst e) entries ->
  fold_left (fun acc e => if fst e <? x then snd e else acc) entries cur = cur.
Proof. induction 1; simpl; zcases; auto. Qed.

(** On sorted steps, the last entry below [x] is found by a scan that
    stops at the first entry not below [x]. *)
Lemma fold_scan x (cur : Q) (entries : list (Z * Q)) :
  sortedb (map fst entries) = true ->
  fold_left (fun acc e => if fst e <? x then snd e else acc) entries cur = scan x cur entries.
Proof.
  revert cur. induction entries as [|[b v] entries IH]; intros cur Hs; [reflexivity|].
  destruct (sortedb_cons b (map fst entries) Hs) as [Hf Hs']. simpl. zcases.
  - apply IH, Hs'.
  - apply fold_below_all. rewrite Forall_map in Hf.
    eapply Forall_impl; [|exact Hf]. simpl. intros. lia.
Qed.

Lemma cast_int32_id z : is_int32 z = true -> cast_int32 z = z.
Proof.
  unfold is_int32, cast_int32, int32_min, int32_max. rewrite andb_true_iff, !Z.leb_le.
  intros H. rewrite Z.mod_small; lia.
Qed.

(** The exclusive case of [piecewise_constant] over sorted boundaries
    selects the rate [scan] reaches. *)
Lemma exclusive_scan x v0 b1 v1 rest :
  sortedb (map fst ((b1, v1) :: rest)) = true ->
  case_exclusive ((x <=? b1, v0)
                  :: (last (map fst ((b1, v1) :: rest)) 0 <? x, last (map snd ((b1, v1) :: rest)) 0%Q)
                  :: mid_pairs x ((b1, v1) :: rest)) v0
  = Ok (scan x v0 ((b1, v1) :: rest)).
Proof.
  intros Hs. pose proof (sortedb_last b1 (map fst rest) Hs) as Hl.
  unfold case_exclusive. cbn [filter fst]. rewrite (mid_pairs_filter x b1 v1 rest Hs).
  change (map fst ((b1, v1) :: rest)) with (b1 :: map fst rest) in *.
  set (L := last (b1 :: map fst rest) 0) in *.
  destruct (Z.leb_spec x b1); destruct (Z.ltb_spec L x); destruct (Z.ltb_spec b1 x);
    destruct (Z.leb_spec x L); cbn [andb app]; try lia.
  - now rewrite scan_stop.
  - rewrite scan_all_below; [reflexivity | exact Hs | discriminate | exact H0].
  - cbn [scan]. destruct (Z.ltb_spec b1 x); [reflexivity | lia].
Qed.

(** [C7] For a schedule of at least two entries whose steps are sorted
    [int32]s, the op is built, and at every global step in the [int32]
    range the rate of the training step is the rate of the last entry whose
    step is strictly below the global step (the first rate when there is
    none). *)
Theorem learning_rate_reference (s : schedule) (step : Z) :
  (2 <= length s)%nat ->
  forallb is_int32 (schedule_boundaries s) = true ->
  sortedb (schedule_boundaries s) = true ->
  is_int32 step = true ->
  exists pw, learning_rate_op s = Ok pw /\ learning_rate pw step = Ok (lr_reference s step).
Proof.
  intros Hlen Hint Hsort Hstep.
  destruct s as [|[s0 v0] [|[b1 v1] rest]]; simpl in Hlen; try lia.
  eexists; split.
  - unfold learning_rate_op, piecewise_constant. rewrite Hint.
    replace (Z.of_nat (length (schedule_boundaries _)) =? _) with true; [reflexivity|].
    symmetry. apply Z.eqb_eq. cbn [schedule_boundaries schedule_values skipn map length].
    rewrite !length_map. lia.
  - unfold learning_rate, piecewise_eval. rewrite cast_int32_id by exact Hstep.
    unfold lr_reference. cbn [tl hd map pw_values]. rewrite fold_scan by exact Hsort.
    exact (exclusive_scan step v0 b1 v1 rest Hsort).
Qed.

Lemma learning_rate_op_Ok s pw :
  learning_rate_op s = Ok pw ->
  exists s0 v0 b1 v1 rest,
    s = (s0, v0) :: (b1, v1) :: rest /\
    pw = mk_piecewise (map fst ((b1, v1) :: rest)) (v0 :: map snd ((b1, v1) :: rest)) /\
    forallb is_int32 (map fst ((b1, v1) :: rest)) = true.
Proof.
  unfold learning_rate_op, piecewise_constant.
  destruct s as [|[s0 v0] [|[b1 v1] rest]]; cbn [schedule_boundaries schedule_values skipn map].
  - discriminate.
  - destruct (Z.of_nat _ =? _); discriminate.
  - destruct (Z.of_nat _ =? _); [|discriminate].
    destruct (forallb is_int32 _) eqn:Hi; [|discriminate].
    intros H. injection H as <-. exists s0, v0, b1, v1, rest. auto.
Qed.

(** A sorted schedule never raises when the training step runs: whatever
    the global step, its [int32] cast selects a rate. *)
Lemma learning_rate_sorted_Ok s pw step :
  learning_rate_op s = Ok pw -> sortedb (schedule_boundaries s) = true ->
  learning_rate pw step = Ok (scan (cast_int32 step) (hd 0%Q (schedule_values s)) (tl s)).
Proof.
  intros Hop Hs. destruct (learning_rate_op_Ok s pw Hop) as (s0 & v0 & b1 & v1 & rest & -> & -> & _).
  exact (exclusive_scan (cast_int32 step) v0 b1 v1 rest Hs).
Qed.

(** [C8] Building the op fails for an empty schedule ([ValueError]: the
    lengths do not match), for a one-entry schedule ([IndexError] on
    [boundaries[0]]), and for a boundary outside the [int32] range
    ([ValueError]: dtype mismatch with the cast step). *)
Theorem learning_rate_op_errors :
  learning_rate_op [] = Err ValueError /\
  (forall e, learning_rate_op [e] = Err IndexError) /\
  (forall s, s <> [] -> forallb is_int32 (schedule_boundaries s) = false ->
             learning_rate_op s = Err ValueError).
Proof.
  split; [reflexivity|]. split; [intros [? ?]; reflexivity|].
  intros [|[s0 v0] rest] Hne Hi; [congruence|].
  unfold learning_rate_op, piecewise_constant. rewrite Hi.
  replace (Z.of_nat (length (schedule_boundaries _)) =? _) with true; [reflexivity|].
  symmetry. apply Z.eqb_eq. cbn [schedule_boundaries schedule_values skipn map length].
  rewrite !length_map. lia.
Qed.

(** [C9] The [int32] cast of line 54 wraps: from global step [2^31] on,
    the cast step is negative, and for a sorted schedule whose steps are
    not negative the rate falls back to the first rate. *)
Theorem learning_rate_after_int32 s pw step :
  learning_rate_op s = Ok pw -> sortedb (schedule_boundaries s) = true ->
  0 <= hd 0 (schedule_boundaries s) -> 2 ^ 31 <= step < 2 ^ 32 ->
  learning_rate pw step = Ok (hd 0%Q (schedule_values s)).
Proof.
  intros Hop Hs Hb Hstep.
  destruct (learning_rate_op_Ok s pw Hop) as (s0 & v0 & b1 & v1 & rest & -> & -> & _).
  unfold learning_rate, piecewise_eval.
  assert (Hc : cast_int32 step = step - 2 ^ 32).
  { unfold cast_int32. rewrite <- (Z.mod_unique (step + 2 ^ 31) (2 ^ 32) 1 (step + 2 ^ 31 - 2 ^ 32));
      lia. }
  rewrite Hc. cbn in Hb.
  refine (eq_trans (exclusive_scan _ v0 b1 v1 rest Hs) _).
  rewrite scan_stop by lia. reflexivity.
Qed.

(** [C16] A schedule whose steps are not sorted builds without error but
    fails when the training step runs: at a global step whose [int32] cast
    is above the last boundary and at most the first one, both [x <= b0]
    and [x > b_last] hold and the exclusive case raises
    [InvalidArgumentError]. *)
Theorem learning_rate_unsorted s pw step :
  learning_rate_op s = Ok pw ->
  last (schedule_boundaries s) 0 < cast_int32 step <= hd 0 (schedule_boundaries s) ->
  learning_rate pw step = Err InvalidArgumentError.
Proof.
  intros Hop Hx. destruct (learning_rate_op_Ok s pw Hop) as (s0 & v0 & b1 & v1 & rest & -> & -> & _).
  unfold learning_rate, piecewise_eval, case_exclusive, piecewise_pairs.
  cbn [pw_boundaries pw_values schedule_boundaries schedule_values skipn map fst snd hd] in *.
  rewrite (proj2 (Z.leb_le _ _)) by lia. rewrite (proj2 (Z.ltb_lt _ _)) by lia. reflexivity.
Qed.

Definition unsorted_schedule : schedule := [(0, (1#10)%Q); (200, (1#100)%Q); (100, (1#1000)%Q)].

Lemma learning_rate_unsorted_witness :
  exists pw, learning_rate_op unsorted_schedule = Ok pw /\
             learning_rate pw 150 = Err InvalidArgumentError.
Proof.
  eexists. split; [reflexivity|].
  apply (learning_rate_unsorted unsorted_schedule); [reflexivity | vm_compute; split; congruence].
Defined.

Definition spec_op : piecewise := mk_piecewise [100; 200] [1#10; 1#100; 1#1000]%Q.

Lemma learning_rate_reference_witness :
  exists pw, learning_rate_op spec_schedule = Ok pw /\
             learning_rate pw 150 = Ok (lr_reference spec_schedule 150).
Proof. apply learning_rate_reference; [simpl; lia | reflexivity | reflexivity | reflexivity]. Defined.

Lemma learning_rate_op_errors_witness :
  learning_rate_op [(0, (1#10)%Q); (2 ^ 31, (1#100)%Q)] = Err ValueError.
Proof. apply (proj2 (proj2 learning_rate_op_errors)); [discriminate | reflexivity]. Defined.

Lemma learning_rate_after_int32_witness :
  learning_rate spec_op (2 ^ 31 + 150) = Ok (1#10)%Q.
Proof.
  apply (learning_rate_after_int32 spec_schedule spec_op);
    [reflexivity | reflexivity | simpl; lia | lia].
Defined.

End LearningRate.
