(* ===== verification/Config.v ===== *)
(** * The configuration file and the schedule read from it

    Lines 26-27 of [train_robust.py] load [config.json] with [json.load];
    every setting is then read with [config['...']], and lines 48-56 turn
    [config['step_size_schedule']] into TensorFlow's learning-rate op.
    This file models the values [json.load] returns ([json]), the Python
    operations the script applies to them (subscription, iteration,
    [int()], [str()] of an integer), with the exceptions they raise, and
    lines 48-56 at that level: the comprehensions of lines 50-52 and the
    argument conversions of TensorFlow 1's [piecewise_constant] before the
    checks modelled in [Schedule].

    Theorem: the first step of the schedule is converted by [int()]
    although it is dropped, and the first entry that fails decides the
    exception. The lemma [learning_rate_op_json_of_schedule] (a schedule
    written as [[step, rate]] pairs yields the op of [Schedule]) is what
    the script's theorems use to reach [Schedule]'s results. *)

From Stdlib Require Import QArith Lqa ZArith Lia List String Ascii Bool.
From Stdlib Require Import DecimalPos DecimalZ.
From S2P Require Import Prelude Schedule.
Import ListNotations.
Import LearningRate.

Module JsonConfig.

Open Scope Z_scope.
Open Scope robust_scope.

(** ** The values of [json.load]

    A JSON number is a Python [int] when written without a fraction or
    exponent and a [float] otherwise; an object is a [dict], whose keys
    are strings, unique, in insertion order. No property of this
    development needs induction on nested values, so none is generated. *)
Local Unset Elimination Schemes.
Inductive json :=
| JNull
| JBool (b : bool)
| JInt (z : Z)
| JFloat (q : Q)
| JStr (s : string)
| JList (l : list json)
| JObj (kvs : list (string * json)).
Local Set Elimination Schemes.

Fixpoint dict_get (k : string) (kvs : list (string * json)) : option json :=
  match kvs with
  | [] => None
  | (k', v) :: kvs' => if String.eqb k k' then Some v else dict_get k kvs'
  end.

(** [config['key']]: a dict raises [KeyError] for a missing key; a list or
    a string wants an integer index, the scalars are not subscriptable. *)
Definition getitem_str (v : json) (k : string) : result json :=
  match v with
  | JObj kvs => match dict_get k kvs with Some x => Ok x | None => Err KeyError end
  | _ => Err TypeError
  end.

(** [l[i]] for a Python sequence: negative indices count from the end. *)
Definition py_index {A} (l : list A) (i : Z) : result A :=
  let j := if i <? 0 then i + Z.of_nat (List.length l) else i in
  if j <? 0 then Err IndexError
  else match nth_error l (Z.to_nat j) with Some a => Ok a | None => Err IndexError end.

Definition char_str (c : ascii) : json := JStr (String c EmptyString).

(** [sss[i]] with an integer [i]: an element of a list, a one-character
    string of a string; the keys of a JSON dict are strings, so an integer
    is never one of them. *)
Definition getitem_int (v : json) (i : Z) : result json :=
  match v with
  | JList l => py_index l i
  | JStr s => let* c := py_index (list_ascii_of_string s) i in Ok (char_str c)
  | JObj _ => Err KeyError
  | _ => Err TypeError
  end.

(** [for sss in v]: a list yields its elements, a dict its keys, a string
    its characters; numbers, booleans and [None] are not iterable. *)
Definition py_iter (v : json) : result (list json) :=
  match v with
  | JList l => Ok l
  | JObj kvs => Ok (map (fun kv => JStr (fst kv)) kvs)
  | JStr s => Ok (map char_str (list_ascii_of_string s))
  | _ => Err TypeError
  end.

(** ** [int()] and [str()] on integers *)

(** The characters [int()] strips: [str.isspace] on ASCII. *)
Definition is_space (c : ascii) : bool :=
  let n := nat_of_ascii c in
  (n =? 32)%nat || ((9 <=? n)%nat && (n <=? 13)%nat) || ((28 <=? n)%nat && (n <=? 31)%nat).

Definition digit_of (c : ascii) : option Z :=
  let n := nat_of_ascii c in
  if ((48 <=? n)%nat && (n <=? 57)%nat) then Some (Z.of_nat (n - 48)) else None.

Fixpoint strip_left (l : list ascii) : list ascii :=
  match l with
  | c :: l' => if is_space c then strip_left l' else l
  | [] => []
  end.

Definition strip (l : list ascii) : list ascii := rev (strip_left (rev (strip_left l))).

(** Decimal digits, with single underscores between digits (PEP 515). *)
Fixpoint parse_digits (acc : Z) (l : list ascii) : option Z :=
  match l with
  | [] => Some acc
  | c :: l' =>
      match digit_of c with
      | Some d => parse_digits (10 * acc + d) l'
      | None =>
          if Ascii.eqb c "_"%char then
            match l' with
            | c' :: _ => match digit_of c' with Some _ => parse_digits acc l' | None => None end
            | [] => None
            end
          else None
      end
  end.

Definition parse_unsigned (l : list ascii) : option Z :=
  match l with
  | c :: _ => match digit_of c with Some _ => parse_digits 0 l | None => None end
  | [] => None
  end.

(** [int(s)] for a string [s] in base 10. *)
Definition parse_int (s : string) : option Z :=
  match strip (list_ascii_of_string s) with
  | "-"%char :: l => option_map Z.opp (parse_unsigned l)
  | "+"%char :: l => parse_unsigned l
  | l => parse_unsigned l
  end.

(** [int(v)]: an [int] is itself, a [bool] is 0 or 1, a [float] is
    truncated toward zero, a string is parsed ([ValueError] when it is not
    an integer literal); [None], lists and dicts raise [TypeError]. *)
Definition py_int (v : json) : result Z :=
  match v with
  | JInt z => Ok z
  | JBool b => Ok (if b then 1 else 0)
  | JFloat q => Ok (Z.quot (Qnum q) (Zpos (Qden q)))
  | JStr s => match parse_int s with Some z => Ok z | None => Err ValueError end
  | JNull | JList _ | JObj _ => Err TypeError
  end.

Definition ascii_of_digit (d : nat) : ascii := ascii_of_nat (48 + d).

Fixpoint string_of_uint (d : Decimal.uint) : string :=
  match d with
  | Decimal.Nil => EmptyString
  | Decimal.D0 d' => String (ascii_of_digit 0) (string_of_uint d')
  | Decimal.D1 d' => String (ascii_of_digit 1) (string_of_uint d')
  | Decimal.D2 d' => String (ascii_of_digit 2) (string_of_uint d')
  | Decimal.D3 d' => String (ascii_of_digit 3) (string_of_uint d')
  | Decimal.D4 d' => String (ascii_of_digit 4) (string_of_uint d')
  | Decimal.D5 d' => String (ascii_of_digit 5) (string_of_uint d')
  | Decimal.D6 d' => String (ascii_of_digit 6) (string_of_uint d')
  | Decimal.D7 d' => String (ascii_of_digit 7) (string_of_uint d')
  | Decimal.D8 d' => String (ascii_of_digit 8) (string_of_uint d')
  | Decimal.D9 d' => String (ascii_of_digit 9) (string_of_uint d')
  end.

(** [str(z)] for a Python [int]: its decimal digits, without leading zeros,
    after a minus sign when it is negative. *)
Definition py_str_int (z : Z) : string :=
  match Z.to_int z with
  | Decimal.Pos d => string_of_uint d
  | Decimal.Neg d => String "-" (string_of_uint d)
  end.

(** [float(v)] as TensorFlow and numpy take a Python number. *)
Definition py_number (v : json) : result Q :=
  match v with
  | JInt z => Ok (inject_Z z)
  | JFloat q => Ok q
  | JBool b => Ok (if b then 1%Q else 0%Q)
  | _ => Err TypeError
  end.

(** ** Lines 48-56: the schedule *)

(** Line 50: [[int(sss[0]) for sss in step_size_schedule]]. *)
Definition schedule_steps (sched : json) : result (list Z) :=
  let* entries := py_iter sched in
  mapM (fun sss => let* s0 := getitem_int sss 0 in py_int s0) entries.

(** Line 52: [[sss[1] for sss in step_size_schedule]]. *)
Definition schedule_rates (sched : json) : result (list json) :=
  let* entries := py_iter sched in
  mapM (fun sss => getitem_int sss 1) entries.

(** The dtypes [tf.convert_to_tensor] gives Python scalars. *)
Inductive dtype := DInt32 | DInt64 | DFloat32 | DBool.

Definition dtype_eqb (d1 d2 : dtype) : bool :=
  match d1, d2 with
  | DInt32, DInt32 | DInt64, DInt64 | DFloat32, DFloat32 | DBool, DBool => true
  | _, _ => false
  end.

Definition is_int64 (z : Z) : bool := (- 2 ^ 63 <=? z) && (z <? 2 ^ 63).

(** [ops.convert_n_to_tensor(values)] on one value: a Python [int] is an
    [int32] when it fits and an [int64] otherwise, a [float] a [float32],
    [None] is refused with [ValueError]. Strings and nested values are
    refused with [TypeError]; see the header for this simplification. *)
Definition tf_convert (v : json) : result (dtype * Q) :=
  match v with
  | JInt z =>
      if is_int32 z then Ok (DInt32, inject_Z z)
      else if is_int64 z then Ok (DInt64, inject_Z z)
      else Err ValueError
  | JFloat q => Ok (DFloat32, q)
  | JBool b => Ok (DBool, if b then 1%Q else 0%Q)
  | JNull => Err ValueError
  | JStr _ | JList _ | JObj _ => Err TypeError
  end.

(** TensorFlow 1's [piecewise_constant(x, boundaries, values)] on Python
    lists, in its order: the length check, the conversion of the
    boundaries (an [int64] one does not match the [int32] of [x]), the
    conversion of the values and the check that they share one dtype
    ([ValueError] each), then the op of [Schedule.piecewise_constant]. *)
Definition tf_piecewise_constant (boundaries : list Z) (values : list json)
  : result (dtype * piecewise) :=
  if negb (Z.of_nat (List.length boundaries) =? Z.of_nat (List.length values) - 1)
  then Err ValueError
  else if negb (forallb is_int32 boundaries) then Err ValueError
  else
    let* tvs := mapM tf_convert values in
    let d := hd DFloat32 (map fst tvs) in
    if negb (forallb (fun tv => dtype_eqb (fst tv) d) tvs) then Err ValueError
    else let* pw := piecewise_constant boundaries (map snd tvs) in Ok (d, pw).

(** Lines 50-56 from the value of [config['step_size_schedule']]. *)
Definition learning_rate_op_json (sched : json) : result (dtype * piecewise) :=
  let* steps := schedule_steps sched in
  let boundaries := skipn 1 steps in
  let* values := schedule_rates sched in
  tf_piecewise_constant boundaries values.

(** A schedule as the configuration files of the repository write it: a
    list of [[step, rate]] pairs, steps as integers and rates as floats. *)
Definition json_of_schedule (s : schedule) : json :=
  JList (map (fun e => JList [JInt (fst e); JFloat (snd e)]) s).

(** ** Lemmas *)

Ltac digit_eval :=
  repeat match goal with
  | |- context [digit_of ?c] =>
      let v := eval vm_compute in (digit_of c) in change (digit_of c) with v
  end.

Lemma parse_digits_pos d p :
  parse_digits (Zpos p) (list_ascii_of_string (string_of_uint d)) =
  Some (Zpos (Pos.of_uint_acc d p)).
Proof.
  revert p. induction d; intros p; [reflexivity| ..];
    cbn [string_of_uint list_ascii_of_string parse_digits Pos.of_uint_acc]; digit_eval;
    rewrite <- IHd; f_equal; lia.
Qed.

Lemma parse_digits_zero d :
  parse_digits 0 (list_ascii_of_string (string_of_uint d)) = Some (Z.of_N (Pos.of_uint d)).
Proof.
  induction d; [reflexivity | ..];
    cbn [string_of_uint list_ascii_of_string parse_digits Pos.of_uint]; digit_eval;
    [exact IHd | ..]; apply parse_digits_pos.
Qed.

Lemma strip_left_id l : Forall (fun c => is_space c = false) l -> strip_left l = l.
Proof. intros Hl. destruct Hl as [|c l Hc _]; simpl; [|rewrite Hc]; reflexivity. Qed.

(** [int()] strips nothing from a string without white space at its ends. *)
Lemma strip_id l : Forall (fun c => is_space c = false) l -> strip l = l.
Proof.
  intros Hl. unfold strip. rewrite (strip_left_id l Hl).
  rewrite (strip_left_id (rev l)) by (apply Forall_rev, Hl). apply rev_involutive.
Qed.

Lemma string_of_uint_no_space d :
  Forall (fun c => is_space c = false) (list_ascii_of_string (string_of_uint d)).
Proof. induction d; simpl; constructor; auto. Qed.

(** The digits of a positive number, read back. *)
Lemma parse_unsigned_uint p :
  parse_unsigned (list_ascii_of_string (string_of_uint (Pos.to_uint p))) = Some (Zpos p).
Proof.
  transitivity (parse_digits 0 (list_ascii_of_string (string_of_uint (Pos.to_uint p)))).
  - pose proof (DecimalPos.Unsigned.to_uint_nonnil p) as Hn.
    destruct (Pos.to_uint p); [contradiction | reflexivity ..].
  - rewrite parse_digits_zero, DecimalPos.Unsigned.of_to. reflexivity.
Qed.

Lemma piecewise_constant_Ok bs vs pw :
  piecewise_constant bs vs = Ok pw -> bs <> [] /\ pw = mk_piecewise bs vs.
Proof.
  unfold piecewise_constant. destruct (negb _); [discriminate|]. destruct (negb _); [discriminate|].
  destruct bs; [discriminate|]. intros Hok. injection Hok as <-. split; [discriminate | reflexivity].
Qed.

Lemma parse_int_str z : parse_int (py_str_int z) = Some z.
Proof.
  unfold py_str_int. destruct z as [|p|p]; [reflexivity| |]; cbn [Z.to_int];
    unfold parse_int; rewrite strip_id
      by (cbn [list_ascii_of_string]; repeat constructor; apply string_of_uint_no_space).
  - rewrite <- (parse_unsigned_uint p).
    destruct (Pos.to_uint p); reflexivity.
  - cbn [list_ascii_of_string option_map]. rewrite parse_unsigned_uint. reflexivity.
Qed.

(** ** Theorems *)

Lemma schedule_steps_json s : schedule_steps (json_of_schedule s) = Ok (map fst s).
Proof. apply mapM_map_Ok. intros [b v] _. reflexivity. Qed.

Lemma schedule_rates_json s :
  schedule_rates (json_of_schedule s) = Ok (map (fun e => JFloat (snd e)) s).
Proof. apply mapM_map_Ok. intros [b v] _. reflexivity. Qed.

Lemma convert_rates_json s :
  mapM tf_convert (map (fun e : Z * Q => JFloat (snd e)) s) =
  Ok (map (fun e : Z * Q => (DFloat32, snd e)) s).
Proof.
  induction s as [|e s IH]; simpl; [reflexivity | rewrite IH; reflexivity].
Qed.

(** Reading a schedule written as the configuration files write it. *)
Lemma learning_rate_op_json_of_schedule s :
  learning_rate_op_json (json_of_schedule s) =
  bind (learning_rate_op s) (fun pw => Ok (DFloat32, pw)).
Proof.
  unfold learning_rate_op_json. rewrite schedule_steps_json. cbn [bind].
  rewrite schedule_rates_json. cbn [bind].
  unfold tf_piecewise_constant, learning_rate_op, schedule_boundaries, schedule_values.
  rewrite length_map.
  destruct (negb (Z.of_nat (List.length (skipn 1 (map fst s))) =? _)) eqn:E1.
  { unfold piecewise_constant. rewrite length_map, E1. reflexivity. }
  destruct (negb (forallb is_int32 _)) eqn:E2.
  { unfold piecewise_constant. rewrite length_map, E1, E2. reflexivity. }
  rewrite convert_rates_json. cbn [bind]. rewrite !map_map.
  replace (forallb _ _) with true
    by (symmetry; apply forallb_forall; intros tv Hin;
        apply in_map_iff in Hin as [e [<- _]]; destruct s; reflexivity).
  replace (hd DFloat32 _) with DFloat32 by (destruct s; reflexivity). reflexivity.
Qed.

(** [C17] The comprehension of line 50 converts every step, the first
    included, before [boundaries[1:]] drops it: an entry whose step
    [int()] refuses stops the script with that exception, at the first
    such entry in the order of the schedule, even when it is the first
    entry, whose step is never used. *)
Theorem learning_rate_op_json_step_error pre sss rest e :
  Forall (fun p => exists z, getitem_int p 0 = Ok (JInt z)) pre ->
  bind (getitem_int sss 0) py_int = Err e ->
  learning_rate_op_json (JList (pre ++ sss :: rest)) = Err e.
Proof.
  intros Hpre Hs. unfold learning_rate_op_json, schedule_steps. cbn [py_iter bind].
  assert (Hok : mapM (fun p => bind (getitem_int p 0) py_int) pre =
                Ok (map (fun p => match getitem_int p 0 with Ok (JInt z) => z | _ => 0 end) pre)).
  { apply mapM_ext_Ok. intros p Hin. rewrite Forall_forall in Hpre.
    destruct (Hpre p Hin) as [z Hz]. rewrite Hz. reflexivity. }
  rewrite (mapM_app_Err _ _ _ _ _ e Hok Hs). reflexivity.
Qed.

(** A schedule mixing an integer rate and a float rate is refused when
    the op is built. *)
Lemma mixed_rates_refused :
  learning_rate_op_json (JList [JList [JInt 0; JInt 1]; JList [JInt 100; JFloat (1#10)]]) =
  Err ValueError.
Proof. reflexivity. Qed.

(** ** Witnesses *)

Lemma learning_rate_op_json_step_error_witness :
  learning_rate_op_json (JList ([] ++ JList [JStr "start"; JFloat (1#10)]
                                   :: [JList [JInt 100; JFloat (1#100)]])) = Err ValueError.
Proof. apply learning_rate_op_json_step_error; [constructor | reflexivity]. Defined.

End JsonConfig.
