(* ===== verification/Driver.v ===== *)
(** * The training driver

    Lines 97-152 of [train_robust.py]: the main loop [for ii in
    range(max_num_training_steps)], and the setup it relies on (lines
    26-95). One iteration fetches a batch (line 106), perturbs it (line
    110), prints statistics when [ii % num_output_steps == 0] (lines
    122-133), writes a summary when [ii % num_summary_steps == 0] (lines
    135-140), saves a checkpoint when [ii % num_checkpoint_steps == 0]
    (lines 143-146), and runs one Adam step on the adversarial batch (line
    150), which increments [global_step].

    The state of the script is the record [train_state]: the TensorFlow
    variables ([global_step] and the parameters, Adam's slots included),
    the data-set cursor of [YALE_TRAIN], numpy's global random state, the
    [training_time] accumulator, the checkpoint directory (a [gmap] from
    the step of [checkpoint-<step>] to the saved parameters; [max_to_keep =
    None] keeps them all) and the log (console and TensorBoard events, in
    order). The model, the optimizer, the data set and the clock are
    interfaces ([Model], [Optimizer], [Dataset], [Clock]); the attack is
    used through [Attack.LinfWRMAttack.Adversary] only. The section
    variable [save_dir_ok] is whether [saver.save] finds [model_dir] as a
    directory; TF1 raises [ValueError] when it does not.

    Theorems: the global step counts the iterations; checkpoint [k] holds
    the parameters after exactly [k] optimizer steps and the final
    parameters are never saved; logging and checkpointing do not change
    training (a refinement of a loop without them); a zero cadence is a
    [ZeroDivisionError] at the first iteration; the perturbation sizes
    printed are at most [epsilon]; [training_time] is the sum of the
    durations since the last reset ([timer_window]) and the printed
    throughput divides by it; the loop runs to its end when the cadences
    are not zero, the schedule is sorted and the timer positive; outputs,
    summaries and checkpoints are emitted exactly at the multiples of
    their cadences, and [ceil(n / num_checkpoint_steps)] checkpoints are
    saved in [n] steps; a second run into the same directory overwrites
    the earlier run's checkpoints at its own checkpoint steps and keeps
    the others. *)

From stdpp Require Import base gmap.
From Stdlib Require Import QArith Qabs Lqa ZArith Lia List String.
From S2P Require Import Prelude Attack Schedule.
Import ListNotations.
Import LinfWRMAttack LearningRate.

Module Training.

Open Scope Z_scope.
Open Scope robust_scope.

(** The configuration values the loop reads (lines 32-36, 48-49, 62-64). *)
Record config := mk_config {
  max_num_training_steps : Z;
  num_output_steps : Z;
  num_summary_steps : Z;
  num_checkpoint_steps : Z;
  training_batch_size : Z;
  step_size_schedule : schedule;
  weight_decay : Q
}.

(** The model's graph: [model.accuracy], [model.xent] and
    [model.weight_decay_loss] for parameters and a fed batch. *)
Class Model (Params : Type) := {
  accuracy : Params -> batch -> labels -> Q;
  xent : Params -> batch -> labels -> Q;
  weight_decay_loss : Params -> Q
}.

(** [tf.train.AdamOptimizer(learning_rate).minimize(total_loss)]: one
    update of the parameters (and Adam's slots) for an objective and a
    learning rate. *)
Class Optimizer (Params : Type) := {
  adam_minimize : (Params -> Q) -> Q -> Params -> Params
}.

(** [YALE_TRAIN.get_next_batch(batch_size)] and the test split of line 39. *)
Class Dataset (Data : Type) := {
  get_next_batch : Data -> Z -> Data * (batch * labels);
  test_data : batch;
  test_label : labels
}.

(** The durations [end - start] of the two timed regions of iteration [ii]
    (lines 109-113 and 149-152). *)
Class Clock := {
  attack_time : Z -> Q;
  train_time : Z -> Q
}.

(** What the script prints or writes, in order. *)
Inductive event :=
| EvOutput (ii : Z) (nat_acc adv_acc : Q) (max_diff : list Q) (throughput : option Q)
| EvSummary (step : Z) (adv_acc xent_per_example test_acc : Q)
| EvCheckpoint (step : Z).

Section Loop.
Context {Params Data Rng : Type}.
Context `{Classifier Params} `{!Adversary Params Rng}.
Context `{!Model Params} `{!Optimizer Params} `{!Dataset Data} `{!Clock}.

(** Whether [model_dir] is a directory when [saver.save] runs: TF1's
    [Saver.save] raises [ValueError] when the parent of the save path is
    not a directory. The loop does not change the file system, so the
    answer is the same at every save. *)
Variable save_dir_ok : bool.

Record train_state := mk_state {
  global_step : Z;
  params : Params;
  data : Data;
  rng : Rng;
  training_time : Q;
  checkpoints : gmap Z Params;
  log : list event
}.

(** Python's [%] on integers: floor modulo, [ZeroDivisionError] for 0. *)
Definition py_mod (a b : Z) : result Z :=
  if b =? 0 then Err ZeroDivisionError else Ok (a mod b).

(** Python's true division of floats. *)
Definition py_div (a b : Q) : result Q :=
  if Qeq_bool b 0 then Err ZeroDivisionError else Ok (a / b)%Q.

(** [np.amax(np.absolute(x_adv - x))] for one image (of pixels, hence
    non-negative: the fold starts at 0). *)
Definition amax_abs_diff (xa x : image) : Q :=
  fold_left qmax (zip_with (fun u v => Qabs (u - v)) xa x) 0%Q.

(** Line 126: [max_diff], one value per image. *)
Definition max_diff (x_adv x : batch) : list Q := zip_with amax_abs_diff x_adv x.

(** Line 57: [total_loss = model.xent + weight_decay * model.weight_decay_loss]. *)
Definition total_loss (cfg : config) (x : batch) (y : labels) (p : Params) : Q :=
  (xent p x y + weight_decay cfg * weight_decay_loss p)%Q.

(** Lines 122-133: the console report, with the reset of the timer. *)
Definition output_step (cfg : config) (ii : Z) (p : Params) (x x_adv : batch) (y : labels)
           (time : Q) (lg : list event) : result (Q * list event) :=
  let* m := py_mod ii (num_output_steps cfg) in
  if m =? 0 then
    let nat_acc := accuracy p x y in
    let adv_acc := accuracy p x_adv y in
    if negb (ii =? 0) then
      let* thr := py_div (inject_Z (num_output_steps cfg * training_batch_size cfg)) time in
      Ok (0%Q, lg ++ [EvOutput ii nat_acc adv_acc (max_diff x_adv x) (Some thr)])
    else Ok (time, lg ++ [EvOutput ii nat_acc adv_acc (max_diff x_adv x) None])
  else Ok (time, lg).

(** Lines 135-140: the TensorBoard summary, tagged with the global step,
    and the test accuracy. *)
Definition summary_step (cfg : config) (ii step : Z) (p : Params) (x_adv : batch) (y : labels)
           (lg : list event) : result (list event) :=
  let* m := py_mod ii (num_summary_steps cfg) in
  if m =? 0 then
    Ok (lg ++ [EvSummary step (accuracy p x_adv y)
                 (xent p x_adv y / inject_Z (training_batch_size cfg))%Q
                 (accuracy p test_data test_label)])
  else Ok lg.

(** Lines 143-146: [saver.save(sess, model_dir/checkpoint,
    global_step=global_step)], which fails when [model_dir] is not a
    directory. *)
Definition checkpoint_step (cfg : config) (ii step : Z) (p : Params) (ck : gmap Z Params)
           (lg : list event) : result (gmap Z Params * list event) :=
  let* m := py_mod ii (num_checkpoint_steps cfg) in
  if m =? 0 then
    if save_dir_ok then Ok (<[step := p]> ck, lg ++ [EvCheckpoint step]) else Err ValueError
  else Ok (ck, lg).

(** One iteration of the loop, lines 106-152. *)
Definition train_iteration (cfg : config) (lr_op : piecewise) (ii : Z) (s : train_state)
  : result train_state :=
  let '(d', (x_batch, y_batch)) := get_next_batch (data s) (training_batch_size cfg) in
  let '(r', x_adv) := adv_perturb (params s) (rng s) x_batch y_batch in
  let t0 := (training_time s + attack_time ii)%Q in
  let* out := output_step cfg ii (params s) x_batch x_adv y_batch t0 (log s) in
  let '(t1, lg1) := out in
  let* lg2 := summary_step cfg ii (global_step s) (params s) x_adv y_batch lg1 in
  let* saved := checkpoint_step cfg ii (global_step s) (params s) (checkpoints s) lg2 in
  let '(ck, lg3) := saved in
  let* lr := learning_rate lr_op (global_step s) in
  Ok (mk_state (global_step s + 1)
               (adam_minimize (total_loss cfg x_adv y_batch) lr (params s))
               d' r' (t1 + train_time ii)%Q ck lg3).

(** [for ii in range(...)]: [n] iterations from index [ii]. *)
Fixpoint train_loop (cfg : config) (lr_op : piecewise) (n : nat) (ii : Z) (s : train_state)
  : result train_state :=
  match n with
  | O => Ok s
  | S n' => let* s' := train_iteration cfg lr_op ii s in train_loop cfg lr_op n' (ii + 1) s'
  end.

(** The state after [sess.run(tf.global_variables_initializer())] (line
    100) and [training_time = 0.0] (line 101); the checkpoint directory
    holds what an earlier run left in [model_dir]. *)
Definition init_state (p0 : Params) (d0 : Data) (r0 : Rng) (ck0 : gmap Z Params) : train_state :=
  mk_state 0 p0 d0 r0 0%Q ck0 [].

(** The script from line 53 on: the schedule's op is built when the
    graph is, then the loop runs. *)
Definition train (cfg : config) (p0 : Params) (d0 : Data) (r0 : Rng) (ck0 : gmap Z Params)
  : result train_state :=
  let* lr_op := learning_rate_op (step_size_schedule cfg) in
  train_loop cfg lr_op (Z.to_nat (max_num_training_steps cfg)) 0 (init_state p0 d0 r0 ck0).
(** ** The training the loop performs, without its side effects

    Sections 4.2.1-4.2.4 and 4.2.6 of the specification: fetch, perturb,
    one optimizer step at the scheduled rate, nothing else. *)
Record core_state := mk_core {
  c_step : Z;
  c_params : Params;
  c_data : Data;
  c_rng : Rng
}.

Definition core_of (s : train_state) : core_state :=
  mk_core (global_step s) (params s) (data s) (rng s).

Definition core_iteration (cfg : config) (lr_op : piecewise) (c : core_state)
  : result core_state :=
  let '(d', (x, y)) := get_next_batch (c_data c) (training_batch_size cfg) in
  let '(r', x_adv) := adv_perturb (c_params c) (c_rng c) x y in
  let* lr := learning_rate lr_op (c_step c) in
  Ok (mk_core (c_step c + 1) (adam_minimize (total_loss cfg x_adv y) lr (c_params c)) d' r').

Fixpoint core_loop (cfg : config) (lr_op : piecewise) (n : nat) (c : core_state)
  : result core_state :=
  match n with
  | O => Ok c
  | S n' => let* c' := core_iteration cfg lr_op c in core_loop cfg lr_op n' c'
  end.

(** An event respects the bound [eps] when the perturbation sizes it
    prints are at most [eps]. *)
Definition event_ok (eps : Q) (e : event) : Prop :=
  match e with
  | EvOutput _ _ _ md _ => Forall (fun m => (m <= eps)%Q) md
  | _ => True
  end.

(** ** The timer accounting of lines 109-113, 130-133 and 149-152

    [training_time] accumulates the durations of the attack and of the
    training step, and is reset after a report at a non-zero multiple of
    [num_output_steps]. [qsum f lo n] is the sum of [f j] for [j] in
    [range(lo, lo + n)]. *)
Fixpoint qsum (f : Z -> Q) (lo : Z) (n : nat) : Q :=
  match n with
  | O => 0%Q
  | S n' => (f lo + qsum f (lo + 1) n')%Q
  end.

Definition iter_time (j : Z) : Q := (attack_time j + train_time j)%Q.

(** The value of [training_time] at the start of iteration [ii] of a run
    from [ii = 0], for a cadence [N > 0]: the durations of the iterations
    since the last reset, at [r = N * ((ii - 1) // N)], whose attack time
    is not counted; all of them when there was no reset yet. *)
Definition timer_window (N ii : Z) : Q :=
  let r := N * ((ii - 1) / N) in
  if r <=? 0 then qsum iter_time 0 (Z.to_nat ii)
  else (train_time r + qsum iter_time (r + 1) (Z.to_nat (ii - 1 - r)))%Q.

(** ** The schedule of the log

    The three kinds of lines the loop writes, and the step each one is
    tagged with: [ii] for the console report (line 125), the global step
    for the summary (line 137) and the checkpoint (line 146). *)
Inductive event_kind := KOutput | KSummary | KCheckpoint.

Definition tag_of (k : event_kind) (e : event) : list Z :=
  match k, e with
  | KOutput, EvOutput ii _ _ _ _ => [ii]
  | KSummary, EvSummary st _ _ _ => [st]
  | KCheckpoint, EvCheckpoint st => [st]
  | _, _ => []
  end.

Definition tags (k : event_kind) (lg : list event) : list Z := flat_map (tag_of k) lg.

Definition cadence (cfg : config) (k : event_kind) : Z :=
  match k with
  | KOutput => num_output_steps cfg
  | KSummary => num_summary_steps cfg
  | KCheckpoint => num_checkpoint_steps cfg
  end.

(** The reference schedule: the multiples of [N] in [range(lo, lo + n)]. *)
Definition multiples (N lo : Z) (n : nat) : list Z :=
  filter (fun j => j mod N =? 0) (map (fun i => lo + Z.of_nat i) (seq 0 n)).

(** ** Lemmas *)

Lemma py_mod_Ok a b m : py_mod a b = Ok m -> b <> 0 /\ m = a mod b.
Proof. unfold py_mod. destruct (Z.eqb_spec b 0); intros Hok; inversion Hok; auto. Qed.

Lemma checkpoint_step_Ok cfg ii step p ck lg ck' lg' :
  checkpoint_step cfg ii step p ck lg = Ok (ck', lg') ->
  num_checkpoint_steps cfg <> 0 /\
  ck' = (if ii mod num_checkpoint_steps cfg =? 0 then <[step := p]> ck else ck).
Proof.
  unfold checkpoint_step. intros Hok. inv_bind. apply py_mod_Ok in Ha as [Hne ->].
  split; [exact Hne|]. destruct (_ =? 0); [destruct save_dir_ok|]; congruence.
Qed.

(** A save that succeeds found the directory. *)
Lemma checkpoint_step_dir cfg ii step p ck lg ck' lg' :
  checkpoint_step cfg ii step p ck lg = Ok (ck', lg') ->
  ii mod num_checkpoint_steps cfg = 0 -> save_dir_ok = true.
Proof.
  unfold checkpoint_step. intros Hok Hm. inv_bind. apply py_mod_Ok in Ha as [_ ->].
  rewrite Hm in Hok. cbn in Hok. destruct save_dir_ok; [reflexivity | discriminate].
Qed.

(** A successful iteration, step by step. *)
Lemma train_iteration_Ok cfg lr_op ii s s' :
  train_iteration cfg lr_op ii s = Ok s' ->
  exists d' x y r' x_adv t1 lg1 lg2 ck lg3 lr,
    get_next_batch (data s) (training_batch_size cfg) = (d', (x, y)) /\
    adv_perturb (params s) (rng s) x y = (r', x_adv) /\
    output_step cfg ii (params s) x x_adv y (training_time s + attack_time ii)%Q (log s)
      = Ok (t1, lg1) /\
    summary_step cfg ii (global_step s) (params s) x_adv y lg1 = Ok lg2 /\
    checkpoint_step cfg ii (global_step s) (params s) (checkpoints s) lg2 = Ok (ck, lg3) /\
    learning_rate lr_op (global_step s) = Ok lr /\
    s' = mk_state (global_step s + 1) (adam_minimize (total_loss cfg x_adv y) lr (params s))
                  d' r' (t1 + train_time ii)%Q ck lg3.
Proof.
  unfold train_iteration.
  destruct (get_next_batch _ _) as [d' [x y]] eqn:Eb.
  destruct (adv_perturb _ _ _ _) as [r' x_adv] eqn:Ea.
  intros Hok. inv_bind. injection Hok as <-. do 11 eexists. repeat split; eauto.
Qed.

Lemma train_iteration_step cfg lr_op ii s s' :
  train_iteration cfg lr_op ii s = Ok s' -> global_step s' = global_step s + 1.
Proof. intros Hok. apply train_iteration_Ok in Hok as (? & ? & ? & ? & ? & ? & ? & ? & ? & ? & ? & ? & ? & ? & ? & ? & ? & ->). reflexivity. Qed.

Lemma train_iteration_checkpoints cfg lr_op ii s s' :
  train_iteration cfg lr_op ii s = Ok s' ->
  checkpoints s' = (if ii mod num_checkpoint_steps cfg =? 0
                    then <[global_step s := params s]> (checkpoints s) else checkpoints s).
Proof.
  intros Hok. apply train_iteration_Ok in Hok as (? & ? & ? & ? & ? & ? & ? & ? & ? & ? & ? & ? & ? & ? & ? & Hc & ? & ->).
  apply checkpoint_step_Ok in Hc as [_ ->]. reflexivity.
Qed.

Lemma train_loop_S cfg lr_op n ii s s' :
  train_loop cfg lr_op (S n) ii s = Ok s' ->
  exists s1, train_iteration cfg lr_op ii s = Ok s1 /\ train_loop cfg lr_op n (ii + 1) s1 = Ok s'.
Proof. simpl. intros Hok. inv_bind. eauto. Qed.

Lemma train_iteration_core cfg lr_op ii s s' :
  train_iteration cfg lr_op ii s = Ok s' -> core_iteration cfg lr_op (core_of s) = Ok (core_of s').
Proof.
  intros Hok. apply train_iteration_Ok in Hok as (d' & x & y & r' & xa & ? & ? & ? & ? & ? & lr &
    Eb & Ea & _ & _ & _ & Hlr & ->).
  unfold core_iteration, core_of. cbn [c_data c_params c_rng c_step].
  rewrite Eb, Ea, Hlr. reflexivity.
Qed.

(** The loop without logging, timing and checkpointing does the same
    training. *)
Lemma train_loop_core cfg lr_op n ii s s' :
  train_loop cfg lr_op n ii s = Ok s' -> core_loop cfg lr_op n (core_of s) = Ok (core_of s').
Proof.
  revert ii s. induction n as [|n IH]; intros ii s Hok.
  - now injection Hok as <-.
  - apply train_loop_S in Hok as (s1 & Hit & Hloop). simpl.
    rewrite (train_iteration_core _ _ _ _ _ Hit). exact (IH _ _ Hloop).
Qed.

Lemma train_loop_global_step cfg lr_op n ii s s' :
  train_loop cfg lr_op n ii s = Ok s' -> global_step s' = global_step s + Z.of_nat n.
Proof.
  revert ii s. induction n as [|n IH]; intros ii s Hok.
  - injection Hok as <-. lia.
  - apply train_loop_S in Hok as (s1 & Hit & Hloop).
    rewrite (IH _ _ Hloop), (train_iteration_step _ _ _ _ _ Hit). lia.
Qed.

(** Keys a run does not save are left as they were. *)
Lemma train_loop_checkpoints_other cfg lr_op n g s s' k :
  train_loop cfg lr_op n g s = Ok s' -> global_step s = g ->
  ~ (g <= k < g + Z.of_nat n /\ k mod num_checkpoint_steps cfg = 0) ->
  checkpoints s' !! k = checkpoints s !! k.
Proof.
  revert g s. induction n as [|n IH]; intros g s Hok Hg Hk.
  - now injection Hok as <-.
  - apply train_loop_S in Hok as (s1 & Hit & Hloop).
    rewrite (IH (g + 1) s1 Hloop); [| rewrite (train_iteration_step _ _ _ _ _ Hit); lia | lia].
    rewrite (train_iteration_checkpoints _ _ _ _ _ Hit), Hg.
    destruct (Z.eqb_spec (g mod num_checkpoint_steps cfg) 0); [|reflexivity].
    apply lookup_insert_ne. intros ->. apply Hk. lia.
Qed.

(** Keys a run saves hold the parameters of the state reached then. *)
Lemma train_loop_checkpoints_saved cfg lr_op n g s s' k :
  train_loop cfg lr_op n g s = Ok s' -> global_step s = g ->
  g <= k < g + Z.of_nat n -> k mod num_checkpoint_steps cfg = 0 ->
  exists sk, train_loop cfg lr_op (Z.to_nat (k - g)) g s = Ok sk /\
             global_step sk = k /\ checkpoints s' !! k = Some (params sk).
Proof.
  revert g s. induction n as [|n IH]; intros g s Hok Hg Hk Hm; [lia|].
  apply train_loop_S in Hok as (s1 & Hit & Hloop).
  pose proof (train_iteration_step _ _ _ _ _ Hit) as Hs1.
  destruct (Z.eq_dec k g) as [->|Hne].
  - exists s. rewrite Z.sub_diag. split; [reflexivity | split; [exact Hg|]].
    rewrite (train_loop_checkpoints_other _ _ _ _ _ _ _ Hloop); [| lia | lia].
    rewrite (train_iteration_checkpoints _ _ _ _ _ Hit), Hm, Hg. apply lookup_insert_eq.
  - destruct (IH (g + 1) s1 Hloop ltac:(lia) ltac:(lia) Hm) as (sk & Hpre & Hsk & Hck).
    exists sk. split; [|auto].
    replace (Z.to_nat (k - g)) with (S (Z.to_nat (k - (g + 1)))) by lia.
    simpl. rewrite Hit. exact Hpre.
Qed.

Lemma max_diff_bound eps x_adv x :
  (0 <= eps)%Q -> feasible eps x_adv x -> Forall (fun m => (m <= eps)%Q) (max_diff x_adv x).
Proof.
  intros He Hf. unfold max_diff. eapply Forall_zip_with; [exact Hf|].
  intros xa xi Hr. unfold amax_abs_diff.
  assert (Hl : Forall (fun m => (m <= eps)%Q) (zip_with (fun u v => Qabs (u - v)) xa xi)).
  { eapply Forall_zip_with; [exact Hr|]. intros u v [Huv _].
    apply Qabs_Qle_condition. lra. }
  apply fold_qmax_le; assumption.
Qed.

Lemma output_step_log eps cfg ii p x x_adv y t lg t' lg' :
  output_step cfg ii p x x_adv y t lg = Ok (t', lg') ->
  Forall (fun m => (m <= eps)%Q) (max_diff x_adv x) ->
  Forall (event_ok eps) lg -> Forall (event_ok eps) lg'.
Proof.
  unfold output_step. intros Hok Hm Hl. inv_bind.
  destruct (a0 =? 0); [|congruence]. destruct (negb (ii =? 0)).
  - inv_bind. injection Hok as <- <-. apply Forall_app; split; [exact Hl|]. repeat constructor. exact Hm.
  - injection Hok as <- <-. apply Forall_app; split; [exact Hl|]. repeat constructor. exact Hm.
Qed.

Lemma summary_step_log eps cfg ii step p x_adv y lg lg' :
  summary_step cfg ii step p x_adv y lg = Ok lg' ->
  Forall (event_ok eps) lg -> Forall (event_ok eps) lg'.
Proof.
  unfold summary_step. intros Hok Hl. inv_bind. destruct (_ =? 0); injection Hok as <-;
    [apply Forall_app; split; [exact Hl | repeat constructor] | exact Hl].
Qed.

Lemma checkpoint_step_log eps cfg ii step p ck lg ck' lg' :
  checkpoint_step cfg ii step p ck lg = Ok (ck', lg') ->
  Forall (event_ok eps) lg -> Forall (event_ok eps) lg'.
Proof.
  unfold checkpoint_step. intros Hok Hl. inv_bind.
  destruct (_ =? 0); [destruct save_dir_ok; [|discriminate]|]; injection Hok as <- <-;
    [apply Forall_app; split; [exact Hl | repeat constructor] | exact Hl].
Qed.

Lemma qsum_snoc f lo n : (qsum f lo (S n) == qsum f lo n + f (lo + Z.of_nat n)%Z)%Q.
Proof.
  revert lo. induction n as [|n IH]; intros lo.
  - cbn [qsum]. rewrite Z.add_0_r. ring.
  - cbn [qsum] in *. rewrite (IH (lo + 1)).
    replace (lo + 1 + Z.of_nat n) with (lo + Z.of_nat (S n)) by lia. ring.
Qed.

(** The reset of line 133, after a report at a non-zero multiple. *)
Lemma output_step_time cfg ii p x xa y t lg t' lg' :
  output_step cfg ii p x xa y t lg = Ok (t', lg') ->
  t' = if (ii mod num_output_steps cfg =? 0) && negb (ii =? 0) then 0%Q else t.
Proof.
  unfold output_step. intros Hok. inv_bind. apply py_mod_Ok in Ha as [_ ->].
  destruct (_ =? 0); [|injection Hok as <- _; reflexivity].
  destruct (ii =? 0); cbn [negb andb] in *; inv_bind; injection Hok as <- _; reflexivity.
Qed.

Lemma train_iteration_time cfg lr_op ii s s' :
  train_iteration cfg lr_op ii s = Ok s' ->
  training_time s' =
  ((if (ii mod num_output_steps cfg =? 0) && negb (ii =? 0) then 0
    else training_time s + attack_time ii) + train_time ii)%Q.
Proof.
  intros Hok. apply train_iteration_Ok in Hok as (? & ? & ? & ? & ? & ? & ? & ? & ? & ? & ? &
    _ & _ & Ho & _ & _ & _ & ->).
  cbn [training_time]. rewrite (output_step_time _ _ _ _ _ _ _ _ _ _ Ho). reflexivity.
Qed.

(** One iteration moves the window as lines 113, 133 and 152 move
    [training_time]. *)
Lemma timer_window_step N ii :
  0 < N -> 0 <= ii ->
  (timer_window N (ii + 1) ==
   (if (ii mod N =? 0) && negb (ii =? 0) then 0 else timer_window N ii + attack_time ii)
   + train_time ii)%Q.
Proof.
  intros HN Hii. unfold timer_window. replace (ii + 1 - 1) with ii by lia.
  destruct (Z.eqb_spec ii 0) as [->|Hne].
  - cbn [Z.eqb negb]. rewrite andb_false_r.
    replace (0 - 1) with (-1) by lia. rewrite (div_neg_one N HN), Z.div_0_l, Z.mul_0_r by lia.
    replace (N * -1 <=? 0) with true by lia. simpl. unfold iter_time. ring.
  - destruct (Z.eqb_spec (ii mod N) 0) as [Hm|Hm]; cbn [andb negb].
    + rewrite (mul_div_exact N HN ii Hm). replace (ii <=? 0) with false by lia.
      replace (Z.to_nat (ii - ii)) with O by lia. simpl. ring.
    + rewrite (div_pred_nonmultiple N HN ii Hm).
      pose proof (mul_div_pred_le N HN ii) as Hle.
      set (r := N * ((ii - 1) / N)) in *.
      destruct (Z.leb_spec r 0).
      * replace (Z.to_nat (ii + 1)) with (S (Z.to_nat ii)) by lia.
        rewrite qsum_snoc, Z2Nat.id, Z.add_0_l by lia. unfold iter_time. ring.
      * replace (Z.to_nat (ii - r)) with (S (Z.to_nat (ii - 1 - r))) by lia.
        rewrite qsum_snoc. rewrite Z2Nat.id by lia.
        replace (r + 1 + (ii - 1 - r)) with ii by lia. unfold iter_time. ring.
Qed.

(** The training loop only appends to the log. *)
Ltac log_grows :=
  intros Hok; inv_bind;
  repeat match type of Hok with
  | context [if ?c then _ else _] => destruct c
  end; inv_bind; try discriminate; injection Hok as <- <-;
  first [exists []; symmetry; apply app_nil_r | eexists; reflexivity].

Lemma output_step_prefix cfg ii p x xa y t lg t' lg' :
  output_step cfg ii p x xa y t lg = Ok (t', lg') -> exists l, lg' = lg ++ l.
Proof. unfold output_step. log_grows. Qed.

Lemma summary_step_prefix cfg ii step p xa y lg lg' :
  summary_step cfg ii step p xa y lg = Ok lg' -> exists l, lg' = lg ++ l.
Proof.
  unfold summary_step. intros Hok; inv_bind. destruct (_ =? 0); injection Hok as <-;
    [eexists; reflexivity | exists []; symmetry; apply app_nil_r].
Qed.

Lemma checkpoint_step_prefix cfg ii step p ck lg ck' lg' :
  checkpoint_step cfg ii step p ck lg = Ok (ck', lg') -> exists l, lg' = lg ++ l.
Proof. unfold checkpoint_step. log_grows. Qed.

Lemma train_iteration_prefix cfg lr_op ii s s' :
  train_iteration cfg lr_op ii s = Ok s' -> exists l, log s' = log s ++ l.
Proof.
  intros Hok. apply train_iteration_Ok in Hok as (? & ? & ? & ? & ? & ? & ? & ? & ? & ? & ? &
    _ & _ & Ho & Hs & Hc & _ & ->).
  apply output_step_prefix in Ho as [l1 ->]. apply summary_step_prefix in Hs as [l2 ->].
  apply checkpoint_step_prefix in Hc as [l3 ->]. exists (l1 ++ l2 ++ l3).
  cbn [log]. rewrite !app_assoc. reflexivity.
Qed.

Lemma train_loop_prefix cfg lr_op n ii s s' :
  train_loop cfg lr_op n ii s = Ok s' -> exists l, log s' = log s ++ l.
Proof.
  revert ii s. induction n as [|n IH]; intros ii s Hok.
  - injection Hok as <-. exists []. symmetry. apply app_nil_r.
  - apply train_loop_S in Hok as (s1 & Hit & Hloop).
    destruct (train_iteration_prefix _ _ _ _ _ Hit) as [l1 E1].
    destruct (IH _ _ Hloop) as [l2 E2]. exists (l1 ++ l2). rewrite E2, E1, app_assoc. reflexivity.
Qed.

Lemma train_loop_split cfg lr_op k m ii s s' :
  train_loop cfg lr_op (k + m) ii s = Ok s' ->
  exists sk, train_loop cfg lr_op k ii s = Ok sk /\
             train_loop cfg lr_op m (ii + Z.of_nat k) sk = Ok s'.
Proof.
  revert ii s. induction k as [|k IH]; intros ii s Hok.
  - exists s. rewrite Z.add_0_r. split; [reflexivity | exact Hok].
  - apply train_loop_S in Hok as (s1 & Hit & Hloop).
    destruct (IH _ _ Hloop) as (sk & Hk & Hm). exists sk. split.
    + simpl. rewrite Hit. exact Hk.
    + replace (ii + Z.of_nat (S k)) with (ii + 1 + Z.of_nat k) by lia. exact Hm.
Qed.

(** The report of lines 130-132 at a non-zero multiple of the cadence. *)
Lemma train_iteration_report cfg lr_op ii s s' :
  train_iteration cfg lr_op ii s = Ok s' ->
  ii mod num_output_steps cfg = 0 -> ii <> 0 ->
  exists nat_acc adv_acc md thr,
    In (EvOutput ii nat_acc adv_acc md (Some thr)) (log s') /\
    (thr == inject_Z (num_output_steps cfg * training_batch_size cfg) /
            (training_time s + attack_time ii))%Q.
Proof.
  intros Hok Hm Hne.
  apply train_iteration_Ok in Hok as (? & x & y & ? & xa & t1 & lg1 & lg2 & ck & lg3 & ? &
    _ & _ & Ho & Hs & Hc & _ & ->).
  apply summary_step_prefix in Hs as [l2 ->]. apply checkpoint_step_prefix in Hc as [l3 ->].
  unfold output_step in Ho. inv_bind. apply py_mod_Ok in Ha as [_ ->]. rewrite Hm in Ho.
  cbn [Z.eqb] in Ho. replace (negb (ii =? 0)) with true in Ho by lia. inv_bind.
  injection Ho as _ <-. unfold py_div in Ha. destruct (Qeq_bool _ _); [discriminate|].
  injection Ha as <-. do 4 eexists. split; [|reflexivity].
  cbn [log]. rewrite <- !app_assoc. apply in_or_app. right. left. reflexivity.
Qed.

(** The loop keeps [training_time] equal to [timer_window]. *)
Lemma train_loop_timer_window cfg lr_op n ii s s' :
  0 < num_output_steps cfg -> 0 <= ii ->
  (training_time s == timer_window (num_output_steps cfg) ii)%Q ->
  train_loop cfg lr_op n ii s = Ok s' ->
  (training_time s' == timer_window (num_output_steps cfg) (ii + Z.of_nat n))%Q.
Proof.
  intros HN. revert ii s. induction n as [|n IH]; intros ii s Hii Ht Hok.
  - injection Hok as <-. rewrite Z.add_0_r. exact Ht.
  - apply train_loop_S in Hok as (s1 & Hit & Hloop).
    replace (ii + Z.of_nat (S n)) with (ii + 1 + Z.of_nat n) by lia.
    apply (IH (ii + 1) s1); [lia | | exact Hloop].
    rewrite (train_iteration_time _ _ _ _ _ Hit), timer_window_step by lia.
    destruct (_ && _); [reflexivity | rewrite Ht; reflexivity].
Qed.

Lemma timer_window_zero N : 0 < N -> (timer_window N 0 == 0)%Q.
Proof.
  intros HN. unfold timer_window. replace (0 - 1) with (-1) by lia.
  rewrite (div_neg_one N HN). replace (N * -1 <=? 0) with true by lia. reflexivity.
Qed.

Lemma init_timer_window cfg p0 d0 r0 ck0 :
  0 < num_output_steps cfg ->
  (training_time (init_state p0 d0 r0 ck0) == timer_window (num_output_steps cfg) 0)%Q.
Proof. intros HN. symmetry. apply timer_window_zero, HN. Qed.

(** The loop cannot fail when the cadences are not zero, the rate is
    defined at every step and the timer measures positive attack times. *)
Lemma train_iteration_progress cfg lr_op ii s :
  save_dir_ok = true ->
  num_output_steps cfg <> 0 -> num_summary_steps cfg <> 0 -> num_checkpoint_steps cfg <> 0 ->
  (forall step, exists lr, learning_rate lr_op step = Ok lr) ->
  (forall j, 0 < attack_time j /\ 0 <= train_time j)%Q ->
  (0 <= training_time s)%Q ->
  exists s', train_iteration cfg lr_op ii s = Ok s' /\ (0 <= training_time s')%Q.
Proof.
  intros Hdir Ho Hs Hc Hlr Hclk Ht. destruct (Hclk ii) as [Ha Htr].
  destruct (Hlr (global_step s)) as [lr Hl].
  unfold train_iteration.
  destruct (get_next_batch _ _) as [d' [x y]]. destruct (adv_perturb _ _ _ _) as [r' xa].
  unfold output_step, summary_step, checkpoint_step, py_mod, py_div.
  rewrite (proj2 (Z.eqb_neq _ 0) Ho), (proj2 (Z.eqb_neq _ 0) Hs), (proj2 (Z.eqb_neq _ 0) Hc), Hdir.
  cbn [bind].
  replace (Qeq_bool (training_time s + attack_time ii) 0) with false
    by (symmetry; apply not_true_iff_false; intros E; apply Qeq_bool_eq in E; lra).
  destruct (ii mod num_output_steps cfg =? 0); [destruct (negb _)|]; cbn [bind];
    (destruct (ii mod num_summary_steps cfg =? 0); cbn [bind]);
    (destruct (ii mod num_checkpoint_steps cfg =? 0); cbn [bind]);
    rewrite Hl; cbn [bind]; eexists; (split; [reflexivity | cbn [training_time]; lra]).
Qed.

Lemma train_loop_progress cfg lr_op n ii s :
  save_dir_ok = true ->
  num_output_steps cfg <> 0 -> num_summary_steps cfg <> 0 -> num_checkpoint_steps cfg <> 0 ->
  (forall step, exists lr, learning_rate lr_op step = Ok lr) ->
  (forall j, 0 < attack_time j /\ 0 <= train_time j)%Q ->
  (0 <= training_time s)%Q ->
  exists s', train_loop cfg lr_op n ii s = Ok s'.
Proof.
  intros Hdir Ho Hs Hc Hlr Hclk. revert ii s. induction n as [|n IH]; intros ii s Ht.
  - eexists; reflexivity.
  - destruct (train_iteration_progress cfg lr_op ii s Hdir Ho Hs Hc Hlr Hclk Ht) as (s1 & Hit & Ht1).
    destruct (IH (ii + 1) s1 Ht1) as [s' Hs']. exists s'. simpl. rewrite Hit. exact Hs'.
Qed.

(** Without the directory, a run of at least one step does not return:
    iteration 0 always saves. *)
Lemma train_loop_needs_dir cfg lr_op n s s' :
  train_loop cfg lr_op (S n) 0 s = Ok s' -> save_dir_ok = true.
Proof.
  intros Hok. apply train_loop_S in Hok as (s1 & Hit & _).
  apply train_iteration_Ok in Hit
    as (? & ? & ? & ? & ? & ? & ? & ? & ? & ? & ? & _ & _ & _ & _ & Hc & _).
  apply (checkpoint_step_dir _ _ _ _ _ _ _ _ Hc). apply Z.mod_0_l.
  exact (proj1 (checkpoint_step_Ok _ _ _ _ _ _ _ _ Hc)).
Qed.

(** ... and with non-zero cadences it stops at [saver.save] of iteration
    0 with [ValueError]. *)
Lemma train_loop_no_dir cfg lr_op n s :
  save_dir_ok = false ->
  num_output_steps cfg <> 0 -> num_summary_steps cfg <> 0 -> num_checkpoint_steps cfg <> 0 ->
  train_loop cfg lr_op (S n) 0 s = Err ValueError.
Proof.
  intros Hdir Ho Hs Hc. cbn [train_loop]. unfold train_iteration.
  destruct (get_next_batch _ _) as [d' [x y]]. destruct (adv_perturb _ _ _ _) as [r' xa].
  unfold output_step, summary_step, checkpoint_step, py_mod.
  rewrite (proj2 (Z.eqb_neq _ 0) Ho), (proj2 (Z.eqb_neq _ 0) Hs), (proj2 (Z.eqb_neq _ 0) Hc), Hdir.
  rewrite !Z.mod_0_l by assumption. reflexivity.
Qed.

Lemma tags_app k l1 l2 : tags k (l1 ++ l2) = tags k l1 ++ tags k l2.
Proof. apply flat_map_app. Qed.

(** What each of the three steps adds to the log, kind by kind. *)
Lemma output_step_tags cfg ii p x xa y t lg t' lg' k :
  output_step cfg ii p x xa y t lg = Ok (t', lg') ->
  tags k lg' = tags k lg ++
    match k with KOutput => if ii mod num_output_steps cfg =? 0 then [ii] else [] | _ => [] end.
Proof.
  unfold output_step. intros Hok. inv_bind. apply py_mod_Ok in Ha as [_ ->].
  destruct (ii mod num_output_steps cfg =? 0);
    [destruct (negb _); inv_bind | ]; injection Hok as _ <-;
    rewrite ?tags_app; destruct k; cbn; rewrite ?app_nil_r; reflexivity.
Qed.

Lemma summary_step_tags cfg ii step p xa y lg lg' k :
  summary_step cfg ii step p xa y lg = Ok lg' ->
  tags k lg' = tags k lg ++
    match k with KSummary => if ii mod num_summary_steps cfg =? 0 then [step] else [] | _ => [] end.
Proof.
  unfold summary_step. intros Hok. inv_bind. apply py_mod_Ok in Ha as [_ ->].
  destruct (ii mod num_summary_steps cfg =? 0); injection Hok as <-;
    rewrite ?tags_app; destruct k; cbn; rewrite ?app_nil_r; reflexivity.
Qed.

Lemma checkpoint_step_tags cfg ii step p ck lg ck' lg' k :
  checkpoint_step cfg ii step p ck lg = Ok (ck', lg') ->
  tags k lg' = tags k lg ++
    match k with KCheckpoint => if ii mod num_checkpoint_steps cfg =? 0 then [step] else [] | _ => [] end.
Proof.
  unfold checkpoint_step. intros Hok. inv_bind. apply py_mod_Ok in Ha as [_ ->].
  destruct (ii mod num_checkpoint_steps cfg =? 0); [destruct save_dir_ok; [|discriminate]|];
    injection Hok as _ <-; rewrite ?tags_app; destruct k; cbn; rewrite ?app_nil_r; reflexivity.
Qed.

(** An iteration adds one line of kind [k] exactly at the multiples of
    the cadence of [k]. *)
Lemma train_iteration_tags cfg lr_op ii s s' k :
  train_iteration cfg lr_op ii s = Ok s' ->
  tags k (log s') = tags k (log s) ++
    (if ii mod cadence cfg k =? 0 then [match k with KOutput => ii | _ => global_step s end] else []).
Proof.
  intros Hok. apply train_iteration_Ok in Hok as (? & ? & ? & ? & ? & ? & ? & ? & ? & ? & ? &
    _ & _ & Ho & Hs & Hc & _ & ->). cbn [log].
  rewrite (checkpoint_step_tags _ _ _ _ _ _ _ _ k Hc), (summary_step_tags _ _ _ _ _ _ _ _ k Hs),
    (output_step_tags _ _ _ _ _ _ _ _ _ _ k Ho).
  destruct k; cbn [cadence]; rewrite ?app_nil_r; reflexivity.
Qed.

Lemma multiples_cons N lo n :
  multiples N lo (S n) = (if lo mod N =? 0 then [lo] else []) ++ multiples N (lo + 1) n.
Proof.
  unfold multiples. cbn [seq map filter]. rewrite Z.add_0_r.
  rewrite <- seq_shift, map_map.
  rewrite (map_ext (fun i => lo + Z.of_nat (S i)) (fun i => lo + 1 + Z.of_nat i)) by (intros; lia).
  destruct (lo mod N =? 0); reflexivity.
Qed.

Lemma multiples_snoc N n :
  multiples N 0 (S n) = multiples N 0 n ++ (if Z.of_nat n mod N =? 0 then [Z.of_nat n] else []).
Proof.
  unfold multiples. rewrite seq_S, map_app, filter_app. reflexivity.
Qed.

(** The number of multiples of [N > 0] in [range(n)] is [ceil(n / N)]. *)
Lemma multiples_length N n :
  0 < N -> List.length (multiples N 0 n) = Z.to_nat ((Z.of_nat n + N - 1) / N).
Proof.
  intros HN. induction n as [|n IH].
  - cbn. rewrite Z.div_small by lia. reflexivity.
  - rewrite multiples_snoc, length_app, IH.
    replace (Z.of_nat (S n)) with (Z.of_nat n + 1) by lia. rewrite (ceil_div_step N HN).
    assert (0 <= (Z.of_nat n + N - 1) / N) by (apply Z.div_pos; lia).
    destruct (Z.of_nat n mod N =? 0); cbn [List.length]; lia.
Qed.

(** While the global step follows [ii], the loop writes the lines of kind
    [k] at the multiples of its cadence. *)
Lemma train_loop_tags cfg lr_op n ii s s' k :
  global_step s = ii -> train_loop cfg lr_op n ii s = Ok s' ->
  tags k (log s') = tags k (log s) ++ multiples (cadence cfg k) ii n.
Proof.
  revert ii s. induction n as [|n IH]; intros ii s Hg Hok.
  - injection Hok as <-. unfold multiples. cbn. rewrite app_nil_r. reflexivity.
  - apply train_loop_S in Hok as (s1 & Hit & Hloop).
    rewrite (IH (ii + 1) s1 ltac:(rewrite (train_iteration_step _ _ _ _ _ Hit); lia) Hloop).
    rewrite (train_iteration_tags _ _ _ _ _ k Hit), multiples_cons, app_assoc, Hg.
    destruct k; reflexivity.
Qed.

(** A property of the state that every iteration keeps holds after the
    loop. *)
Lemma train_loop_preserves (P : train_state -> Prop) cfg lr_op n ii s s' :
  (forall ii s s', train_iteration cfg lr_op ii s = Ok s' -> P s -> P s') ->
  train_loop cfg lr_op n ii s = Ok s' -> P s -> P s'.
Proof.
  intros Hstep. revert ii s. induction n as [|n IH]; intros ii s Hok Hs.
  - now injection Hok as <-.
  - apply train_loop_S in Hok as (s1 & Hit & Hloop). exact (IH _ _ Hloop (Hstep _ _ _ Hit Hs)).
Qed.

(** One iteration logs perturbation sizes within [adv_epsilon] when the
    data set yields valid pixels of the input shape. *)
Lemma train_iteration_log_bounded cfg lr_op ii s s' :
  (forall d bs, in_unit (fst (snd (get_next_batch d bs))) /\
                well_shaped (fst (snd (get_next_batch d bs)))) ->
  (0 <= adv_epsilon)%Q ->
  train_iteration cfg lr_op ii s = Ok s' ->
  Forall (event_ok adv_epsilon) (log s) -> Forall (event_ok adv_epsilon) (log s').
Proof.
  intros Hdata He Hit Hl.
  apply train_iteration_Ok in Hit as (d' & x & y & r' & xa & t1 & lg1 & lg2 & ck & lg3 & lr &
    Eb & Ea & Ho & Hs & Hc & _ & ->).
  destruct (Hdata (data s) (training_batch_size cfg)) as [Hu Hw]. rewrite Eb in Hu, Hw.
  pose proof (adv_feasible (params s) (rng s) x y He Hu Hw) as Hf. rewrite Ea in Hf.
  eapply checkpoint_step_log; [exact Hc|]. eapply summary_step_log; [exact Hs|].
  eapply output_step_log; [exact Ho | apply max_diff_bound; assumption | exact Hl].
Qed.

(** ** Theorems *)

(** [C10] Logging, timing and checkpointing do not change training: a
    successful run of the loop performs exactly the training of the loop
    that only fetches, perturbs and takes optimizer steps at the
    scheduled rate (same global step, parameters, data cursor and random
    state). *)
Theorem train_loop_refines_core cfg lr_op n ii s s' :
  train_loop cfg lr_op n ii s = Ok s' -> core_loop cfg lr_op n (core_of s) = Ok (core_of s').
Proof. apply train_loop_core. Qed.

(** [C11] After a successful run the global step is the number of
    iterations, [max(0, max_num_training_steps)]: it is incremented once
    per optimizer step and by nothing else. *)
Theorem train_global_step cfg p0 d0 r0 ck0 s' :
  train cfg p0 d0 r0 ck0 = Ok s' -> global_step s' = Z.max 0 (max_num_training_steps cfg).
Proof.
  unfold train. intros Hok. inv_bind.
  rewrite (train_loop_global_step _ _ _ _ _ _ Hok). simpl. lia.
Qed.

(** [C12] Checkpoints of a run from the initial state: for every
    [0 <= k < n] with [k % num_checkpoint_steps == 0], [checkpoint-k]
    holds the parameters of the state reached after exactly [k]
    iterations, whose global step is [k]. *)
Theorem train_loop_checkpoint_content cfg lr_op n p0 d0 r0 ck0 s' k :
  train_loop cfg lr_op n 0 (init_state p0 d0 r0 ck0) = Ok s' ->
  0 <= k < Z.of_nat n -> k mod num_checkpoint_steps cfg = 0 ->
  exists sk, train_loop cfg lr_op (Z.to_nat k) 0 (init_state p0 d0 r0 ck0) = Ok sk /\
             global_step sk = k /\ checkpoints s' !! k = Some (params sk).
Proof.
  intros Hok Hk Hm.
  destruct (train_loop_checkpoints_saved _ _ _ _ _ _ k Hok eq_refl ltac:(lia) Hm)
    as (sk & Hpre & Hsk & Hck).
  rewrite Z.sub_0_r in Hpre. eauto.
Qed.

(** [C13] The parameters of the end of training are never saved: a run
    of [n] iterations into an empty [model_dir] leaves no checkpoint for
    its final global step [n]; the last one is the one written before
    the last [(n-1) mod num_checkpoint_steps + 1] optimizer steps. *)
Theorem train_loop_final_unsaved cfg lr_op n p0 d0 r0 s' :
  train_loop cfg lr_op n 0 (init_state p0 d0 r0 ∅) = Ok s' ->
  global_step s' = Z.of_nat n /\ checkpoints s' !! global_step s' = None.
Proof.
  intros Hok. pose proof (train_loop_global_step _ _ _ _ _ _ Hok) as Hg. simpl in Hg.
  split; [exact Hg|]. rewrite Hg.
  rewrite (train_loop_checkpoints_other _ _ _ _ _ _ _ Hok eq_refl); [reflexivity | lia].
Qed.

(** [C14] A zero cadence is fatal: when one of [num_output_steps],
    [num_summary_steps], [num_checkpoint_steps] is 0, the first
    iteration raises [ZeroDivisionError] (Python's [ii % 0]). *)
Theorem train_loop_zero_cadence cfg lr_op n ii s :
  num_output_steps cfg = 0 \/ num_summary_steps cfg = 0 \/ num_checkpoint_steps cfg = 0 ->
  train_loop cfg lr_op (S n) ii s = Err ZeroDivisionError.
Proof.
  intros Hz. simpl. unfold train_iteration.
  destruct (get_next_batch _ _) as [d' [x y]]. destruct (adv_perturb _ _ _ _) as [r' xa].
  unfold output_step, summary_step, checkpoint_step, py_mod, py_div.
  destruct (Z.eqb_spec (num_output_steps cfg) 0); [reflexivity|]. cbn [bind].
  destruct (_ mod _ =? 0); [destruct (negb _); [destruct (Qeq_bool _ _)|]|]; cbn [bind];
    try reflexivity;
    (destruct (Z.eqb_spec (num_summary_steps cfg) 0); [reflexivity|]); cbn [bind];
    (destruct (_ mod _ =? 0); cbn [bind]);
    (destruct (Z.eqb_spec (num_checkpoint_steps cfg) 0); [reflexivity | lia]).
Qed.

(** [C15] The perturbation sizes printed at line 127 are at most the
    adversary's [epsilon], provided the data set yields batches of valid
    pixels in the model's input shape: the promise of the attack carries
    over to everything the loop logs. *)
Theorem train_loop_log_bounded cfg lr_op n ii s s' :
  (forall d bs, in_unit (fst (snd (get_next_batch d bs))) /\
                well_shaped (fst (snd (get_next_batch d bs)))) ->
  (0 <= adv_epsilon)%Q ->
  train_loop cfg lr_op n ii s = Ok s' ->
  Forall (event_ok adv_epsilon) (log s) -> Forall (event_ok adv_epsilon) (log s').
Proof.
  intros Hdata He.
  apply (train_loop_preserves (fun s => Forall (event_ok adv_epsilon) (log s))).
  intros ii' s1 s2. apply train_iteration_log_bounded; assumption.
Qed.

(** [C19] The timer accounting of lines 109-113, 130-133 and 149-152:
    in a run from the initial state with [num_output_steps = N > 0], after
    [n] iterations [training_time] is [timer_window N n], the attack and
    training durations of the iterations since the last reset, which
    happens after the report of a non-zero multiple of [N]. *)
Theorem train_loop_training_time cfg lr_op n p0 d0 r0 ck0 s' :
  0 < num_output_steps cfg ->
  train_loop cfg lr_op n 0 (init_state p0 d0 r0 ck0) = Ok s' ->
  (training_time s' == timer_window (num_output_steps cfg) (Z.of_nat n))%Q.
Proof.
  intros HN Hok.
  pose proof (train_loop_timer_window _ _ _ _ _ _ HN (Z.le_refl 0)
                (init_timer_window cfg p0 d0 r0 ck0 HN) Hok) as Ht.
  rewrite Z.add_0_l in Ht. exact Ht.
Qed.

(** [C20] The throughput printed at line 132: at every iteration [ii] of
    the run that is a non-zero multiple of [N = num_output_steps], the log
    holds a report of [ii] whose examples-per-second figure is
    [N * batch_size / (timer_window N ii + attack_time ii)]. The
    denominator of the first report, at [ii = N], holds the [N + 1]
    attack durations of iterations [0..N] and the [N] training durations
    of iterations [0..N-1]; later ones the attacks of [ii-N+1..ii] and the
    training steps of [ii-N..ii-1]. *)
Theorem train_loop_throughput cfg lr_op n p0 d0 r0 ck0 s' ii :
  0 < num_output_steps cfg ->
  train_loop cfg lr_op n 0 (init_state p0 d0 r0 ck0) = Ok s' ->
  0 < ii < Z.of_nat n -> ii mod num_output_steps cfg = 0 ->
  exists nat_acc adv_acc md thr,
    In (EvOutput ii nat_acc adv_acc md (Some thr)) (log s') /\
    (thr == inject_Z (num_output_steps cfg * training_batch_size cfg) /
            (timer_window (num_output_steps cfg) ii + attack_time ii))%Q.
Proof.
  intros HN Hok Hii Hm.
  replace n with (Z.to_nat ii + S (n - S (Z.to_nat ii)))%nat in Hok by lia.
  destruct (train_loop_split _ _ _ _ _ _ _ Hok) as (sk & Hk & Hrest).
  apply train_loop_S in Hrest as (s1 & Hit & Hloop).
  replace (0 + Z.of_nat (Z.to_nat ii)) with ii in Hit by lia.
  pose proof (train_loop_timer_window _ _ _ _ _ _ HN (Z.le_refl 0)
                (init_timer_window cfg p0 d0 r0 ck0 HN) Hk) as Ht.
  replace (0 + Z.of_nat (Z.to_nat ii)) with ii in Ht by lia.
  destruct (train_iteration_report _ _ _ _ _ Hit Hm ltac:(lia)) as (na & aa & md & thr & Hin & Hthr).
  destruct (train_loop_prefix _ _ _ _ _ _ Hloop) as [l El].
  exists na, aa, md, thr. split.
  - rewrite El. apply in_or_app. left. exact Hin.
  - rewrite Hthr, Ht. reflexivity.
Qed.

(** [C21] The script runs to its end: with [model_dir] a directory for
    [saver.save], non-zero cadences, a schedule whose op is built and
    whose steps are sorted, and a timer that measures positive attack
    durations, [train] returns, after
    [max(0, max_num_training_steps)] optimizer steps. *)
Theorem train_progress cfg p0 d0 r0 ck0 pw :
  save_dir_ok = true ->
  num_output_steps cfg <> 0 -> num_summary_steps cfg <> 0 -> num_checkpoint_steps cfg <> 0 ->
  learning_rate_op (step_size_schedule cfg) = Ok pw ->
  sortedb (schedule_boundaries (step_size_schedule cfg)) = true ->
  (forall j, 0 < attack_time j /\ 0 <= train_time j)%Q ->
  exists s', train cfg p0 d0 r0 ck0 = Ok s' /\
             global_step s' = Z.max 0 (max_num_training_steps cfg).
Proof.
  intros Hdir Ho Hs Hc Hop Hsort Hclk. unfold train. rewrite Hop. cbn [bind].
  destruct (train_loop_progress cfg pw (Z.to_nat (max_num_training_steps cfg)) 0
              (init_state p0 d0 r0 ck0) Hdir Ho Hs Hc) as [s' Hs'];
    [intros step; eexists; exact (learning_rate_sorted_Ok _ _ step Hop Hsort)
    | exact Hclk | simpl; lra |].
  exists s'. split; [exact Hs'|].
  rewrite (train_loop_global_step _ _ _ _ _ _ Hs'). simpl. lia.
Qed.

(** [C26] The schedule of the log: in a run from the initial state, the
    console reports, the summaries and the checkpoints are written exactly
    at the iterations [ii] that are multiples of their cadence
    ([ii % N == 0], lines 122, 135, 143), in the order of the loop, each
    tagged with [ii]: the global step of lines 137 and 146 is [ii]. *)
Theorem train_loop_schedule cfg lr_op n p0 d0 r0 ck0 s' k :
  train_loop cfg lr_op n 0 (init_state p0 d0 r0 ck0) = Ok s' ->
  tags k (log s') = multiples (cadence cfg k) 0 n.
Proof.
  intros Hok. rewrite (train_loop_tags cfg lr_op n 0 (init_state p0 d0 r0 ck0) s' k eq_refl Hok).
  reflexivity.
Qed.

(** [C27] A run of [n] iterations from the initial state writes
    [ceil(n / num_checkpoint_steps)] checkpoints. *)
Theorem train_loop_checkpoint_count cfg lr_op n p0 d0 r0 ck0 s' :
  0 < num_checkpoint_steps cfg ->
  train_loop cfg lr_op n 0 (init_state p0 d0 r0 ck0) = Ok s' ->
  List.length (tags KCheckpoint (log s')) =
  Z.to_nat ((Z.of_nat n + num_checkpoint_steps cfg - 1) / num_checkpoint_steps cfg).
Proof.
  intros HN Hok.
  rewrite (train_loop_tags cfg lr_op n 0 (init_state p0 d0 r0 ck0) s' KCheckpoint eq_refl Hok).
  exact (multiples_length _ _ HN).
Qed.

(** [C18] A second run into the same model directory: the step counter
    restarts at 0, so each checkpoint step [k] of this run overwrites the
    [checkpoint-k] an earlier run left, with the parameters of [k]
    optimizer steps from the fresh initialisation (whatever was there),
    and every other checkpoint of the earlier run is kept: the directory
    mixes the two runs. *)
Theorem train_loop_rerun_checkpoints cfg lr_op n p0 d0 r0 ck0 s' k :
  train_loop cfg lr_op n 0 (init_state p0 d0 r0 ck0) = Ok s' ->
  (0 <= k < Z.of_nat n -> k mod num_checkpoint_steps cfg = 0 ->
     exists c, core_loop cfg lr_op (Z.to_nat k) (mk_core 0 p0 d0 r0) = Ok c /\
               checkpoints s' !! k = Some (c_params c)) /\
  (~ (0 <= k < Z.of_nat n /\ k mod num_checkpoint_steps cfg = 0) ->
     checkpoints s' !! k = ck0 !! k).
Proof.
  intros Hok. split.
  - intros Hk Hm.
    destruct (train_loop_checkpoints_saved _ _ _ _ _ _ k Hok eq_refl ltac:(lia) Hm)
      as (sk & Hpre & _ & Hck).
    rewrite Z.sub_0_r in Hpre. exists (core_of sk). split; [exact (train_loop_core _ _ _ _ _ _ Hpre)|].
    exact Hck.
  - intros Hk. exact (train_loop_checkpoints_other _ _ _ _ _ _ k Hok eq_refl ltac:(lia)).
Qed.

End Loop.

(** ** A concrete run

    The linear classifier of [Attack] under [LinfWRMAttack] without noise
    draws, a model of constant accuracy, a gradient-free update, a data set
    that always yields the same batch, a clock of constant durations. *)

Definition uniform_zero (eps : Q) (r : unit) (x : batch) : unit * batch := (r, tmap (fun _ => 0%Q) x).

Lemma uniform_zero_ok eps r x : (0 <= eps)%Q -> noise_ok eps (snd (uniform_zero eps r x)) x.
Proof.
  intros He. unfold noise_ok. simpl. eapply T2_map; [apply T2_eq_refl|]. intros. lra.
Qed.

#[local] Existing Instance lin.

Definition adv_ex : Adversary image unit :=
  linf_adversary uniform_zero uniform_zero_ok atk_ex.
#[local] Existing Instance adv_ex.

#[local] Instance model_ex : Model image :=
  {| accuracy := fun _ _ _ => 1#2; xent := fun _ _ _ => 1%Q; weight_decay_loss := fun _ => 0%Q |}.

#[local] Instance optimizer_ex : Optimizer image :=
  {| adam_minimize := fun f lr p => map (fun w => w - lr * f p)%Q p |}.

#[local] Instance dataset_ex : Dataset nat :=
  {| get_next_batch := fun d _ => (S d, (x_ex, y_ex)); test_data := x_ex; test_label := y_ex |}.

#[local] Instance clock_ex : Clock := {| attack_time := fun _ => 1%Q; train_time := fun _ => 2%Q |}.

Definition cfg_ex : config := mk_config 5 2 2 2 2 spec_schedule (1#100).

Definition s0_ex : @train_state image nat unit := init_state dw_ex O tt ∅.

Lemma run_ex_Ok : exists s', train_loop true cfg_ex spec_op 5 0 s0_ex = Ok s'.
Proof. vm_compute. eexists. reflexivity. Qed.

Lemma train_ex_Ok : exists s', train true cfg_ex dw_ex O tt ∅ = Ok s'.
Proof. vm_compute. eexists. reflexivity. Qed.

Lemma train_loop_refines_core_witness :
  exists s', train_loop true cfg_ex spec_op 5 0 s0_ex = Ok s' /\
             core_loop cfg_ex spec_op 5 (core_of s0_ex) = Ok (core_of s').
Proof.
  destruct run_ex_Ok as [s' Hs']. exists s'. split; [exact Hs'|].
  exact (train_loop_refines_core true cfg_ex spec_op 5 0 s0_ex s' Hs').
Defined.

Lemma train_global_step_witness :
  exists s', train true cfg_ex dw_ex O tt ∅ = Ok s' /\ global_step s' = 5.
Proof.
  destruct train_ex_Ok as [s' Hs']. exists s'. split; [exact Hs'|].
  exact (train_global_step true cfg_ex dw_ex O tt ∅ s' Hs').
Defined.

Lemma train_loop_checkpoint_content_witness :
  exists sk, train_loop true cfg_ex spec_op 2 0 s0_ex = Ok sk /\ global_step sk = 2 /\
    exists s', train_loop true cfg_ex spec_op 5 0 s0_ex = Ok s' /\ checkpoints s' !! 2 = Some (params sk).
Proof.
  destruct run_ex_Ok as [s' Hs'].
  destruct (train_loop_checkpoint_content true cfg_ex spec_op 5 dw_ex O tt ∅ s' 2 Hs' ltac:(lia)
              ltac:(reflexivity)) as (sk & Hpre & Hg & Hck).
  exists sk. split; [exact Hpre|]. split; [exact Hg|]. exists s'. split; assumption.
Defined.

Lemma train_loop_final_unsaved_witness :
  exists s', train_loop true cfg_ex spec_op 5 0 s0_ex = Ok s' /\
    global_step s' = 5 /\ checkpoints s' !! global_step s' = None.
Proof.
  destruct run_ex_Ok as [s' Hs']. exists s'. split; [exact Hs'|].
  exact (train_loop_final_unsaved true cfg_ex spec_op 5 dw_ex O tt s' Hs').
Defined.

Lemma train_loop_zero_cadence_witness :
  train_loop true (mk_config 5 0 2 2 2 spec_schedule (1#100)) spec_op 4 0 s0_ex = Err ZeroDivisionError.
Proof. apply train_loop_zero_cadence. left. reflexivity. Defined.

Lemma train_loop_log_bounded_witness :
  exists s', train_loop true cfg_ex spec_op 5 0 s0_ex = Ok s' /\
    Forall (event_ok (@adv_epsilon image unit lin adv_ex)) (log s').
Proof.
  destruct run_ex_Ok as [s' Hs']. exists s'. split; [exact Hs'|].
  apply (train_loop_log_bounded true cfg_ex spec_op 5 0 s0_ex s'); [| simpl; lra | exact Hs' | constructor].
  intros d bs. cbv [get_next_batch dataset_ex fst snd]. split; concrete.
Defined.

Lemma train_loop_training_time_witness :
  exists s', train_loop true cfg_ex spec_op 5 0 s0_ex = Ok s' /\
             (training_time s' == timer_window 2 5)%Q.
Proof.
  destruct run_ex_Ok as [s' Hs']. exists s'. split; [exact Hs'|].
  exact (train_loop_training_time true cfg_ex spec_op 5 dw_ex O tt ∅ s' ltac:(reflexivity) Hs').
Defined.

Lemma train_loop_throughput_witness :
  exists s', train_loop true cfg_ex spec_op 5 0 s0_ex = Ok s' /\
    exists na aa md thr, In (EvOutput 4 na aa md (Some thr)) (log s') /\
      (thr == inject_Z (2 * 2) / (timer_window 2 4 + 1))%Q.
Proof.
  destruct run_ex_Ok as [s' Hs']. exists s'. split; [exact Hs'|].
  exact (train_loop_throughput true cfg_ex spec_op 5 dw_ex O tt ∅ s' 4
           ltac:(reflexivity) Hs' ltac:(lia) ltac:(reflexivity)).
Defined.

Lemma train_progress_witness :
  exists s', train true cfg_ex dw_ex O tt ∅ = Ok s' /\ global_step s' = Z.max 0 5.
Proof.
  apply (train_progress true cfg_ex dw_ex O tt ∅ spec_op);
    [reflexivity | discriminate | discriminate | discriminate | reflexivity | reflexivity |].
  intros j. simpl. split; lra.
Defined.

Lemma train_loop_schedule_witness :
  exists s', train_loop true cfg_ex spec_op 5 0 s0_ex = Ok s' /\
             tags KSummary (log s') = multiples 2 0 5 /\ multiples 2 0 5 = [0; 2; 4].
Proof.
  destruct run_ex_Ok as [s' Hs']. exists s'. split; [exact Hs'|]. split; [|reflexivity].
  exact (train_loop_schedule true cfg_ex spec_op 5 dw_ex O tt ∅ s' KSummary Hs').
Defined.

Lemma train_loop_checkpoint_count_witness :
  exists s', train_loop true cfg_ex spec_op 5 0 s0_ex = Ok s' /\
             List.length (tags KCheckpoint (log s')) = 3%nat.
Proof.
  destruct run_ex_Ok as [s' Hs']. exists s'. split; [exact Hs'|].
  exact (train_loop_checkpoint_count true cfg_ex spec_op 5 dw_ex O tt ∅ s' ltac:(reflexivity) Hs').
Defined.

(** Parameters an earlier run saved. *)
Definition old_ex : image := [0%Q; 0%Q].

Definition ck0_ex : gmap Z image := {[0 := old_ex; 7 := old_ex]}.

Lemma rerun_ex_Ok : exists s', train_loop true cfg_ex spec_op 5 0 (init_state dw_ex O tt ck0_ex) = Ok s'.
Proof. vm_compute. eexists. reflexivity. Qed.

Lemma train_loop_rerun_checkpoints_witness :
  exists s', train_loop true cfg_ex spec_op 5 0 (init_state dw_ex O tt ck0_ex) = Ok s' /\
    checkpoints s' !! 7 = Some old_ex /\
    exists c, core_loop cfg_ex spec_op 0 (mk_core 0 dw_ex O tt) = Ok c /\
              checkpoints s' !! 0 = Some (c_params c) /\ c_params c = dw_ex.
Proof.
  destruct rerun_ex_Ok as [s' Hs']. exists s'. split; [exact Hs'|].
  destruct (train_loop_rerun_checkpoints true cfg_ex spec_op 5 dw_ex O tt ck0_ex s' 7 Hs') as [_ H7].
  destruct (train_loop_rerun_checkpoints true cfg_ex spec_op 5 dw_ex O tt ck0_ex s' 0 Hs') as [H0 _].
  split; [rewrite H7 by lia; reflexivity|].
  destruct (H0 ltac:(lia) eq_refl) as (c & Hc & Hck). exists c. split; [exact Hc|].
  split; [exact Hck|]. injection Hc as <-. reflexivity.
Defined.

End Training.
