(* ===== verification/Data.v ===== *)
(** * The training set's batches

    [YALE_TRAIN = data_loader.DataSubset(train_data, train_label)] (line
    41) and its [get_next_batch(batch_size)] (line 106). [data_loader] is
    outside src/; it is modelled from the specification: "fixed-size
    batches of labeled examples, in sequential epoch-cycling order". The
    object holds the examples; its state is the cursor [batch_start], the
    [Data] of [Driver.Training.Dataset].

    Theorems: a batch has [min(batch_size, n)] examples; batches of valid
    images are valid images, which discharges the data hypothesis of the
    attack's bound; one epoch's batches, put together, are the data in
    order; and the sequence of batches repeats with the period of an
    epoch. *)

From Stdlib Require Import QArith ZArith Lia List.
From S2P Require Import Prelude Attack Driver.
Import ListNotations.
Import LinfWRMAttack Training.

Module DataSubset.

Open Scope nat_scope.

Section Subset.
(** The examples and labels [YALE_split] returned (line 39). *)
Variables (xs : batch) (ys : labels).

(** [get_next_batch(batch_size)] at cursor [c]: [actual_batch_size =
    min(batch_size, n)]; when the batch would run past the end of the data
    the next epoch starts at 0; the batch is [xs[start:start+b]] and the
    cursor moves past it. A size below 1 gives an empty batch (the
    specification's batches have a positive size). *)
Definition next_batch (c : nat) (bs : Z) : nat * (batch * labels) :=
  let b := Nat.min (Z.to_nat bs) (List.length xs) in
  let start := if List.length xs <? c + b then 0 else c in
  (start + b, (firstn b (skipn start xs), firstn b (skipn start ys))).

(** The batches of [m] successive calls from cursor [c]. *)
Fixpoint batches (c : nat) (bs : Z) (m : nat) : list (batch * labels) :=
  match m with
  | O => []
  | S m' => let (c', xy) := next_batch c bs in xy :: batches c' bs m'
  end.

(** [DataSubset(train_data, train_label)], with the test set of line 39
    for the evaluations of lines 137-138. *)
Definition data_subset (tx : batch) (ty : labels) : Dataset nat :=
  {| get_next_batch := next_batch; test_data := tx; test_label := ty |}.

(** ** Lemmas *)

Lemma next_batch_start c bs :
  let b := Nat.min (Z.to_nat bs) (List.length xs) in
  exists start, next_batch c bs = (start + b, (firstn b (skipn start xs), firstn b (skipn start ys)))
                /\ start + b <= List.length xs.
Proof.
  cbv zeta. unfold next_batch.
  destruct (Nat.ltb_spec (List.length xs) (c + Nat.min (Z.to_nat bs) (List.length xs))).
  - exists 0. split; [reflexivity | lia].
  - exists c. split; [reflexivity | lia].
Qed.

Section Aligned.
(** A batch size [b] that fits in the data, and cursors at multiples of
    [b]. *)
Variable bs : Z.
Hypothesis Hb : 0 < Z.to_nat bs <= List.length xs.

Let b := Z.to_nat bs.

Lemma next_batch_aligned j :
  (j + 1) * b <= List.length xs ->
  next_batch (j * b) bs = ((j + 1) * b, (firstn b (skipn (j * b) xs), firstn b (skipn (j * b) ys))).
Proof.
  intros H. unfold next_batch. fold b. rewrite Nat.min_l by lia.
  destruct (Nat.ltb_spec (List.length xs) (j * b + b)); [lia|]. f_equal. lia.
Qed.

Lemma batches_aligned m j m' :
  (j + m) * b <= List.length xs ->
  batches (j * b) bs (m + m') =
    map (fun i => (firstn b (skipn (i * b) xs), firstn b (skipn (i * b) ys))) (seq j m) ++
    batches ((j + m) * b) bs m'.
Proof.
  revert j. induction m as [|m IH]; intros j H; [rewrite Nat.add_0_r; reflexivity|].
  cbn [Nat.add batches seq map]. rewrite next_batch_aligned by lia.
  replace ((j + 1) * b) with (S j * b) by lia. rewrite (IH (S j)) by lia.
  replace (S j + m) with (j + S m) by lia. reflexivity.
Qed.

Lemma concat_slices m j :
  concat (map fst (map (fun i => (firstn b (skipn (i * b) xs), firstn b (skipn (i * b) ys)))
                       (seq j m))) =
  firstn (m * b) (skipn (j * b) xs).
Proof.
  revert j. induction m as [|m IH]; intros j; [reflexivity|].
  cbn [seq map concat fst]. rewrite IH, (Nat.mul_succ_l m b), (Nat.add_comm (m * b) b), firstn_add.
  rewrite skipn_skipn. do 3 f_equal; lia.
Qed.

(** The cursor after a full epoch cannot fit another batch. *)
Lemma epoch_end : List.length xs < (List.length xs / b + 1) * b.
Proof.
  pose proof (Nat.div_mod (List.length xs) b ltac:(lia)).
  pose proof (Nat.mod_upper_bound (List.length xs) b ltac:(lia)). nia.
Qed.

Lemma epoch_fits : List.length xs / b * b <= List.length xs.
Proof. rewrite Nat.mul_comm. apply Nat.Div0.mul_div_le. Qed.

Lemma batches_wrap m : batches (List.length xs / b * b) bs m = batches 0 bs m.
Proof.
  destruct m as [|m]; [reflexivity|]. cbn [batches].
  replace (next_batch (List.length xs / b * b) bs) with (next_batch (0 * b) bs); [reflexivity|].
  pose proof epoch_end. unfold next_batch. fold b. rewrite Nat.min_l by lia.
  destruct (Nat.ltb_spec (List.length xs) (0 * b + b)); [lia|].
  destruct (Nat.ltb_spec (List.length xs) (List.length xs / b * b + b)); [|lia]. reflexivity.
Qed.

Lemma batches_from_zero m' :
  batches 0 bs (List.length xs / b + m') =
    map (fun i => (firstn b (skipn (i * b) xs), firstn b (skipn (i * b) ys)))
        (seq 0 (List.length xs / b)) ++
    batches (List.length xs / b * b) bs m'.
Proof. exact (batches_aligned (List.length xs / b) 0 m' epoch_fits). Qed.

Lemma batches_one_epoch :
  batches 0 bs (List.length xs / b) =
    map (fun i => (firstn b (skipn (i * b) xs), firstn b (skipn (i * b) ys)))
        (seq 0 (List.length xs / b)).
Proof.
  pose proof (batches_from_zero 0) as H. rewrite Nat.add_0_r in H. rewrite H. apply app_nil_r.
Qed.
End Aligned.

(** Batches of valid images, of the model's input shape, are valid
    images of that shape, at every cursor and size. *)
Lemma next_batch_valid {P : Type} `{Classifier P} :
  in_unit xs -> well_shaped xs ->
  forall c bs, in_unit (fst (snd (next_batch c bs))) /\ well_shaped (fst (snd (next_batch c bs))).
Proof.
  intros Hu Hw c bs. destruct (next_batch_start c bs) as (start & -> & _).
  split; apply Forall_slice; assumption.
Qed.

(** [C31] [get_next_batch] returns [min(batch_size, n)] examples and as
    many labels, whatever the cursor, and leaves the cursor inside the
    data. *)
Theorem next_batch_size c bs :
  List.length ys = List.length xs ->
  List.length (fst (snd (next_batch c bs))) = Nat.min (Z.to_nat bs) (List.length xs) /\
  List.length (snd (snd (next_batch c bs))) = Nat.min (Z.to_nat bs) (List.length xs) /\
  fst (next_batch c bs) <= List.length xs.
Proof.
  intros Hy. destruct (next_batch_start c bs) as (start & -> & Hle). cbn [fst snd].
  rewrite !slice_length by lia. repeat split; lia.
Qed.

(** [C32] Sequential order: from the cursor of a fresh [DataSubset], the
    [n / b] batches of an epoch, put together, are the first [n / b * b]
    examples in their order; each of them is drawn once. *)
Theorem batches_epoch bs :
  0 < Z.to_nat bs <= List.length xs ->
  concat (map fst (batches 0 bs (List.length xs / Z.to_nat bs))) =
  firstn (List.length xs / Z.to_nat bs * Z.to_nat bs) xs.
Proof. intros Hb. rewrite (batches_one_epoch bs Hb). exact (concat_slices bs _ 0). Qed.

(** [C33] Epoch cycling: after the [n / b] batches of an epoch the
    sequence of batches starts again from the first example. *)
Theorem batches_cycle bs m :
  0 < Z.to_nat bs <= List.length xs ->
  batches 0 bs (List.length xs / Z.to_nat bs + m) =
  batches 0 bs (List.length xs / Z.to_nat bs) ++ batches 0 bs m.
Proof.
  intros Hb. rewrite (batches_from_zero bs Hb), (batches_one_epoch bs Hb), (batches_wrap bs Hb).
  reflexivity.
Qed.
End Subset.

(** ** A concrete data set

    Five images of one pixel, batches of two. *)

Definition xs_ex : batch := [[0%Q]; [1#4]; [1#2]; [3#4]; [1%Q]].
Definition ys_ex : labels := [0%Z; 1%Z; 0%Z; 1%Z; 0%Z].

Lemma next_batch_size_witness :
  List.length (fst (snd (next_batch xs_ex ys_ex 4 2))) = 2 /\ 
  fst (next_batch xs_ex ys_ex 4 2) = 2.
Proof.
  destruct (next_batch_size xs_ex ys_ex 4 2 eq_refl) as (Hl & _ & _).
  split; [exact Hl | reflexivity].
Defined.

Lemma batches_epoch_witness :
  concat (map fst (batches xs_ex ys_ex 0 2 2)) = [[0%Q]; [1#4]; [1#2]; [3#4]].
Proof. exact (batches_epoch xs_ex ys_ex 2 ltac:(cbn; lia)). Defined.

Lemma batches_cycle_witness :
  batches xs_ex ys_ex 0 2 3 = batches xs_ex ys_ex 0 2 2 ++ batches xs_ex ys_ex 0 2 1 /\ 
  batches xs_ex ys_ex 0 2 1 = [([[0%Q]; [1#4]], [0%Z; 1%Z])].
Proof. split; [exact (batches_cycle xs_ex ys_ex 2 1 ltac:(cbn; lia)) | reflexivity]. Defined.
End DataSubset.
