(* ===== verification/Script.v ===== *)
(** * The whole script: setup, the model directory, and the run

    [train_robust.py] from top to bottom: it reads [config.json] (lines
    26-27), reads the settings and builds the graph (lines 30-71), derives
    and creates the model directory (lines 75-77), defines the summaries
    (lines 85-91, where line 88 divides by the batch size), copies the
    configuration into the directory (line 93), computes [eps_step] (line
    95), opens the summary writer on the directory (line 99) and runs the
    training loop of [Driver] (lines 100-152).

    The effects on the file system are explicit state passing in the
    monad [script] (state [fs], errors [result]): a failing run leaves
    what it wrote before the exception. The parts of the run that are
    library code are interfaces: [json.load] ([JsonLoad]) and [repr] of
    floats and containers ([PyRepr]).

    Theorems: after every successful run the copy of the configuration
    is in the model directory, or a file stood there, was overwritten by
    the configuration, and no training step ran; a configuration without
    [num_schedule_steps] stops the script after the directory and the copy
    were written, while an error in the settings of lines 30-71 stops it
    before it writes anything; a file where the directory should be is
    overwritten by the configuration and the run stops with [ValueError]
    at the first [saver.save] (TF1's summary writer accepts the existing
    path); checkpoint names are distinct for distinct steps; a successful
    run ends at the configured global step; on a well-formed
    configuration into a fresh directory the script returns without an
    exception ([main_succeeds]); and, on the Yale data set of [Data]
    (section [Yale]), every printed perturbation size is at most the
    configured [epsilon]. *)

From stdpp Require Import base gmap strings.
From Stdlib Require Import QArith Lqa ZArith Lia List String Ascii Bool.
From S2P Require Import Prelude Attack Schedule Config Driver Data.
Import ListNotations.
Import LinfWRMAttack LearningRate JsonConfig Training DataSubset.

Module Script.

Open Scope Z_scope.
Open Scope robust_scope.

(** ** The file system and the script monad *)

(** Directories, and files with their text. *)
Record fs := mk_fs {
  fs_dirs : gset string;
  fs_files : gmap string string
}.

Definition script (A : Type) : Type := fs -> fs * result A.

Definition sret {A} (a : A) : script A := fun f => (f, Ok a).

(** A step without effects on the file system. *)
Definition slift {A} (r : result A) : script A := fun f => (f, r).

Definition sbind {A B} (m : script A) (k : A -> script B) : script B :=
  fun f => match m f with
           | (f', Ok a) => k a f'
           | (f', Err e) => (f', Err e)
           end.

Notation "'let!' x ':=' m 'in' k" := (sbind m (fun x => k))
  (at level 10, x name, m at level 100, k at level 200) : robust_scope.

(** [os.path.exists(p)]. *)
Definition path_exists (p : string) (f : fs) : bool :=
  bool_decide (p ∈ fs_dirs f) || bool_decide (is_Some (fs_files f !! p)).

Definition is_file (p : string) (f : fs) : bool := bool_decide (is_Some (fs_files f !! p)).

(** [open(p)] for reading: [FileNotFoundError] when there is no file. *)
Definition read_file (p : string) : script string :=
  fun f => match fs_files f !! p with
           | Some text => (f, Ok text)
           | None => (f, Err OSError)
           end.

(** The directories [os.makedirs(p)] creates before [p]: the prefixes of
    [p] that end before a [/]. *)
Fixpoint parent_dirs_acc (acc : string) (p : string) : list string :=
  match p with
  | EmptyString => []
  | String c p' =>
      if Ascii.eqb c "/"%char then
        (if String.eqb acc "" then [] else [acc]) ++ parent_dirs_acc (acc ++ "/")%string p'
      else parent_dirs_acc (acc ++ String c "")%string p'
  end.

Definition parent_dirs (p : string) : list string := parent_dirs_acc "" p.

Definition mkdir_one (d : string) (f : fs) : result fs :=
  if is_file d f then Err OSError else Ok (mk_fs ({[d]} ∪ fs_dirs f) (fs_files f)).

(** [os.makedirs(p)] on a path that does not exist: every missing parent
    and [p]; a file on the way is an [OSError]. *)
Definition makedirs (p : string) : script unit :=
  fun f =>
    match fold_left (fun acc d => let* f' := acc in mkdir_one d f') (parent_dirs p ++ [p]) (Ok f) with
    | Ok f' => (f', Ok tt)
    | Err e => (f, Err e)
    end.

(** [shutil.copy(src, dst)]: into [dst/src] when [dst] is a directory,
    over [dst] otherwise. *)
Definition copy_file (src dst : string) : script unit :=
  fun f =>
    match fs_files f !! src with
    | None => (f, Err OSError)
    | Some text =>
        let target := if bool_decide (dst ∈ fs_dirs f) then (dst ++ "/" ++ src)%string else dst in
        (mk_fs (fs_dirs f) (<[target := text]> (fs_files f)), Ok tt)
    end.

(** [tf.summary.FileWriter(logdir)] (TF1): [gfile.MakeDirs(logdir)],
    which does nothing when the path exists, even as a file (opening the
    event file there then fails in the writer's thread, which only logs
    it), and creates the directory with its parents otherwise. *)
Definition file_writer (logdir : string) : script unit :=
  fun f => if path_exists logdir f then (f, Ok tt) else makedirs logdir f.

(** [gfile.IsDirectory(os.path.dirname(save_path))], the check of TF1's
    [Saver.save] (line 144) on [model_dir]. *)
Definition is_dir (p : string) : script bool := fun f => (f, Ok (bool_decide (p ∈ fs_dirs f))).


(** ** Python values of the settings *)

(** [json.load] on the text of the file ([ValueError] on bad JSON). *)
Class JsonLoad := { json_load : string -> result json }.

(** CPython's [repr] of a float (the shortest string that reads back) and
    of a list or a dict. *)
Class PyRepr := {
  float_repr : Q -> string;
  container_repr : json -> string
}.

Section Values.
Context `{!PyRepr}.

(** [str(v)]. *)
Definition py_str (v : json) : string :=
  match v with
  | JNull => "None"
  | JBool true => "True"
  | JBool false => "False"
  | JInt z => py_str_int z
  | JFloat q => float_repr q
  | JStr s => s
  | JList _ | JObj _ => container_repr v
  end.
End Values.

(** Python's truth value, for [if self.rand]. *)
Definition py_truthy (v : json) : bool :=
  match v with
  | JNull => false
  | JBool b => b
  | JInt z => negb (z =? 0)
  | JFloat q => negb (Qeq_bool q 0)
  | JStr s => negb (String.eqb s "")
  | JList l => negb (List.length l =? 0)%nat
  | JObj kvs => negb (List.length kvs =? 0)%nat
  end.

(** [operator.index(v)], as [range] and [np.linspace] take an integer. *)
Definition index_of (v : json) : result Z :=
  match v with
  | JInt z => Ok z
  | JBool b => Ok (if b then 1 else 0)
  | _ => Err TypeError
  end.

(** The loss named by [config['loss_func']] (the constructor of
    [LinfWRMAttack]). *)
Definition loss_of_json (v : json) : result loss_kind :=
  match v with
  | JStr s => loss_kind_of_string s
  | _ => Err ValueError
  end.

(** [np.linspace(start, stop, n)] for [n >= 0]: [n] evenly spaced values
    from [start], the last one set to [stop]. *)
Definition linspace_values (start stop : Q) (n : Z) : list Q :=
  if n =? 0 then []
  else if n =? 1 then [start]
  else map (fun i => if Z.of_nat i =? n - 1 then stop
                     else (start + inject_Z (Z.of_nat i) * ((stop - start) / inject_Z (n - 1)))%Q)
           (seq 0 (Z.to_nat n)).

(** [np.linspace] checks [num] first ([TypeError] when it is not an
    integer, [ValueError] when it is negative), then converts [stop]. *)
Definition np_linspace (start : Q) (stop num : json) : result (list Q) :=
  let* n := index_of num in
  if n <? 0 then Err ValueError
  else let* q := py_number stop in Ok (linspace_values start q n).

(** ** Lines 30-95 *)

(** What lines 30-71 leave for the rest of the script: the settings as
    read, the learning-rate op and the weight decay. *)
Record settings := mk_settings {
  st_max_steps : json;
  st_output : json;
  st_summary : json;
  st_checkpoint : json;
  st_batch : json;
  st_op : piecewise;
  st_weight_decay : Q;
  st_k : json;
  st_random_start : json;
  st_loss : loss_kind;
  st_epsilon : json;
  st_a : json
}.

(** Lines 30-71, in the order of the script. *)
Definition read_config (c : json) : result settings :=
  let* _ := getitem_str c "random_seed" in
  let* max_steps := getitem_str c "max_num_training_steps" in
  let* nout := getitem_str c "num_output_steps" in
  let* nsum := getitem_str c "num_summary_steps" in
  let* nck := getitem_str c "num_checkpoint_steps" in
  let* bs := getitem_str c "training_batch_size" in
  let* sched := getitem_str c "step_size_schedule" in
  let* wdj := getitem_str c "weight_decay" in
  let* dop := learning_rate_op_json sched in
  let* wd := py_number wdj in
  let* k := getitem_str c "k" in
  let* rs := getitem_str c "random_start" in
  let* lf := getitem_str c "loss_func" in
  let* eps := getitem_str c "epsilon" in
  let* a := getitem_str c "a" in
  let* lk := loss_of_json lf in
  Ok (mk_settings max_steps nout nsum nck bs (snd dop) wd k rs lk eps a).

(** Line 75: [config['model_dir'] + '_robust_e_' + str(config['epsilon'])];
    the first [+] raises [TypeError] when [model_dir] is not a string,
    before [epsilon] is read. *)
Definition model_dir_of `{!PyRepr} (c : json) : result string :=
  let* base := getitem_str c "model_dir" in
  match base with
  | JStr b => let* eps := getitem_str c "epsilon" in Ok (b ++ "_robust_e_" ++ py_str eps)%string
  | _ => Err TypeError
  end.

(** Line 95: [eps_step = np.linspace(0, config['epsilon'],
    config['num_schedule_steps'])]. *)
Definition eps_step_of (c : json) : result (list Q) :=
  let* eps := getitem_str c "epsilon" in
  let* n := getitem_str c "num_schedule_steps" in
  np_linspace 0 eps n.

(** What the first iteration reads, in its order: [range] of line 104,
    the batch size of line 106, [range(self.k)] and [self.a] in
    [perturb] (line 110, [a] only when there is a step), the cadences of
    lines 122, 135 and 143. None of it is read when the loop is empty.
    The cadences are taken as integers (see the header). *)
Definition loop_setup (st : settings) (eps : Q) : result (option (Z * config * attack)) :=
  let* n := index_of (st_max_steps st) in
  if n <=? 0 then Ok None
  else
    let* bs := index_of (st_batch st) in
    let* kz := index_of (st_k st) in
    let* aq := if 0 <? kz then py_number (st_a st) else Ok 0%Q in
    let* nout := index_of (st_output st) in
    let* nsum := index_of (st_summary st) in
    let* nck := index_of (st_checkpoint st) in
    Ok (Some (n, mk_config n nout nsum nck bs [] (st_weight_decay st),
              mk_attack eps kz aq (py_truthy (st_random_start st)) (st_loss st))).

(** [saver.save(sess, os.path.join(model_dir, 'checkpoint'),
    global_step=global_step)] writes the files of prefix
    [model_dir/checkpoint-<step>]. *)
Definition ckpt_prefix (md : string) (step : Z) : string :=
  (md ++ "/checkpoint-" ++ py_str_int step)%string.

(** ** Lemmas *)

Lemma sbind_Ok {A B} (m : script A) (k : A -> script B) f f1 a :
  m f = (f1, Ok a) -> sbind m k f = k a f1.
Proof. intros E. unfold sbind. rewrite E. reflexivity. Qed.

Lemma sbind_Err {A B} (m : script A) (k : A -> script B) f f1 e :
  m f = (f1, Err e) -> sbind m k f = (f1, Err e).
Proof. intros E. unfold sbind. rewrite E. reflexivity. Qed.

Lemma sbind_inv {A B} (m : script A) (k : A -> script B) f f2 b :
  sbind m k f = (f2, Ok b) -> exists f1 a, m f = (f1, Ok a) /\ k a f1 = (f2, Ok b).
Proof. unfold sbind. destruct (m f) as [f1 [a|e]]; [eauto | discriminate]. Qed.

(** The laws of the monad, pointwise on the file system. *)
Lemma sret_sbind {A B} (a : A) (k : A -> script B) f : sbind (sret a) k f = k a f.
Proof. reflexivity. Qed.

Lemma sbind_sret {A} (m : script A) f : sbind m sret f = m f.
Proof. unfold sbind, sret. destruct (m f) as [f' [a|e]]; reflexivity. Qed.

Lemma sbind_assoc {A B C} (m : script A) (k : A -> script B) (h : B -> script C) f :
  sbind (sbind m k) h f = sbind m (fun a => sbind (k a) h) f.
Proof. unfold sbind. destruct (m f) as [f' [a|e]]; reflexivity. Qed.

(** Takes a successful [let!] apart. *)
Ltac inv_sbind :=
  repeat match goal with
  | H : sbind _ _ _ = (_, Ok _) |- _ =>
      let f := fresh "f" in let a := fresh "a" in let Ha := fresh "Ha" in
      apply sbind_inv in H; destruct H as (f & a & Ha & H)
  | H : slift _ _ = (_, _) |- _ => unfold slift in H; injection H as <- H
  end.

Definition mkdir_all (ds : list string) (r : result fs) : result fs :=
  fold_left (fun acc d => let* f' := acc in mkdir_one d f') ds r.

Lemma mkdir_all_Err ds e : mkdir_all ds (Err e) = Err e.
Proof. induction ds as [|d ds IH]; [reflexivity | exact IH]. Qed.

Lemma mkdir_one_Ok d f f1 :
  mkdir_one d f = Ok f1 -> f1 = mk_fs ({[d]} ∪ fs_dirs f) (fs_files f).
Proof. unfold mkdir_one. destruct (is_file d f); intros E; inversion E; reflexivity. Qed.

Lemma mkdir_all_Ok ds f :
  Forall (fun d => is_file d f = false) ds ->
  exists f', mkdir_all ds (Ok f) = Ok f' /\ fs_files f' = fs_files f.
Proof.
  revert f. induction ds as [|d ds IH]; intros f Hd; [exists f; split; reflexivity|].
  inversion Hd as [|? ? Hdf Hds]; subst. unfold mkdir_all. cbn [fold_left bind].
  assert (E : mkdir_one d f = Ok (mk_fs ({[d]} ∪ fs_dirs f) (fs_files f)))
    by (unfold mkdir_one; rewrite Hdf; reflexivity).
  rewrite E. apply (IH (mk_fs _ (fs_files f))).
  eapply Forall_impl; [|exact Hds]. intros x Hx. exact Hx.
Qed.

Lemma mkdir_all_inv ds g g' :
  mkdir_all ds (Ok g) = Ok g' ->
  fs_files g' = fs_files g /\ Forall (fun d => d ∈ fs_dirs g') ds /\ fs_dirs g ⊆ fs_dirs g'.
Proof.
  revert g. induction ds as [|d ds IH]; intros g Hf.
  - injection Hf as <-. split; [reflexivity | split; [constructor | set_solver]].
  - unfold mkdir_all in Hf. cbn [fold_left bind] in Hf.
    destruct (mkdir_one d g) as [g1|e] eqn:Em;
      [|fold (mkdir_all ds (Err e)) in Hf; rewrite (mkdir_all_Err ds e) in Hf; discriminate].
    apply mkdir_one_Ok in Em as ->. fold (mkdir_all ds (Ok (mk_fs ({[d]} ∪ fs_dirs g) (fs_files g)))) in Hf.
    destruct (IH _ Hf) as (Hfl & Hall & Hsub).
    cbn [fs_files fs_dirs] in *. split; [exact Hfl|]. split; [constructor; [set_solver | exact Hall]|].
    set_solver.
Qed.

(** [os.makedirs] creates the directory and changes no file. *)
Lemma makedirs_Ok p f :
  Forall (fun d => is_file d f = false) (parent_dirs p ++ [p]) ->
  exists f', makedirs p f = (f', Ok tt) /\ p ∈ fs_dirs f' /\ fs_files f' = fs_files f.
Proof.
  intros Hd. destruct (mkdir_all_Ok _ f Hd) as (f' & Hfold & Hfiles).
  exists f'. unfold makedirs. fold (mkdir_all (parent_dirs p ++ [p]) (Ok f)). rewrite Hfold.
  split; [reflexivity|]. split; [|exact Hfiles].
  destruct (mkdir_all_inv _ _ _ Hfold) as (_ & Hin & _).
  rewrite Forall_app in Hin. destruct Hin as [_ Hp]. inversion Hp; assumption.
Qed.

Lemma makedirs_inv p f f' :
  makedirs p f = (f', Ok tt) -> p ∈ fs_dirs f' /\ fs_files f' = fs_files f.
Proof.
  unfold makedirs. fold (mkdir_all (parent_dirs p ++ [p]) (Ok f)).
  destruct (mkdir_all _ (Ok f)) as [g|e] eqn:E; intros Hm; [|discriminate].
  injection Hm as <-. destruct (mkdir_all_inv _ _ _ E) as (Hfl & Hall & _).
  rewrite Forall_app in Hall. destruct Hall as [_ Hp]. inversion Hp. auto.
Qed.

Lemma read_config_max_steps c st :
  read_config c = Ok st -> getitem_str c "max_num_training_steps" = Ok (st_max_steps st).
Proof. unfold read_config. intros Hok. inv_bind. injection Hok as <-. assumption. Qed.

(** The attack of the loop has the [epsilon] given to [loop_setup]. *)
Lemma loop_setup_Ok st eps n cfg atk :
  loop_setup st eps = Ok (Some (n, cfg, atk)) ->
  index_of (st_max_steps st) = Ok n /\ 0 < n /\ epsilon atk = eps.
Proof.
  unfold loop_setup. destruct (index_of (st_max_steps st)) as [m|e]; cbn [bind]; [|discriminate].
  intros Hok. destruct (m <=? 0) eqn:E; [discriminate|].
  inv_bind. injection Hok as <- _ <-. split; [reflexivity | split; [lia | reflexivity]].
Qed.

Lemma loop_setup_None st eps :
  loop_setup st eps = Ok None -> exists n, index_of (st_max_steps st) = Ok n /\ n <= 0.
Proof.
  unfold loop_setup. destruct (index_of (st_max_steps st)) as [m|e]; cbn [bind]; [|discriminate].
  intros Hok. exists m. split; [reflexivity|].
  destruct (m <=? 0) eqn:E; [lia|]. inv_bind. discriminate.
Qed.

Lemma read_config_epsilon c st :
  read_config c = Ok st -> getitem_str c "epsilon" = Ok (st_epsilon st).
Proof. unfold read_config. intros Hok. inv_bind. injection Hok as <-. assumption. Qed.

(** What [read_config] keeps of the schedule is the op lines 48-56
    build from [config['step_size_schedule']]. *)
Lemma read_config_op c st sj :
  read_config c = Ok st -> getitem_str c "step_size_schedule" = Ok sj ->
  exists d, learning_rate_op_json sj = Ok (d, st_op st).
Proof.
  unfold read_config. intros Hok Hs. inv_bind. injection Hok as <-. cbn [st_op].
  match goal with
  | Hg : getitem_str c "step_size_schedule" = Ok _, Hop : learning_rate_op_json _ = Ok ?dop |- _ =>
      rewrite Hs in Hg; injection Hg as <-; exists (fst dop); rewrite Hop; destruct dop; reflexivity
  end.
Qed.

Lemma string_app_neq (s t : string) : t <> EmptyString -> s <> (s ++ t)%string.
Proof.
  intros Ht. induction s as [|c s IH]; simpl; [exact (fun E => Ht (eq_sym E))|].
  intros E. injection E as E. exact (IH E).
Qed.

Lemma string_app_inv_l (s t1 t2 : string) : (s ++ t1 = s ++ t2)%string -> t1 = t2.
Proof. induction s as [|c s IH]; simpl; [auto | intros E; injection E; exact IH]. Qed.

(** Lines 76-77 create the directory or leave what exists. *)
Lemma dir_step_inv md f f' u :
  (if path_exists md f then (f, Ok tt) else makedirs md f) = (f', Ok u) ->
  fs_files f' = fs_files f /\ (md ∈ fs_dirs f' \/ is_file md f' = true) /\ fs_dirs f ⊆ fs_dirs f'.
Proof.
  destruct (path_exists md f) eqn:Ep.
  - intros E. injection E as <- _. split; [reflexivity | split; [|set_solver]].
    unfold path_exists, is_file in *. apply orb_true_iff in Ep as [Ep|Ep]; [left | right; exact Ep].
    apply bool_decide_eq_true in Ep. exact Ep.
  - destruct u. intros E. destruct (makedirs_inv _ _ _ E) as [Hin Hfl].
    split; [exact Hfl | split; [left; exact Hin|]].
    unfold makedirs in E. fold (mkdir_all (parent_dirs md ++ [md]) (Ok f)) in E.
    destruct (mkdir_all _ (Ok f)) as [g|e] eqn:Em; [|discriminate]. injection E as <-.
    destruct (mkdir_all_inv _ _ _ Em) as (_ & _ & Hsub). exact Hsub.
Qed.

Lemma copy_file_inv src dst f f' u :
  copy_file src dst f = (f', Ok u) ->
  exists text, fs_files f !! src = Some text /\ fs_dirs f' = fs_dirs f /\
    fs_files f' = <[(if bool_decide (dst ∈ fs_dirs f) then (dst ++ "/" ++ src)%string else dst)
                     := text]> (fs_files f).
Proof.
  unfold copy_file. destruct (fs_files f !! src) as [text|] eqn:E; intros H; [|discriminate].
  injection H as <- _. exists text. split; [reflexivity | split; reflexivity].
Qed.

(** On a path that exists the summary writer changes nothing. *)
Lemma file_writer_exists d f : path_exists d f = true -> file_writer d f = (f, Ok tt).
Proof. unfold file_writer. intros ->. reflexivity. Qed.

Lemma is_dir_inv p f f' b : is_dir p f = (f', Ok b) -> f' = f /\ b = bool_decide (p ∈ fs_dirs f).
Proof. unfold is_dir. intros H. injection H as <- <-. split; reflexivity. Qed.

(** A path the configuration was copied to exists. *)
Lemma copy_file_exists src dst f f' u :
  copy_file src dst f = (f', Ok u) -> dst ∈ fs_dirs f -> path_exists dst f' = true.
Proof.
  intros H Hd. destruct (copy_file_inv _ _ _ _ _ H) as (_ & _ & Hdirs & _).
  unfold path_exists. rewrite Hdirs, bool_decide_true by exact Hd. reflexivity.
Qed.

Lemma read_file_inv p f f' text :
  read_file p f = (f', Ok text) -> f' = f /\ fs_files f !! p = Some text.
Proof.
  unfold read_file. destruct (fs_files f !! p) eqn:E; intros H; [|discriminate].
  injection H as <- <-. split; reflexivity.
Qed.

(** Checkpoints of distinct global steps have distinct names:
    [model_dir/checkpoint-<step>] determines the step, as [int()] reads
    back [str()] of an integer. *)
Theorem ckpt_prefix_injective md k1 k2 : ckpt_prefix md k1 = ckpt_prefix md k2 -> k1 = k2.
Proof.
  unfold ckpt_prefix. intros E. apply string_app_inv_l, string_app_inv_l in E.
  pose proof (parse_int_str k1) as H1. rewrite E, parse_int_str in H1. congruence.
Qed.

Section Main.
Context {Params Data Rng : Type} `{Classifier Params}.
Context `{!Model Params} `{!Optimizer Params} `{!Dataset Data} `{!Clock} `{!JsonLoad} `{!PyRepr}.
(** numpy's [np.random.uniform] on its global state. *)
Variable uniform : Q -> Rng -> batch -> Rng * batch.
Hypothesis uniform_ok : forall eps r x, (0 <= eps)%Q -> noise_ok eps (snd (uniform eps r x)) x.
(** The initial parameters, data cursor and random state, and the
    checkpoints an earlier run left in [model_dir]. *)
Variables (p0 : Params) (d0 : Data) (r0 : Rng) (ck0 : gmap Z Params).

(** Lines 100-152: the loop of [Driver] with the attack built from the
    settings; [dir_ok] says whether [saver.save] finds [model_dir] as a
    directory (the loop does not change the file system). *)
Definition run_loop (st : settings) (eps : Q) (dir_ok : bool) : result train_state :=
  let* setup := loop_setup st eps in
  match setup with
  | None => Ok (init_state p0 d0 r0 ck0)
  | Some (n, cfg, atk) =>
      @train_loop Params Data Rng _ (linf_adversary uniform uniform_ok atk) _ _ _ _
                  dir_ok cfg (st_op st) (Z.to_nat n) 0 (init_state p0 d0 r0 ck0)
  end.

(** The script. *)
Definition main : script train_state :=
  let! text := read_file "config.json" in
  let! cfg := slift (json_load text) in
  let! st := slift (read_config cfg) in
  let! md := slift (model_dir_of cfg) in
  let! _ := (fun f => if path_exists md f then (f, Ok tt) else makedirs md f) in
  let! _ := slift (py_number (st_batch st)) in
  let! _ := copy_file "config.json" md in
  let! _ := slift (eps_step_of cfg) in
  let! _ := file_writer md in
  let! eps := slift (py_number (st_epsilon st)) in
  let! dir_ok := is_dir md in
  slift (run_loop st eps dir_ok).

(** A successful run, step by step: it read its configuration, made
    sure the model directory exists (or found a file there), copied the
    configuration into the directory or over that file, and ran the loop
    with [saver.save] finding a directory or not. *)
Lemma main_Ok f f' s :
  main f = (f', Ok s) ->
  exists text cfg st md eps f4,
    fs_files f !! "config.json" = Some text /\ json_load text = Ok cfg /\
    read_config cfg = Ok st /\ model_dir_of cfg = Ok md /\ py_number (st_epsilon st) = Ok eps /\
    fs_files f4 = fs_files f /\ fs_dirs f' = fs_dirs f4 /\
    fs_files f' = <[(if bool_decide (md ∈ fs_dirs f4) then (md ++ "/config.json")%string else md)
                    := text]> (fs_files f) /\
    run_loop st eps (bool_decide (md ∈ fs_dirs f4)) = Ok s.
Proof.
  unfold main. intros Hm. inv_sbind. apply read_file_inv in Ha as [-> Ht].
  destruct (dir_step_inv _ _ _ _ Ha3) as (Hfl4 & _ & _).
  destruct (copy_file_inv _ _ _ _ _ Ha5) as (text & Hsrc & Hd6 & Hfl6).
  rewrite Hfl4, Ht in Hsrc. injection Hsrc as <-.
  assert (Hx : path_exists a3 f6 = true).
  { unfold path_exists. rewrite Hd6, Hfl6. case_bool_decide; [reflexivity|].
    rewrite lookup_insert_eq. cbn [orb]. apply bool_decide_eq_true. eexists; reflexivity. }
  rewrite (file_writer_exists _ _ Hx) in Ha7. injection Ha7 as <- _.
  apply is_dir_inv in Ha9 as [-> ->]. rewrite Hd6 in Hm.
  exists a0, a1, a2, a3, a9, f4. repeat split; try assumption. rewrite Hfl6, Hfl4. reflexivity.
Qed.


(** Every property each iteration keeps holds of the state the script
    ends in, when it holds initially and the loop has the epsilon of the
    configuration. *)
Lemma run_loop_preserves (P : Q -> train_state -> Prop) st eps dir_ok s :
  run_loop st eps dir_ok = Ok s ->
  (forall atk, epsilon atk = eps ->
     forall cfg ii s1 s2,
       @train_iteration Params Data Rng _ (linf_adversary uniform uniform_ok atk) _ _ _ _
                        dir_ok cfg (st_op st) ii s1 = Ok s2 -> P eps s1 -> P eps s2) ->
  P eps (init_state p0 d0 r0 ck0) -> P eps s.
Proof.
  unfold run_loop. intros Hok Hstep Hinit.
  destruct (loop_setup st eps) as [[[[n cfg] atk]|]|e] eqn:Ha; cbn [bind] in Hok; [| |discriminate].
  - apply loop_setup_Ok in Ha as (_ & _ & Heps).
    eapply (@train_loop_preserves Params Data Rng _ (linf_adversary uniform uniform_ok atk) _ _ _ _
              dir_ok (P eps)); [| exact Hok | exact Hinit].
    intros ii s1 s2. apply (Hstep atk Heps).
  - injection Hok as <-. exact Hinit.
Qed.

(** Lines 26-93 on a configuration that reads and a model directory that
    does not exist and has no file on its way: the script reaches line 95
    with the directory created and the configuration copied into it. *)
Lemma main_setup f text cfg st md b :
  fs_files f !! "config.json" = Some text -> json_load text = Ok cfg ->
  read_config cfg = Ok st -> model_dir_of cfg = Ok md ->
  path_exists md f = false -> Forall (fun d => is_file d f = false) (parent_dirs md ++ [md]) ->
  py_number (st_batch st) = Ok b ->
  exists f1, md ∈ fs_dirs f1 /\ fs_files f1 = fs_files f /\
    main f = (let! _ := slift (eps_step_of cfg) in
              let! _ := file_writer md in
              let! eps := slift (py_number (st_epsilon st)) in
              let! dir_ok := is_dir md in
              slift (run_loop st eps dir_ok))
             (mk_fs (fs_dirs f1) (<[(md ++ "/config.json")%string := text]> (fs_files f1))).
Proof.
  intros Hf Hl Hr Hm Hx Hd Hb.
  destruct (makedirs_Ok md f Hd) as (f1 & Hmk & Hin1 & Hfl1).
  exists f1. split; [exact Hin1|]. split; [exact Hfl1|]. unfold main.
  rewrite (sbind_Ok _ _ f f text) by (unfold read_file; rewrite Hf; reflexivity).
  rewrite (sbind_Ok _ _ f f cfg) by (unfold slift; rewrite Hl; reflexivity).
  rewrite (sbind_Ok _ _ f f st) by (unfold slift; rewrite Hr; reflexivity).
  rewrite (sbind_Ok _ _ f f md) by (unfold slift; rewrite Hm; reflexivity).
  rewrite (sbind_Ok _ _ f f1 tt) by (rewrite Hx; exact Hmk).
  rewrite (sbind_Ok _ _ f1 f1 b) by (unfold slift; rewrite Hb; reflexivity).
  rewrite (sbind_Ok _ _ f1 (mk_fs (fs_dirs f1)
                              (<[(md ++ "/config.json")%string := text]> (fs_files f1))) tt)
    by (unfold copy_file; rewrite Hfl1, Hf, bool_decide_true by exact Hin1; reflexivity).
  reflexivity.
Qed.

(** The loop of lines 104-152 returns when [saver.save] finds the
    directory, the cadences are not zero, every rate of the schedule can
    be computed and the timer is positive. *)
Lemma run_loop_Ok st eps o :
  loop_setup st eps = Ok o ->
  (forall n c atk, o = Some (n, c, atk) ->
     num_output_steps c <> 0 /\ num_summary_steps c <> 0 /\ num_checkpoint_steps c <> 0) ->
  (forall step, exists lr, learning_rate (st_op st) step = Ok lr) ->
  (forall j, 0 < attack_time j /\ 0 <= train_time j)%Q ->
  exists s, run_loop st eps true = Ok s.
Proof.
  intros Ha Hc Hlr Hclk. unfold run_loop. rewrite Ha. cbn [bind].
  destruct o as [[[n c] atk]|]; [|eexists; reflexivity].
  destruct (Hc n c atk eq_refl) as (Ho & Hs & Hck).
  apply (@train_loop_progress Params Data Rng _ (linf_adversary uniform uniform_ok atk) _ _ _ _
           true); [reflexivity | exact Ho | exact Hs | exact Hck | exact Hlr | exact Hclk | simpl; lra].
Qed.

(** [C25] The script runs to its end: on a configuration whose settings
    read, whose schedule, written as [[step, rate]] pairs, is sorted,
    whose cadences are not zero, into a model directory that does not
    exist yet and has no file on its way, with a positive timer, [main]
    returns without an exception (the loop runs all its steps). These are
    the only ways the script can fail. *)
Theorem main_succeeds f text cfg st sch md b l eps o :
  fs_files f !! "config.json" = Some text -> json_load text = Ok cfg ->
  read_config cfg = Ok st ->
  getitem_str cfg "step_size_schedule" = Ok (json_of_schedule sch) ->
  sortedb (schedule_boundaries sch) = true ->
  model_dir_of cfg = Ok md ->
  path_exists md f = false -> Forall (fun d => is_file d f = false) (parent_dirs md ++ [md]) ->
  py_number (st_batch st) = Ok b -> eps_step_of cfg = Ok l ->
  py_number (st_epsilon st) = Ok eps -> loop_setup st eps = Ok o ->
  (forall n c atk, o = Some (n, c, atk) ->
     num_output_steps c <> 0 /\ num_summary_steps c <> 0 /\ num_checkpoint_steps c <> 0) ->
  (forall j, 0 < attack_time j /\ 0 <= train_time j)%Q ->
  exists f' s, main f = (f', Ok s).
Proof.
  intros Hf Hl Hr Hsj Hsort Hm Hx Hd Hb He Heps Ho Hc Hclk.
  destruct (main_setup f text cfg st md b Hf Hl Hr Hm Hx Hd Hb) as (f1 & Hin1 & Hfl1 & ->).
  destruct (read_config_op _ _ _ Hr Hsj) as [d Hop].
  rewrite learning_rate_op_json_of_schedule in Hop.
  destruct (learning_rate_op sch) as [pw|e] eqn:Hpw; cbn [bind] in Hop; [|discriminate].
  injection Hop as _ Hpw'.
  destruct (run_loop_Ok st eps o Ho Hc) as [s Hs];
    [intros step; eexists; rewrite <- Hpw'; exact (learning_rate_sorted_Ok _ _ step Hpw Hsort)
    | exact Hclk |].
  set (f2 := mk_fs (fs_dirs f1) (<[(md ++ "/config.json")%string := text]> (fs_files f1))).
  assert (Hin2 : md ∈ fs_dirs f2) by exact Hin1.
  exists f2, s.
  rewrite (sbind_Ok _ _ f2 f2 l) by (unfold slift; rewrite He; reflexivity).
  rewrite (sbind_Ok _ _ f2 f2 tt)
    by (apply file_writer_exists; unfold path_exists; rewrite bool_decide_true by exact Hin2;
        reflexivity).
  rewrite (sbind_Ok _ _ f2 f2 eps) by (unfold slift; rewrite Heps; reflexivity).
  rewrite (sbind_Ok _ _ f2 f2 true)
    by (unfold is_dir; rewrite bool_decide_true by exact Hin2; reflexivity).
  unfold slift. rewrite Hs. reflexivity.
Qed.


(** [C23] The configuration is read piecemeal: a configuration without
    [num_schedule_steps] passes lines 26-93, so that the model directory
    is created and the copy of the configuration written, and the script
    stops at line 95 with [KeyError], before any training. *)
Theorem main_missing_schedule_steps f text cfg st md b :
  fs_files f !! "config.json" = Some text -> json_load text = Ok cfg ->
  read_config cfg = Ok st -> model_dir_of cfg = Ok md ->
  path_exists md f = false -> Forall (fun d => is_file d f = false) (parent_dirs md ++ [md]) ->
  py_number (st_batch st) = Ok b ->
  getitem_str cfg "num_schedule_steps" = Err KeyError ->
  exists f', main f = (f', Err KeyError) /\ md ∈ fs_dirs f' /\
             fs_files f' !! (md ++ "/config.json")%string = Some text.
Proof.
  intros Hf Hl Hr Hm Hx Hd Hb Hk.
  destruct (main_setup f text cfg st md b Hf Hl Hr Hm Hx Hd Hb) as (f1 & Hin1 & _ & ->).
  exists (mk_fs (fs_dirs f1) (<[(md ++ "/config.json")%string := text]> (fs_files f1))).
  split; [| split; [exact Hin1 | apply lookup_insert_eq]].
  apply sbind_Err. unfold slift, eps_step_of. rewrite (read_config_epsilon _ _ Hr).
  cbn [bind]. rewrite Hk. reflexivity.
Qed.

(** [C24] Line 76 tests [os.path.exists], not [os.path.isdir]: when a
    file is where the model directory should be, [makedirs] is skipped,
    [shutil.copy] of line 93 overwrites that file with the configuration,
    the summary writer of line 99 accepts the existing path, and the
    script stops with [ValueError] at [saver.save] in the first training
    iteration (line 144), the file still in place of the directory. *)
Theorem main_file_as_model_dir f text cfg st md old b l eps n c atk :
  fs_files f !! "config.json" = Some text -> json_load text = Ok cfg ->
  read_config cfg = Ok st -> model_dir_of cfg = Ok md ->
  fs_files f !! md = Some old -> md ∉ fs_dirs f ->
  py_number (st_batch st) = Ok b -> eps_step_of cfg = Ok l ->
  py_number (st_epsilon st) = Ok eps -> loop_setup st eps = Ok (Some (n, c, atk)) ->
  num_output_steps c <> 0 -> num_summary_steps c <> 0 -> num_checkpoint_steps c <> 0 ->
  exists f', main f = (f', Err ValueError) /\ fs_files f' !! md = Some text /\ md ∉ fs_dirs f'.
Proof.
  intros Hf Hl Hr Hm Hold Hnd Hb He Heps Hs Ho Hsu Hc.
  assert (Hx : path_exists md f = true)
    by (unfold path_exists; rewrite Hold; apply orb_true_iff; right;
        apply bool_decide_eq_true; eexists; reflexivity).
  set (f2 := mk_fs (fs_dirs f) (<[md := text]> (fs_files f))).
  assert (Hx2 : path_exists md f2 = true)
    by (unfold path_exists; cbn [fs_files f2]; rewrite lookup_insert_eq; apply orb_true_iff; right;
        apply bool_decide_eq_true; eexists; reflexivity).
  exists f2. split; [| split; [apply lookup_insert_eq | exact Hnd]].
  unfold main.
  rewrite (sbind_Ok _ _ f f text) by (unfold read_file; rewrite Hf; reflexivity).
  rewrite (sbind_Ok _ _ f f cfg) by (unfold slift; rewrite Hl; reflexivity).
  rewrite (sbind_Ok _ _ f f st) by (unfold slift; rewrite Hr; reflexivity).
  rewrite (sbind_Ok _ _ f f md) by (unfold slift; rewrite Hm; reflexivity).
  rewrite (sbind_Ok _ _ f f tt) by (rewrite Hx; reflexivity).
  rewrite (sbind_Ok _ _ f f b) by (unfold slift; rewrite Hb; reflexivity).
  rewrite (sbind_Ok _ _ f f2 tt)
    by (unfold copy_file; rewrite Hf, bool_decide_false by exact Hnd; reflexivity).
  rewrite (sbind_Ok _ _ f2 f2 l) by (unfold slift; rewrite He; reflexivity).
  rewrite (sbind_Ok _ _ f2 f2 tt) by (apply file_writer_exists; exact Hx2).
  rewrite (sbind_Ok _ _ f2 f2 eps) by (unfold slift; rewrite Heps; reflexivity).
  rewrite (sbind_Ok _ _ f2 f2 false)
    by (unfold is_dir; rewrite bool_decide_false by exact Hnd; reflexivity).
  unfold slift, run_loop. rewrite Hs. cbn [bind].
  destruct (loop_setup_Ok _ _ _ _ _ Hs) as (_ & Hn & _).
  replace (Z.to_nat n) with (S (Z.to_nat (n - 1))) by lia.
  rewrite (@train_loop_no_dir Params Data Rng _ (linf_adversary uniform uniform_ok atk) _ _ _ _
             false c (st_op st) _ _ eq_refl Ho Hsu Hc).
  reflexivity.
Qed.

(** [C34] A configuration error of lines 30-71 (a missing key, a
    schedule [piecewise_constant] refuses, a [weight_decay] that is not a
    number, a [loss_func] [LinfWRMAttack] does not know) stops the script
    with that exception before line 76: the file system is left as it
    was, no model directory is created and nothing is copied. *)
Theorem main_config_error f text cfg e :
  fs_files f !! "config.json" = Some text -> json_load text = Ok cfg ->
  read_config cfg = Err e -> main f = (f, Err e).
Proof.
  intros Ht Hl Hr. unfold main.
  rewrite (sbind_Ok _ _ f f text) by (unfold read_file; rewrite Ht; reflexivity).
  rewrite (sbind_Ok _ _ f f cfg) by (unfold slift; rewrite Hl; reflexivity).
  apply sbind_Err. unfold slift. rewrite Hr. reflexivity.
Qed.

(** [C29] The script stops after exactly the configured number of
    training steps (section 4.2.6 of the specification, no early stop):
    a successful run ends at global step
    [max(0, config['max_num_training_steps'])]. *)
Theorem main_configured_steps f f' s :
  main f = (f', Ok s) ->
  exists text cfg v n, fs_files f !! "config.json" = Some text /\ json_load text = Ok cfg /\
    getitem_str cfg "max_num_training_steps" = Ok v /\ index_of v = Ok n /\
    global_step s = Z.max 0 n.
Proof.
  intros Hm. destruct (main_Ok _ _ _ Hm)
    as (text & cfg & st & md & eps & f4 & Ht & Hl & Hr & _ & _ & _ & _ & _ & Hrun).
  exists text, cfg, (st_max_steps st). unfold run_loop in Hrun.
  destruct (loop_setup st eps) as [[[[n c] atk]|]|e] eqn:Ha; cbn [bind] in Hrun; [| |discriminate].
  - destruct (loop_setup_Ok _ _ _ _ _ Ha) as (Hn & Hpos & _). exists n.
    repeat split; try assumption; [apply read_config_max_steps; exact Hr|].
    rewrite (train_loop_global_step _ _ _ _ _ _ _ Hrun). simpl. lia.
  - destruct (loop_setup_None _ _ Ha) as (n & Hn & Hle). exists n.
    repeat split; try assumption; [apply read_config_max_steps; exact Hr|].
    injection Hrun as <-. simpl. lia.
Qed.

(** The attack's bound through the whole script, for any data set that
    yields valid pixels of the model's input shape: when the configured
    [epsilon] is not negative, every perturbation size the run prints
    (line 127) is at most [config['epsilon']]. *)
Lemma main_events_bounded f f' s text cfg v eps :
  (forall d bs, in_unit (fst (snd (get_next_batch d bs))) /\
                well_shaped (fst (snd (get_next_batch d bs)))) ->
  main f = (f', Ok s) -> fs_files f !! "config.json" = Some text -> json_load text = Ok cfg ->
  getitem_str cfg "epsilon" = Ok v -> py_number v = Ok eps -> (0 <= eps)%Q ->
  Forall (event_ok eps) (log s).
Proof.
  intros Hdata Hm Ht Hl Hv He Hnn.
  destruct (main_Ok _ _ _ Hm)
    as (text' & cfg' & st & md & eps' & f4 & Ht' & Hl' & Hr & _ & He' & _ & _ & _ & Hrun).
  rewrite Ht in Ht'. injection Ht' as <-. rewrite Hl in Hl'. injection Hl' as <-.
  rewrite (read_config_epsilon _ _ Hr) in Hv. injection Hv as Hv.
  rewrite Hv, He in He'. injection He' as <-.
  apply (run_loop_preserves (fun e s => Forall (event_ok e) (log s)) st eps
           (bool_decide (md ∈ fs_dirs f4)) s Hrun);
    [| constructor].
  intros atk Heps cfg'' ii s1 s2 Hit. rewrite <- Heps.
  apply (@train_iteration_log_bounded Params Data Rng _ (linf_adversary uniform uniform_ok atk)
           _ _ _ _ (bool_decide (md ∈ fs_dirs f4)) cfg'' (st_op st) ii s1 s2);
    [exact Hdata | simpl; rewrite Heps; exact Hnn | exact Hit].
Qed.

End Main.

(** ** The script on the Yale training set

    [main] with [YALE_TRAIN = DataSubset(train_data, train_label)] as its
    data set, from a fresh cursor. *)

Section Yale.
Context {Params Rng : Type} `{Classifier Params}.
Context `{!Model Params} `{!Optimizer Params} `{!Clock} `{!JsonLoad} `{!PyRepr}.
Variable uniform : Q -> Rng -> batch -> Rng * batch.
Hypothesis uniform_ok : forall eps r x, (0 <= eps)%Q -> noise_ok eps (snd (uniform eps r x)) x.
Variables (p0 : Params) (r0 : Rng) (ck0 : gmap Z Params).
(** The training and test sets [YALE_split] returns (line 39). *)
Variables (xs tx : batch) (ys ty : labels).

#[local] Instance yale_train : Dataset nat := data_subset xs ys tx ty.

(** [C30] The attack's bound, through the whole script on the Yale data:
    when the training images are pixels in [[0, 1]] of the model's input
    shape and the configured [epsilon] is not negative, every
    perturbation size a successful run prints (line 127) is at most
    [config['epsilon']]. *)
Theorem main_log_bounded f f' s text cfg v eps :
  in_unit xs -> well_shaped xs ->
  main uniform uniform_ok p0 0%nat r0 ck0 f = (f', Ok s) ->
  fs_files f !! "config.json" = Some text -> json_load text = Ok cfg ->
  getitem_str cfg "epsilon" = Ok v -> py_number v = Ok eps -> (0 <= eps)%Q ->
  Forall (event_ok eps) (log s).
Proof.
  intros Hu Hw. apply (main_events_bounded uniform uniform_ok p0 0%nat r0 ck0).
  exact (next_batch_valid xs ys Hu Hw).
Qed.
End Yale.

(** ** A concrete run

    The environment of the concrete run of [Driver], a configuration
    like the repository's (schedule of the specification, [k = 1]), and a
    file system holding only [config.json]. *)

#[local] Existing Instance lin.
#[local] Existing Instances model_ex optimizer_ex dataset_ex clock_ex.

Definition json_ex : json :=
  JObj [("random_seed", JInt 1); ("max_num_training_steps", JInt 3);
        ("num_output_steps", JInt 2); ("num_summary_steps", JInt 2);
        ("num_checkpoint_steps", JInt 2); ("training_batch_size", JInt 2);
        ("step_size_schedule", json_of_schedule spec_schedule); ("weight_decay", JFloat (1#100));
        ("k", JInt 1); ("random_start", JBool false); ("loss_func", JStr "xent");
        ("epsilon", JFloat (1#10)); ("a", JFloat (1#20)); ("model_dir", JStr "models/yale");
        ("num_schedule_steps", JInt 5)].

(** The same configuration without [num_schedule_steps]. *)
Definition json_no_steps : json :=
  match json_ex with JObj kvs => JObj (removelast kvs) | v => v end.

Definition text_ex : string := "config".
Definition text_no_steps : string := "config without num_schedule_steps".

(** The configuration with [loss_func = "hinge"]. *)
Definition json_hinge : json :=
  match json_ex with
  | JObj kvs => JObj (map (fun kv => if String.eqb (fst kv) "loss_func"
                                     then ("loss_func", JStr "hinge") else kv) kvs)
  | v => v
  end.

Definition text_hinge : string := "config with an unknown loss".

#[local] Instance json_load_ex : JsonLoad :=
  {| json_load := fun t => if String.eqb t text_ex then Ok json_ex
                           else if String.eqb t text_no_steps then Ok json_no_steps
                           else if String.eqb t text_hinge then Ok json_hinge
                           else Err ValueError |}.

#[local] Instance repr_ex : PyRepr :=
  {| float_repr := fun q => if Qeq_bool q (1#10) then "0.1" else "0.0";
     container_repr := fun _ => "[]" |}.

Definition fs_ex (text : string) : fs := mk_fs ∅ {[ "config.json" := text ]}.

Definition md_ex : string := "models/yale_robust_e_0.1".

Definition main_ex : script (@train_state image nat unit) :=
  main uniform_zero uniform_zero_ok dw_ex O tt ∅.

Lemma main_ex_Ok : exists f' s, main_ex (fs_ex text_ex) = (f', Ok s).
Proof. vm_compute. do 2 eexists. reflexivity. Qed.


Lemma main_missing_schedule_steps_witness :
  exists f', main_ex (fs_ex text_no_steps) = (f', Err KeyError) /\ md_ex ∈ fs_dirs f' /\
             fs_files f' !! (md_ex ++ "/config.json")%string = Some text_no_steps.
Proof.
  eapply (main_missing_schedule_steps uniform_zero uniform_zero_ok dw_ex O tt ∅
            (fs_ex text_no_steps) text_no_steps json_no_steps); try reflexivity.
  vm_compute. repeat constructor.
Defined.

Lemma main_file_as_model_dir_witness :
  exists f', main_ex (mk_fs ∅ {[ "config.json" := text_ex; md_ex := "old results" ]}) =
               (f', Err ValueError) /\ fs_files f' !! md_ex = Some text_ex /\ md_ex ∉ fs_dirs f'.
Proof.
  eapply (main_file_as_model_dir uniform_zero uniform_zero_ok dw_ex O tt ∅
            _ text_ex json_ex _ md_ex "old results"); try reflexivity;
    [apply not_elem_of_empty | cbn; lia ..].
Defined.

Lemma main_config_error_witness :
  main_ex (fs_ex text_hinge) = (fs_ex text_hinge, Err ValueError).
Proof.
  apply (main_config_error uniform_zero uniform_zero_ok dw_ex O tt ∅ (fs_ex text_hinge) text_hinge
           json_hinge ValueError); reflexivity.
Defined.

Lemma main_succeeds_witness : exists f' s, main_ex (fs_ex text_ex) = (f', Ok s).
Proof.
  eapply (main_succeeds uniform_zero uniform_zero_ok dw_ex O tt ∅ (fs_ex text_ex) text_ex json_ex _
           spec_schedule md_ex _ _ (1#10) _); try reflexivity.
  - vm_compute. repeat constructor.
  - intros n c atk E. vm_compute in E. injection E as <- <- <-. vm_compute.
    split; [discriminate | split; discriminate].
  - intros j. cbv [attack_time train_time clock_ex]. split; lra.
Defined.

Lemma main_configured_steps_witness :
  exists f' s, main_ex (fs_ex text_ex) = (f', Ok s) /\ global_step s = Z.max 0 3.
Proof.
  destruct main_ex_Ok as (f' & s & Hs). exists f', s. split; [exact Hs|].
  destruct (main_configured_steps _ _ _ _ _ _ _ _ _ Hs) as (text & cfg & v & n & Ht & Hl & Hv & Hn & Hg).
  vm_compute in Ht. injection Ht as <-. vm_compute in Hl. injection Hl as <-.
  vm_compute in Hv. injection Hv as <-. vm_compute in Hn. injection Hn as <-. exact Hg.
Defined.

Definition main_yale_ex : script (@train_state image nat unit) :=
  @main image nat unit lin model_ex optimizer_ex (data_subset x_ex y_ex x_ex y_ex) clock_ex
        json_load_ex repr_ex uniform_zero uniform_zero_ok dw_ex 0%nat tt ∅.

Lemma main_yale_ex_Ok : exists f' s, main_yale_ex (fs_ex text_ex) = (f', Ok s).
Proof. vm_compute. do 2 eexists. reflexivity. Qed.

Lemma main_log_bounded_witness :
  exists f' s, main_yale_ex (fs_ex text_ex) = (f', Ok s) /\ Forall (event_ok (1#10)) (log s).
Proof.
  destruct main_yale_ex_Ok as (f' & s & Hs). exists f', s. split; [exact Hs|].
  apply (main_log_bounded uniform_zero uniform_zero_ok dw_ex tt ∅ x_ex x_ex y_ex y_ex
           (fs_ex text_ex) f' s text_ex json_ex (JFloat (1#10)) (1#10));
    [concrete | concrete | exact Hs | reflexivity | reflexivity | reflexivity | reflexivity | lra].
Defined.

End Script.
